(** * Court-record extraction layer: shallow embedding and verified properties

    The development embeds [utils/parser.py] (class [CourtRecordParser]) and
    the record classes of [models/schemas.py] it constructs.

    Conventions of the embedding:
    - a Python [str] is a Rocq [string]; a character is a code point below
      256, so that whitespace ([str.isspace]) and decimal digits ([\d] of
      [re]) are exactly the ones Python knows in that range;
    - a Python [int] is a [Z];
    - a call that may raise returns a [res]: [Ret v] for a normal return,
      [Raise e] for an exception; [try ... except] is [catch];
    - the input of the two extractors is the tree that
      [BeautifulSoup(html, 'html.parser')] builds: text-to-tree parsing
      belongs to the library and is not part of the embedding. *)

From Stdlib Require Import String Ascii List ZArith Lia Bool Arith.
From Stdlib Require Import Permutation.
Import ListNotations.
Open Scope string_scope.
Open Scope list_scope.

(** ** Python string operations used by the parser *)

Module PyStr.

(** [str.isspace] on one character (code points below 256). *)
Definition is_space (c : ascii) : bool :=
  let n := nat_of_ascii c in
  (((9 <=? n) && (n <=? 13)) || ((28 <=? n) && (n <=? 32))
   || (n =? 133) || (n =? 160))%nat.

Fixpoint lstrip (s : string) : string :=
  match s with
  | EmptyString => EmptyString
  | String c s' => if is_space c then lstrip s' else s
  end.

Fixpoint rstrip (s : string) : string :=
  match s with
  | EmptyString => EmptyString
  | String c s' =>
      match rstrip s' with
      | EmptyString => if is_space c then EmptyString else String c EmptyString
      | r => String c r
      end
  end.

(** [s.strip()] *)
Definition strip (s : string) : string := rstrip (lstrip s).

(** Truth value of a string: [bool(s)], as in [if s:] and [not s]. *)
Definition truthy (s : string) : bool :=
  match s with EmptyString => false | String _ _ => true end.

(** [p in s] *)
Fixpoint contains (p s : string) : bool :=
  prefix p s
  || match s with
     | EmptyString => false
     | String _ s' => contains p s'
     end.

Fixpoint drop (n : nat) (s : string) : string :=
  match n, s with
  | S k, String _ s' => drop k s'
  | _, _ => s
  end.

(** [s.partition(sep)] at the leftmost occurrence of [sep]: the text before
    it and the text after it, or [None] when [sep] does not occur. *)
Fixpoint cut (sep s : string) : option (string * string) :=
  if prefix sep s then Some (EmptyString, drop (String.length sep) s)
  else match s with
       | EmptyString => None
       | String c s' =>
           match cut sep s' with
           | Some (a, b) => Some (String c a, b)
           | None => None
           end
       end.

Fixpoint split_fuel (fuel : nat) (sep s : string) : list string :=
  match fuel with
  | O => [s]
  | S fuel' =>
      match cut sep s with
      | Some (a, b) => a :: split_fuel fuel' sep b
      | None => [s]
      end
  end.

(** [s.split(sep)] for a non-empty [sep]: cut at the leftmost occurrence and
    go on in the remainder.  Each cut removes at least one character, so
    [length s] rounds are enough. *)
Definition split (sep s : string) : list string :=
  split_fuel (String.length s) sep s.

(** [str.lower] on one character (code points below 256). *)
Definition lower_char (c : ascii) : ascii :=
  let n := nat_of_ascii c in
  if (((65 <=? n) && (n <=? 90))
      || ((192 <=? n) && (n <=? 222) && negb (n =? 215)))%nat
  then ascii_of_nat (n + 32) else c.

Fixpoint lower (s : string) : string :=
  match s with
  | EmptyString => EmptyString
  | String c s' => String (lower_char c) (lower s')
  end.

End PyStr.

(** ** Exceptions *)

Inductive exn : Type :=
| ValueError (msg : string)
| IndexError (msg : string)
| ValidationError (model field : string).

Inductive res (A : Type) : Type :=
| Ret (a : A)
| Raise (e : exn).

Arguments Ret {A} a.
Arguments Raise {A} e.

Definition bind {A B : Type} (m : res A) (k : A -> res B) : res B :=
  match m with
  | Ret a => k a
  | Raise e => Raise e
  end.

(** [try: m  except Exception: h] *)
Definition catch {A : Type} (m : res A) (h : exn -> res A) : res A :=
  match m with
  | Ret a => Ret a
  | Raise e => h e
  end.

Notation "x <- m ;; k" := (bind m (fun x => k))
  (at level 61, m at next level, right associativity).

(** A loop [for x in xs: acc.append(f(x))] whose body may raise. *)
Fixpoint for_each {A B : Type} (f : A -> res (list B)) (xs : list A)
  : res (list B) :=
  match xs with
  | [] => Ret []
  | x :: xs' => ys <- f x ;; zs <- for_each f xs' ;; Ret (ys ++ zs)
  end.

(** ** [datetime.strptime] and [datetime.strftime]

    [_strptime.py] turns a format into a regular expression, one named
    group per directive, and matches it at the start of the text:
      [%m] is [(?P<m>1[0-2]|0[1-9]|[1-9])],
      [%d] is [(?P<d>3[0-1]|[1-2]\d|0[1-9]|[1-9]| [1-9])],
      [%Y] is [(?P<Y>\d\d\d\d)],
    any other character of the three formats used here stands for itself.
    The alternatives of a group are tried from left to right, and a later
    failure comes back to the next alternative. *)

Module Datetime.

(** The [datetime] value [strptime] builds from [%Y], [%m] and [%d]; the
    time of day is midnight. *)
Record datetime : Type := { year : Z; month : Z; day : Z }.

Definition cclass := ascii -> bool.

Definition is_digit : cclass := fun c =>
  let n := nat_of_ascii c in ((48 <=? n) && (n <=? 57))%nat.

Definition between (lo hi : ascii) : cclass := fun c =>
  ((nat_of_ascii lo <=? nat_of_ascii c)
   && (nat_of_ascii c <=? nat_of_ascii hi))%nat.

Definition exactly (a : ascii) : cclass := fun c => Ascii.eqb a c.

Inductive item : Type :=
| Lit (c : ascii)
| Group (name : ascii) (alts : list (list cclass)).

Definition group_m : item :=
  Group "m" [ [exactly "1"; between "0" "2"];
              [exactly "0"; between "1" "9"];
              [between "1" "9"] ].

Definition group_d : item :=
  Group "d" [ [exactly "3"; between "0" "1"];
              [between "1" "2"; is_digit];
              [exactly "0"; between "1" "9"];
              [between "1" "9"];
              [exactly " "; between "1" "9"] ].

Definition group_Y : item :=
  Group "Y" [ [is_digit; is_digit; is_digit; is_digit] ].

(** [TimeRE.pattern(format)] for formats made of [%m], [%d], [%Y] and
    literal characters; [None] is a format outside that fragment. *)
Fixpoint pattern (format : list ascii) : option (list item) :=
  match format with
  | [] => Some []
  | "%"%char :: d :: format' =>
      match pattern format' with
      | Some items =>
          if Ascii.eqb d "m" then Some (group_m :: items)
          else if Ascii.eqb d "d" then Some (group_d :: items)
          else if Ascii.eqb d "Y" then Some (group_Y :: items)
          else None
      | None => None
      end
  | c :: format' =>
      match pattern format' with
      | Some items => Some (Lit c :: items)
      | None => None
      end
  end.

(** One alternative: a fixed sequence of character classes. *)
Fixpoint take_seq (cs : list cclass) (s : list ascii)
  : option (list ascii * list ascii)%type :=
  match cs with
  | [] => Some ([], s)
  | p :: cs' =>
      match s with
      | c :: s' =>
          if p c then
            match take_seq cs' s' with
            | Some (m, r) => Some (c :: m, r)
            | None => None
            end
          else None
      | [] => None
      end
  end.

(** The alternatives of one group, from left to right: the first one that
    matches at the start of [s] and after which the rest of the pattern,
    [k], matches too. *)
Fixpoint first_alt {R : Type} (k : list ascii -> list ascii -> option R)
  (alts : list (list cclass)) (s : list ascii) : option R :=
  match alts with
  | [] => None
  | a :: alts' =>
      match take_seq a s with
      | Some (m, r) =>
          match k m r with
          | Some x => Some x
          | None => first_alt k alts' s
          end
      | None => first_alt k alts' s
      end
  end.

(** [re.match]: the groups captured by the first way, in the order of the
    alternatives, in which the whole pattern matches a prefix of [s], and
    the text behind that prefix. *)
Fixpoint re_match (items : list item) (s : list ascii)
  : option (list (ascii * list ascii) * list ascii) :=
  match items with
  | [] => Some ([], s)
  | Lit c :: items' =>
      match s with
      | c' :: s' => if Ascii.eqb c c' then re_match items' s' else None
      | [] => None
      end
  | Group g alts :: items' =>
      first_alt
        (fun m r =>
           match re_match items' r with
           | Some (caps, rest) => Some ((g, m) :: caps, rest)
           | None => None
           end)
        alts s
  end.

(** [int(text)] on a captured group: decimal digits after optional blanks. *)
Definition int_of (text : list ascii) : Z :=
  fold_left
    (fun acc c =>
       if is_digit c then (10 * acc + (Z.of_nat (nat_of_ascii c) - 48))%Z
       else acc)
    text 0%Z.

Fixpoint group (g : ascii) (caps : list (ascii * list ascii))
  : option (list ascii) :=
  match caps with
  | [] => None
  | (g', m) :: caps' => if Ascii.eqb g g' then Some m else group g caps'
  end.

Definition is_leap (y : Z) : bool :=
  ((y mod 4 =? 0) && (negb (y mod 100 =? 0) || (y mod 400 =? 0)))%Z.

Definition days_in_month (y m : Z) : Z :=
  if (m =? 2)%Z then (if is_leap y then 29 else 28)%Z
  else if ((m =? 4) || (m =? 6) || (m =? 9) || (m =? 11))%Z then 30%Z
  else 31%Z.

(** The range check of the [date] constructor ([MINYEAR] is 1). *)
Definition valid_date (y m d : Z) : bool :=
  ((1 <=? y) && (y <=? 9999) && (1 <=? m) && (m <=? 12)
   && (1 <=? d) && (d <=? days_in_month y m))%Z.

(** [datetime.strptime(data_string, format)] *)
Definition strptime (data_string format : string) : res datetime :=
  match pattern (list_ascii_of_string format) with
  | None => Raise (ValueError "bad directive in format")
  | Some items =>
      match re_match items (list_ascii_of_string data_string) with
      | None => Raise (ValueError "time data does not match format")
      | Some (caps, _ :: _) => Raise (ValueError "unconverted data remains")
      | Some (caps, []) =>
          let y := match group "Y" caps with
                   | Some t => int_of t | None => 1900%Z end in
          let m := match group "m" caps with
                   | Some t => int_of t | None => 1%Z end in
          let d := match group "d" caps with
                   | Some t => int_of t | None => 1%Z end in
          if valid_date y m d then Ret {| year := y; month := m; day := d |}
          else Raise (ValueError "date value out of range")
      end
  end.

Definition digit (n : Z) : ascii := ascii_of_nat (48 + Z.to_nat (n mod 10)).

Local Open Scope Z_scope.

Definition pad2 (n : Z) : list ascii := [digit (n / 10); digit n].

Definition pad4 (n : Z) : list ascii :=
  [digit (n / 1000); digit (n / 100); digit (n / 10); digit n].

(** [%Y] of the C library.  Years from 1000 on have four digits.  Below
    1000 the text depends on the platform: [normalize_century] says whether
    the year is filled with zeros to four digits or written as it is. *)
Definition year_text (normalize_century : bool) (y : Z) : list ascii :=
  if (1000 <=? y)%Z || normalize_century then pad4 y
  else if (100 <=? y)%Z then [digit (y / 100); digit (y / 10); digit y]
  else if (10 <=? y)%Z then [digit (y / 10); digit y]
  else [digit y].

Fixpoint render (normalize_century : bool) (dt : datetime)
  (format : list ascii) : list ascii :=
  match format with
  | [] => []
  | "%"%char :: d :: format' =>
      (if Ascii.eqb d "Y" then year_text normalize_century (year dt)
       else if Ascii.eqb d "m" then pad2 (month dt)
       else if Ascii.eqb d "d" then pad2 (day dt)
       else ["%"%char; d])
      ++ render normalize_century dt format'
  | c :: format' => c :: render normalize_century dt format'
  end.

(** [dt.strftime(format)] *)
Definition strftime (normalize_century : bool) (dt : datetime)
  (format : string) : string :=
  string_of_list_ascii
    (render normalize_century dt (list_ascii_of_string format)).

End Datetime.

(** ** The document tree of BeautifulSoup *)

Module Bs4.

(** A node of the parsed document: a piece of text, an element with its
    attribute dictionary and its children, or a string that [get_text]
    leaves out.  The document itself is the element named [[document]].
    [NavigableString] is a string of that class or of class [CData], which
    the functions below treat alike.  [Comment] stands for a string of any
    other class: a comment, a doctype, a declaration, a processing
    instruction, the content of a [script] or [style] element.  Like every
    string it has no name, no attributes and no children, and [str()] of
    it is its text. *)
#[warnings="-register-all"]
Inductive node : Type :=
| NavigableString (text : string)
| Comment (text : string)
| Tag (name : string) (attrs : list (string * string)) (contents : list node).

(** [tag.descendants]: every node below [n], in document order. *)
Fixpoint descendants (n : node) : list node :=
  match n with
  | NavigableString _ | Comment _ => []
  | Tag _ _ cs => flat_map (fun c => c :: descendants c) cs
  end.

Fixpoint lookup (k : string) (d : list (string * string)) : option string :=
  match d with
  | [] => None
  | (k', v) :: d' => if String.eqb k k' then Some v else lookup k d'
  end.

(** [tag.get(k)] *)
Definition get (k : string) (n : node) : option string :=
  match n with
  | NavigableString _ | Comment _ => None
  | Tag _ a _ => lookup k a
  end.

Definition is_tag (nm : string) (n : node) : bool :=
  match n with
  | NavigableString _ | Comment _ => false
  | Tag t _ _ => String.eqb t nm
  end.

(** Keyword filters of [find] and [find_all]. *)
Definition any : node -> bool := fun _ => true.

(** [id='v'], [role='v']: the attribute is there and equal to [v]. *)
Definition attr_is (k v : string) : node -> bool := fun n =>
  match get k n with
  | Some v' => String.eqb v' v
  | None => false
  end.

(** [class_=re.compile(r'dataTable|table-bordered', re.I)]: the search
    runs over each class and over the classes joined by blanks; neither
    alternative holds a blank, so it finds what it finds in the attribute
    text.  Letter case is ignored. *)
Definition class_is_data_table : node -> bool := fun n =>
  match get "class" n with
  | Some v => PyStr.contains "datatable" (PyStr.lower v)
              || PyStr.contains "table-bordered" (PyStr.lower v)
  | None => false
  end.

(** [n.find_all(nm, **kw)] *)
Definition find_all (nm : string) (kw : node -> bool) (n : node)
  : list node :=
  filter (fun d => is_tag nm d && kw d) (descendants n).

(** [n.find(nm, **kw)]: the first of [find_all], or [None]. *)
Definition find (nm : string) (kw : node -> bool) (n : node) : option node :=
  hd_error (find_all nm kw n).

(** [tag.contents] *)
Definition contents (n : node) : list node :=
  match n with
  | NavigableString _ | Comment _ => []
  | Tag _ _ cs => cs
  end.

(** The text pieces below [n], in document order: the strings of class
    [NavigableString] or [CData]. *)
Fixpoint _all_strings (n : node) : list string :=
  match n with
  | NavigableString t => [t]
  | Comment _ => []
  | Tag _ _ cs => flat_map _all_strings cs
  end.

(** [n.get_text(separator, strip)]: with [strip] every piece is stripped
    and the pieces that become empty are left out. *)
Definition get_text (separator : string) (strip : bool) (n : node) : string :=
  String.concat separator
    (if strip
     then filter PyStr.truthy (map PyStr.strip (_all_strings n))
     else _all_strings n).

End Bs4.

(** ** The record classes of [models/schemas.py]

    Each class is a pydantic model.  Constructing one validates the keyword
    arguments against the declared fields: a [str] field refuses [None], an
    [Optional[str]] field takes it, an enumeration field takes only the
    values of the enumeration, and a keyword that names no declared field is
    dropped (pydantic's default [extra='ignore']).  [make] is the
    constructor call with the keywords the parser passes; a refusal is
    [ValidationError]. *)

Module PartyRole.

Inductive t : Type :=
| PLAINTIFF | DEFENDANT | PETITIONER | RESPONDENT
| APPELLANT | APPELLEE | OTHER.

Definition value (r : t) : string :=
  match r with
  | PLAINTIFF => "Plaintiff"
  | DEFENDANT => "Defendant"
  | PETITIONER => "Petitioner"
  | RESPONDENT => "Respondent"
  | APPELLANT => "Appellant"
  | APPELLEE => "Appellee"
  | OTHER => "Other"
  end.

Definition members : list t :=
  [PLAINTIFF; DEFENDANT; PETITIONER; RESPONDENT; APPELLANT; APPELLEE; OTHER].

(** [PartyRole(s)]: the member whose value is [s]. *)
Definition of_value (s : string) : option t :=
  List.find (fun r => String.eqb (value r) s) members.

End PartyRole.

Module Party.

Record t : Type :=
  { first_name : string;
    middle_name : string;
    last_name : string;
    role : PartyRole.t }.

Definition make (role first_name middle_name last_name : string) : res t :=
  match PartyRole.of_value role with
  | Some r =>
      Ret {| first_name := first_name; middle_name := middle_name;
             last_name := last_name; role := r |}
  | None => Raise (ValidationError "Party" "role")
  end.

End Party.

Module Hearing.

Record t : Type :=
  { date : option string;
    type : option string;
    department : option string;
    judge : option string;
    result : option string }.

(** The parser passes [time], [datetime] and [has_documents] too; the
    class declares no such fields. *)
Definition make (date : option string) (time datetime type department
  result : string) (has_documents : bool) : res t :=
  Ret {| date := date; type := Some type; department := Some department;
         judge := None; result := Some result |}.

End Hearing.

Module Financial.

(** Reserved: the parser never builds one.  The four amounts are optional
    floats in the source. *)
Record t : Type :=
  { fines : option Z; fees : option Z;
    balance : option Z; payments : option Z }.

End Financial.

Module CaseMetadata.

Record t : Type :=
  { fixture_available : bool;
    fixture_path : option string }.

(** The parser passes [raw_html_path], which is no field of the class. *)
Definition make (fixture_available : bool) (raw_html_path : option string)
  : res t :=
  Ret {| fixture_available := fixture_available; fixture_path := None |}.

End CaseMetadata.

Module Case.

Record t : Type :=
  { case_number : string;
    filing_date : option string;
    case_type : option string;
    status : option string;
    parties : option Z;
    metadata : option CaseMetadata.t }.

Definition make (case_number filing_date case_type status : string)
  (parties : option Z) (metadata : CaseMetadata.t) : res t :=
  Ret {| case_number := case_number; filing_date := Some filing_date;
         case_type := Some case_type; status := Some status;
         parties := parties; metadata := Some metadata |}.

End Case.

Module Event.

Record t : Type :=
  { file_date : string;
    file_type : string;
    filed_by : option string;
    comment : option string;
    has_documents : bool }.

Definition make (file_date : option string) (file_type : string)
  (filed_by comment : option string) (has_documents : bool) : res t :=
  match file_date with
  | Some d =>
      Ret {| file_date := d; file_type := file_type; filed_by := filed_by;
             comment := comment; has_documents := has_documents |}
  | None => Raise (ValidationError "Event" "file_date")
  end.

End Event.

Module Attorney.

Record t : Type :=
  { first_name : string;
    middle_name : string;
    last_name : string;
    representing : string }.

Definition make (first_name middle_name last_name representing : string)
  : res t :=
  Ret {| first_name := first_name; middle_name := middle_name;
         last_name := last_name; representing := representing |}.

End Attorney.

Module CaseDetail.

(** [case_number] is a required [str]; the five fields after it are
    declared [str] with default [None], so they hold [None] only when the
    keyword is left out. *)
Record t : Type :=
  { case_number : string;
    case_caption : option string;
    filing_date : option string;
    case_type : option string;
    status : option string;
    court_location : option string;
    parties : list Party.t;
    attorneys : list Attorney.t;
    hearings : list Hearing.t;
    events : list Event.t;
    financials : option Financial.t }.

Definition str_field (field : string) (v : option string) : res string :=
  match v with
  | Some s => Ret s
  | None => Raise (ValidationError "CaseDetail" field)
  end.

Definition make (case_number case_caption filing_date case_type status
  court_location : option string) (parties : list Party.t)
  (attorneys : list Attorney.t) (hearings : list Hearing.t)
  (events : list Event.t) (financials : option Financial.t) : res t :=
  n <- str_field "case_number" case_number ;;
  c <- str_field "case_caption" case_caption ;;
  f <- str_field "filing_date" filing_date ;;
  k <- str_field "case_type" case_type ;;
  s <- str_field "status" status ;;
  l <- str_field "court_location" court_location ;;
  Ret {| case_number := n; case_caption := Some c; filing_date := Some f;
         case_type := Some k; status := Some s; court_location := Some l;
         parties := parties; attorneys := attorneys; hearings := hearings;
         events := events; financials := financials |}.

End CaseDetail.

Module SearchRequest.

Record t : Type :=
  { first_name : string;
    last_name : string }.

(** One name field: [Field(..., min_length=1, max_length=100)] checks the
    length of the text as it comes, then [validate_name] refuses a text
    that is empty or blank and returns the stripped text. *)
Definition validate_name (field v : string) : res string :=
  if ((String.length v <? 1) || (100 <? String.length v))%nat
  then Raise (ValidationError "SearchRequest" field)
  else if negb (PyStr.truthy v) || negb (PyStr.truthy (PyStr.strip v))
  then Raise (ValidationError "SearchRequest" field)
  else Ret (PyStr.strip v).

Definition make (first_name last_name : string) : res t :=
  f <- validate_name "first_name" first_name ;;
  l <- validate_name "last_name" last_name ;;
  Ret {| first_name := f; last_name := l |}.

End SearchRequest.

Module SourceMetadata.

Record t : Type :=
  { search_url : string;
    case_url : option string;
    scrape_timestamp : string;
    data_source : string;
    raw_html_path : option string }.

Definition make (search_url scrape_timestamp data_source : string)
  (raw_html_path : option string) : res t :=
  Ret {| search_url := search_url; case_url := None;
         scrape_timestamp := scrape_timestamp; data_source := data_source;
         raw_html_path := raw_html_path |}.

End SourceMetadata.

Module SearchResponse.

Record t : Type :=
  { query : SearchRequest.t;
    total_results : Z;
    current_page : Z;
    total_pages : Z;
    cases : list Case.t;
    metadata : SourceMetadata.t }.

Definition make (query : SearchRequest.t) (total_results current_page
  total_pages : Z) (cases : list Case.t) (metadata : SourceMetadata.t)
  : res t :=
  Ret {| query := query; total_results := total_results;
         current_page := current_page; total_pages := total_pages;
         cases := cases; metadata := metadata |}.

End SearchResponse.

(** ** [CourtRecordParser] *)

(** [xs[i]]; out of range it raises. *)
Definition item_at {A : Type} (xs : list A) (i : nat) : res A :=
  match nth_error xs i with
  | Some x => Ret x
  | None => Raise (IndexError "list index out of range")
  end.

(** [except ValueError]: pydantic's [ValidationError] is a [ValueError]. *)
Definition is_ValueError (e : exn) : bool :=
  match e with
  | ValueError _ => true
  | IndexError _ => false
  | ValidationError _ _ => true
  end.

Definition opt_truthy (v : option string) : bool :=
  match v with
  | Some s => PyStr.truthy s
  | None => false
  end.

(** [v if v else None] *)
Definition or_None (s : string) : option string :=
  if PyStr.truthy s then Some s else None.

(** The [info] dictionary of [_extract_case_info_from_detail]. *)
Definition dict := list (string * option string).

Fixpoint dict_get (k : string) (d : dict) : option string :=
  match d with
  | [] => None
  | (k', v) :: d' => if String.eqb k k' then v else dict_get k d'
  end.

Section Parser.

(** Whether [%Y] of the platform fills years below 1000 with zeros. *)
Variable normalize_century : bool.

(** [str(tag)]: the markup BeautifulSoup writes for an element. *)
Variable decode : Bs4.node -> string.

(** [re.search(pattern, text)]: the text of group 1 of the leftmost match,
    or [None] when there is no match. *)
Variable re_search : string -> string -> option string.

Import Bs4.

(** The loop over the four formats of [_normalize_date]. *)
Fixpoint try_formats (date_str : string) (formats : list string)
  : res (option string) :=
  match formats with
  | [] => Ret (Some date_str)
  | fmt :: formats' =>
      match Datetime.strptime date_str fmt with
      | Ret dt =>
          Ret (Some (Datetime.strftime normalize_century dt "%Y-%m-%d"))
      | Raise e =>
          if is_ValueError e then try_formats date_str formats'
          else Raise e
      end
  end.

Definition formats : list string :=
  ["%m/%d/%Y"; "%m-%d-%Y"; "%Y-%m-%d"; "%Y/%m/%d"].

Definition _normalize_date (date_str : option string)
  : res (option string) :=
  match date_str with
  | None => Ret None
  | Some s =>
      if negb (PyStr.truthy s) then Ret None
      else catch (try_formats s formats) (fun _ => Ret (Some s))
  end.

Definition _extract_count (case_style : string) : option Z :=
  if PyStr.contains "XXXX" case_style
     || negb (PyStr.truthy (PyStr.strip case_style))
  then None
  else if PyStr.contains " vs. " case_style
  then Some (Z.of_nat (List.length (PyStr.split " vs. " case_style)))
  else if PyStr.contains " vs " case_style
  then Some (Z.of_nat (List.length (PyStr.split " vs " case_style)))
  else if PyStr.contains " v. " case_style
  then Some (Z.of_nat (List.length (PyStr.split " v. " case_style)))
  else if PyStr.contains " v " case_style
  then Some (Z.of_nat (List.length (PyStr.split " v " case_style)))
  else None.

Definition _extract_case_from_datatable_row (row : node)
  : res (option Case.t) :=
  catch
    (let cells := find_all "td" any row in
     if (List.length cells <? 6)%nat then Ret None
     else
       c1 <- item_at cells 1 ;;
       let case_number := get_text "" true c1 in
       if negb (PyStr.truthy case_number) then Ret None
       else
         c2 <- item_at cells 2 ;;
         let case_style := get_text " " true c2 in
         let parties := _extract_count case_style in
         c3 <- item_at cells 3 ;;
         let status := get_text "" true c3 in
         c4 <- item_at cells 4 ;;
         let case_type := get_text "" true c4 in
         c5 <- item_at cells 5 ;;
         let filing_date := get_text "" true c5 in
         metadata <- CaseMetadata.make false None ;;
         case <- Case.make case_number filing_date case_type status
                   parties metadata ;;
         Ret (Some case))
    (fun _ => Ret None).

(** The loop of [parse_search_results]: a row that raises or yields
    [None] adds nothing, the loop goes on with the next row. *)
Fixpoint collect_cases (extract : node -> res (option Case.t))
  (data_rows : list node) : list Case.t :=
  match data_rows with
  | [] => []
  | row :: data_rows' =>
      match extract row with
      | Ret (Some case) => case :: collect_cases extract data_rows'
      | Ret None => collect_cases extract data_rows'
      | Raise _ => collect_cases extract data_rows'
      end
  end.

Definition results_table (soup : node) : option node :=
  match find "table" (attr_is "id" "tblPartySearchResults") soup with
  | Some t => Some t
  | None => find "table" class_is_data_table soup
  end.

Definition parse_search_results (soup : node) : res (list Case.t) :=
  match results_table soup with
  | None => Ret []
  | Some table =>
      match find "tbody" any table with
      | None => Ret []
      | Some tbody =>
          let data_rows := find_all "tr" (attr_is "role" "row") tbody in
          Ret (collect_cases _extract_case_from_datatable_row data_rows)
      end
  end.

Definition _extract_case_number_from_header (soup : node) : option string :=
  match find "h1" (attr_is "id" "caseNumber") soup with
  | Some e => Some (get_text "" true e)
  | None => None
  end.

Definition _extract_case_caption (soup : node) : option string :=
  match find "h3" (attr_is "id" "caseCaption") soup with
  | Some e => Some (get_text "" true e)
  | None => None
  end.

(** [str(content)] *)
Definition str_of (content : node) : string :=
  match content with
  | NavigableString t | Comment t => t
  | Tag _ _ _ => decode content
  end.

(** The pieces of the paragraph that are joined into [full_text]. *)
Definition text_parts (paragraph : node) : list string :=
  filter PyStr.truthy
    (map (fun content => PyStr.strip (str_of content))
       (filter (fun content => negb (is_tag "br" content))
          (contents paragraph))).

Definition _extract_case_info_from_detail (soup : node) : res dict :=
  match find "div" (attr_is "id" "info") soup with
  | None => Ret []
  | Some case_info_section =>
      match find "div" (attr_is "id" "caseinfo1") case_info_section with
      | None => Ret []
      | Some case_details =>
          match find "p" any case_details with
          | None => Ret []
          | Some paragraph =>
              let full_text := String.concat " " (text_parts paragraph) in
              let info := [] in
              let info :=
                match re_search "Case Type:\s*</strong>\s*([^<]+)" full_text
                with
                | Some g => ("case_type", Some (PyStr.strip g)) :: info
                | None => info
                end in
              info <-
                match re_search
                        "Filing Date:</strong>\s*(\d{1,2}/\d{1,2}/\d{4})"
                        full_text
                with
                | Some g =>
                    d <- _normalize_date (Some g) ;;
                    Ret (("filing_date", d) :: info)
                | None => Ret info
                end ;;
              let info :=
                match re_search "Case Status:</strong>\s*([^<]+)" full_text
                with
                | Some g => ("status", Some (PyStr.strip g)) :: info
                | None => info
                end in
              let info :=
                match re_search "Court Location:</strong>\s*([^<]+)"
                        full_text
                with
                | Some g => ("court_location", Some (PyStr.strip g)) :: info
                | None => info
                end in
              Ret info
          end
      end
  end.

(** The rows a section's loop runs over: the [tr] elements with
    [role="row"] in the first [tbody] of the first [table] of the [div]
    with the given [id]. *)
Definition section_rows (id : string) (soup : node) : list node :=
  match find "div" (attr_is "id" id) soup with
  | None => []
  | Some tab =>
      match find "table" any tab with
      | None => []
      | Some table =>
          match find "tbody" any table with
          | None => []
          | Some tbody => find_all "tr" (attr_is "role" "row") tbody
          end
      end
  end.

(** The body of the loop of [_extract_parties]. *)
Definition party_of_row (row : node) : res (list Party.t) :=
  let cells := find_all "td" any row in
  if (List.length cells =? 1)%nat then Ret []
  else if (4 <=? List.length cells)%nat then
    c0 <- item_at cells 0 ;;
    let party_type := get_text "" true c0 in
    c1 <- item_at cells 1 ;;
    let first_name := get_text "" true c1 in
    c2 <- item_at cells 2 ;;
    let middle_name := get_text "" true c2 in
    c3 <- item_at cells 3 ;;
    let last_name := get_text "" true c3 in
    if PyStr.truthy party_type then
      p <- Party.make party_type first_name middle_name last_name ;;
      Ret [p]
    else Ret []
  else Ret [].

Definition _extract_parties (soup : node) : res (list Party.t) :=
  for_each party_of_row (section_rows "parties" soup).

(** The body of the loop of [_extract_attorneys]. *)
Definition attorney_of_row (row : node) : res (list Attorney.t) :=
  let cells := find_all "td" any row in
  skip <-
    (if (List.length cells =? 1)%nat then
       c0 <- item_at cells 0 ;;
       Ret (PyStr.contains "no data" (PyStr.lower (get_text "" false c0)))
     else Ret false) ;;
  if (skip : bool) then Ret []
  else if (4 <=? List.length cells)%nat then
    c0 <- item_at cells 0 ;;
    let representing := get_text "" true c0 in
    c1 <- item_at cells 1 ;;
    let first_name := get_text "" true c1 in
    c2 <- item_at cells 2 ;;
    let middle_name := get_text "" true c2 in
    c3 <- item_at cells 3 ;;
    let last_name := get_text "" true c3 in
    if PyStr.truthy first_name || PyStr.truthy last_name then
      a <- Attorney.make first_name middle_name last_name representing ;;
      Ret [a]
    else Ret []
  else Ret [].

Definition _extract_attorneys (soup : node) : res (list Attorney.t) :=
  match find "div" (attr_is "id" "parties") soup with
  | None => Ret []
  | Some parties_tab =>
      let tables := find_all "table" any parties_tab in
      if (2 <=? List.length tables)%nat then
        attorneys_table <- item_at tables 1 ;;
        match find "tbody" any attorneys_table with
        | None => Ret []
        | Some tbody => for_each attorney_of_row (find_all "tr" any tbody)
        end
      else Ret []
  end.

(** [bool(cell.find('a'))] *)
Definition has_link (cell : node) : bool :=
  match find "a" any cell with
  | Some _ => true
  | None => false
  end.

(** The body of the loop of [_extract_events]. *)
Definition event_of_row (row : node) : res (list Event.t) :=
  let cells := find_all "td" any row in
  if (5 <=? List.length cells)%nat then
    c0 <- item_at cells 0 ;;
    let file_date := get_text "" true c0 in
    c1 <- item_at cells 1 ;;
    let file_type := get_text "" true c1 in
    c2 <- item_at cells 2 ;;
    let filed_by := get_text "" true c2 in
    c3 <- item_at cells 3 ;;
    let comment := get_text "" true c3 in
    documents_cell <- item_at cells 4 ;;
    let has_documents := has_link documents_cell in
    if PyStr.truthy file_date || PyStr.truthy file_type then
      d <- _normalize_date (Some file_date) ;;
      e <- Event.make d file_type (or_None filed_by) (or_None comment)
             has_documents ;;
      Ret [e]
    else Ret []
  else Ret [].

Definition _extract_events (soup : node) : res (list Event.t) :=
  for_each event_of_row (section_rows "events" soup).

(** The body of the loop of [_extract_hearings]. *)
Definition hearing_of_row (row : node) : res (list Hearing.t) :=
  let cells := find_all "td" any row in
  if (6 <=? List.length cells)%nat then
    c0 <- item_at cells 0 ;;
    let department := get_text "" true c0 in
    c1 <- item_at cells 1 ;;
    let hearing_type := get_text "" true c1 in
    c2 <- item_at cells 2 ;;
    let date := get_text "" true c2 in
    c3 <- item_at cells 3 ;;
    let time := get_text "" true c3 in
    c4 <- item_at cells 4 ;;
    let result := get_text "" true c4 in
    documents_cell <- item_at cells 5 ;;
    let has_documents := has_link documents_cell in
    let full_datetime := PyStr.strip (date ++ " " ++ time) in
    if PyStr.truthy date || PyStr.truthy hearing_type then
      d <- _normalize_date (Some date) ;;
      h <- Hearing.make d time full_datetime hearing_type department
             result has_documents ;;
      Ret [h]
    else Ret []
  else Ret [].

Definition _extract_hearings (soup : node) : res (list Hearing.t) :=
  for_each hearing_of_row (section_rows "hearings" soup).

(** The block under [try:] in [parse_case_detail]. *)
Definition case_detail_body (soup : node) (case_number : option string)
  : res CaseDetail.t :=
  let extracted_case_number := _extract_case_number_from_header soup in
  let case_number :=
    if opt_truthy case_number then case_number
    else extracted_case_number in
  let case_caption := _extract_case_caption soup in
  case_info <- _extract_case_info_from_detail soup ;;
  parties <- _extract_parties soup ;;
  attorneys <- _extract_attorneys soup ;;
  events <- _extract_events soup ;;
  hearings <- _extract_hearings soup ;;
  let financials := None in
  CaseDetail.make case_number case_caption
    (dict_get "filing_date" case_info) (dict_get "case_type" case_info)
    (dict_get "status" case_info) (dict_get "court_location" case_info)
    parties attorneys hearings events financials.

Definition parse_case_detail (soup : node) (case_number : option string)
  : res (option CaseDetail.t) :=
  catch (d <- case_detail_body soup case_number ;; Ret (Some d))
        (fun _ => Ret None).

(** ** [SearchService] and the endpoints of [main.py]

    What the service takes from outside is a [world]: the environment
    variable, the files below the fixtures directory, the clock and the
    tree builder.  The coroutines run one after the other and are plain
    functions here. *)

(** Exceptions of the service and API layer: those of the parser and of
    pydantic, and the ones raised here. *)
Inductive error : Type :=
| Lower (e : exn)
| ZeroDivisionError
| NotImplementedError (msg : string)
| OSError (msg : string)
| ReadError (msg : string)
| ParserRejectedMarkup (msg : string)
| HTTPException (status_code : Z) (detail : string).

Inductive outcome (A : Type) : Type :=
| Returned (a : A)
| Raised (e : error).

Arguments Returned {A} a.
Arguments Raised {A} e.

Definition and_then {A B : Type} (m : outcome A) (k : A -> outcome B)
  : outcome B :=
  match m with
  | Returned a => k a
  | Raised e => Raised e
  end.

Notation "x <~ m ;; k" := (and_then m (fun x => k))
  (at level 61, m at next level, right associativity).

Definition lift {A : Type} (m : res A) : outcome A :=
  match m with
  | Ret a => Returned a
  | Raise e => Raised (Lower e)
  end.

(** A file below the fixtures directory: it is not there; or [stat()]
    of its path fails with an [OSError] that [exists()] does not take for
    an absent file (a name that is too long, a directory that may not be
    searched); or it is there and reading it fails; or it has a text. *)
Inductive file : Type :=
| Missing
| Inaccessible (msg : string)
| Unreadable (msg : string)
| Text (content : string).

Record world : Type :=
  { (** [os.getenv("USE_FIXTURES", "true")] *)
    USE_FIXTURES : string;
    (** The file [fixtures_dir / name]: [exists()] is false for [Missing]
        and raises for [Inaccessible]; [read_text(encoding='utf-8')]
        raises for [Unreadable]. *)
    fixture : string -> file;
    (** [str(fixtures_dir / name)], which is also [as_posix()] here. *)
    path_of : string -> string;
    (** [datetime.now(timezone.utc).isoformat()] *)
    utc_now : string;
    (** [BeautifulSoup(html, 'html.parser')]: the tree, or the message of
        the exception with which the builder refuses the text. *)
    soup_of : string -> node + string;
    (** [str(e)] *)
    str_error : error -> string }.

(** [path.exists()]: it returns [False] when [stat()] says that the file
    is not there, and lets every other [OSError] of [stat()] out. *)
Definition exists_ (f : file) : outcome bool :=
  match f with
  | Missing => Returned false
  | Inaccessible msg => Raised (OSError msg)
  | Unreadable _ | Text _ => Returned true
  end.

Definition read_text (f : file) : outcome string :=
  match f with
  | Missing => Raised (ReadError "No such file or directory")
  | Inaccessible msg => Raised (OSError msg)
  | Unreadable msg => Raised (ReadError msg)
  | Text content => Returned content
  end.

Definition BeautifulSoup (w : world) (html : string) : outcome node :=
  match soup_of w html with
  | inl soup => Returned soup
  | inr msg => Raised (ParserRejectedMarkup msg)
  end.

(** [a // b] *)
Definition floordiv (a b : Z) : outcome Z :=
  if (b =? 0)%Z then Raised ZeroDivisionError else Returned (a / b)%Z.

(** A slice bound brought into [0 .. len], counted from the end when it is
    negative. *)
Definition slice_bound (len i : Z) : Z :=
  if (i <? 0)%Z then Z.max (i + len) 0 else Z.min i len.

(** [xs[start:stop]] *)
Definition slice {A : Type} (xs : list A) (start stop : Z) : list A :=
  let len := Z.of_nat (List.length xs) in
  let lo := slice_bound len start in
  let hi := slice_bound len stop in
  firstn (Z.to_nat (hi - lo)) (skipn (Z.to_nat lo) xs).

(** [self.mode], set in [__init__]. *)
Definition mode (w : world) : bool :=
  String.eqb (PyStr.lower (USE_FIXTURES w)) "true".

Definition get_mode (w : world) : string :=
  if mode w then "fixture" else "live".

(** [parse_search_results(html)] and [parse_case_detail(html, case_number)]
    of the parser, from the text: the tree is built before anything else,
    outside of any [try]. *)
Definition parse_search_results_html (w : world) (html : string)
  : outcome (list Case.t) :=
  soup <~ BeautifulSoup w html ;; lift (parse_search_results soup).

Definition parse_case_detail_html (w : world) (html : string)
  (case_number : option string) : outcome (option CaseDetail.t) :=
  soup <~ BeautifulSoup w html ;; lift (parse_case_detail soup case_number).

Definition with_metadata (case : Case.t) (m : CaseMetadata.t) : Case.t :=
  {| Case.case_number := Case.case_number case;
     Case.filing_date := Case.filing_date case;
     Case.case_type := Case.case_type case;
     Case.status := Case.status case;
     Case.parties := Case.parties case;
     Case.metadata := Some m |}.

(** The body of the loop over [cases] in [_search_fixtures]. *)
Definition enrich (w : world) (case : Case.t) : outcome (list Case.t) :=
  let case_file := ("case_" ++ Case.case_number case ++ ".html")%string in
  case_file_exists <~ exists_ (fixture w case_file) ;;
  if (case_file_exists : bool) then
    m <~ lift (CaseMetadata.make true (Some (path_of w case_file))) ;;
    Returned [with_metadata case m]
  else Returned [case].

Fixpoint enrich_all (w : world) (cases : list Case.t)
  : outcome (list Case.t) :=
  match cases with
  | [] => Returned []
  | case :: cases' =>
      c <~ enrich w case ;;
      cs <~ enrich_all w cases' ;;
      Returned (c ++ cs)
  end.

Definition SEARCH_URL : string := "https://portal.scscourt.org/search".

Definition _search_fixtures (w : world) (first_name last_name : string)
  (page page_size : Z) : outcome SearchResponse.t :=
  let fixture_name :=
    (PyStr.lower first_name ++ "_" ++ PyStr.lower last_name)%string in
  let search_file := (fixture_name ++ "_search.html")%string in
  let response_time := utc_now w in
  search_file_exists <~ exists_ (fixture w search_file) ;;
  if negb search_file_exists then
    query <~ lift (SearchRequest.make first_name last_name) ;;
    metadata <~ lift (SourceMetadata.make SEARCH_URL response_time
                        "fixture" None) ;;
    lift (SearchResponse.make query 0 page 0 [] metadata)
  else
      html_content <~ read_text (fixture w search_file) ;;
      cases <~ parse_search_results_html w html_content ;;
      enriched_cases <~ enrich_all w cases ;;
      let total_results := Z.of_nat (List.length enriched_cases) in
      let start_idx := ((page - 1) * page_size)%Z in
      let end_idx := (start_idx + page_size)%Z in
      let enriched_cases := slice enriched_cases start_idx end_idx in
      query <~ lift (SearchRequest.make first_name last_name) ;;
      total_pages <~ floordiv (total_results + page_size - 1) page_size ;;
      metadata <~ lift (SourceMetadata.make SEARCH_URL response_time
                          "fixture" (Some (path_of w search_file))) ;;
      lift (SearchResponse.make query total_results page total_pages
              enriched_cases metadata).

Definition _search_live (w : world) (first_name last_name : string)
  (page page_size : Z) : outcome SearchResponse.t :=
  Raised (NotImplementedError
            "Live mode requires CAPTCHA solution and legal authorization.").

Definition search (w : world) (first_name last_name : string)
  (page page_size : Z) : outcome SearchResponse.t :=
  if mode w then _search_fixtures w first_name last_name page page_size
  else _search_live w first_name last_name page page_size.

Definition _get_case_detail_fixture (w : world) (case_number : string)
  : outcome (option CaseDetail.t) :=
  let case_file := ("case_" ++ case_number ++ ".html")%string in
  case_file_exists <~ exists_ (fixture w case_file) ;;
  if negb case_file_exists then Returned None
  else
    match (html_content <~ read_text (fixture w case_file) ;;
           parse_case_detail_html w html_content (Some case_number)) with
    | Returned r => Returned r
    | Raised _ => Returned None
    end.

Definition _get_case_detail_live (w : world) (case_number : string)
  : outcome (option CaseDetail.t) :=
  Raised (NotImplementedError
            "Live mode requires CAPTCHA solution and legal authorization.").

Definition get_case_detail_service (w : world) (case_number : string)
  : outcome (option CaseDetail.t) :=
  if mode w then _get_case_detail_fixture w case_number
  else _get_case_detail_live w case_number.

(** [except HTTPException: raise] followed by [except Exception as e]. *)
Definition to_http (w : world) (prefix : string) {A : Type}
  (m : outcome A) : outcome A :=
  match m with
  | Returned a => Returned a
  | Raised (HTTPException status_code detail) =>
      Raised (HTTPException status_code detail)
  | Raised e => Raised (HTTPException 500 (prefix ++ str_error w e)%string)
  end.

(** [POST /api/search] with a validated body. *)
Definition search_cases (w : world) (body : SearchRequest.t)
  (page page_size : Z) : outcome SearchResponse.t :=
  to_http w "An error occurred while processing your request: "
    (result <~ search w (SearchRequest.first_name body)
                 (SearchRequest.last_name body) page page_size ;;
     match SearchResponse.cases result with
     | [] =>
         Raised (HTTPException 404
                   ("No cases found for " ++ SearchRequest.first_name body
                    ++ " " ++ SearchRequest.last_name body)%string)
     | _ :: _ => Returned result
     end).

(** [GET /api/case/{case_number}] *)
Definition get_case_detail (w : world) (case_number : string)
  : outcome CaseDetail.t :=
  to_http w "An error occurred while retrieving case details: "
    (result <~ get_case_detail_service w case_number ;;
     match result with
     | None =>
         Raised (HTTPException 404
                   ("Case " ++ case_number ++ " not found")%string)
     | Some detail => Returned detail
     end).

(** ** Sample documents *)

Definition td (text : string) : node := Tag "td" [] [NavigableString text].

Definition td_link (href : string) : node :=
  Tag "td" [] [Tag "a" [("href", href)] [NavigableString "View"]].

Definition tr (cells : list node) : node := Tag "tr" [("role", "row")] cells.

(** A [div] with the given [id] that holds one table of the given rows. *)
Definition region (id : string) (rows : list node) : node :=
  Tag "div" [("id", id)] [Tag "table" [] [Tag "tbody" [] rows]].

Definition document (contents : list node) : node :=
  Tag "[document]" [] contents.

Definition case_number_heading : node :=
  Tag "h1" [("id", "caseNumber")] [NavigableString "21CR012345"].

(** The listing row of the end-to-end scenario. *)
Definition listing_row : node :=
  tr [td ""; td " 21CR012345 "; td "People vs. Smith"; td "Active";
      td "Criminal"; td "05/15/2021"].

(** A listing with a row of two cells, a row without a case number and the
    row above. *)
Definition listing_tbody : node :=
  Tag "tbody" []
    [tr [td ""; td "21CR000001"];
     tr [td ""; td "   "; td "A v. B"; td "Closed"; td "Civil";
         td "01/02/2020"];
     listing_row].

Definition listing_table : node :=
  Tag "table" [("id", "tblPartySearchResults")] [listing_tbody].

Definition listing : node := document [listing_table].

(** The events row of the end-to-end scenario. *)
Definition motion_row : node :=
  tr [td "02/15/2024"; td "Motion"; td "Jane Doe";
      td "Request for continuance"; td_link "/doc/1"].

(** An events row with a type and no date. *)
Definition undated_row : node :=
  tr [td ""; td "Motion"; td "Jane Doe"; td ""; td ""].

Definition undated_event_document : node :=
  document [case_number_heading; region "events" [undated_row]].

(** Two hearings rows that differ in the time and in the document link. *)
Definition hearing_row_morning : node :=
  tr [td "Dept 12"; td "Arraignment"; td "03/15/2024"; td "09:00 AM";
      td "Continued"; td_link "/doc/2"].

Definition hearing_row_afternoon : node :=
  tr [td "Dept 12"; td "Arraignment"; td "03/15/2024"; td "01:30 PM";
      td "Continued"; td ""].

(** A document with a case number and nothing else: no caption, no info
    block, no parties, events or hearings region. *)
Definition heading_only_document : node := document [case_number_heading].

(** A parties row whose role is none of the seven. *)
Definition witness_row : node :=
  tr [td "Witness"; td "John"; td "M."; td "Smith"].

Definition witness_document : node :=
  document [case_number_heading; region "parties" [witness_row]].

(** A complete detail document: case number, caption, header info and a
    parties table with one defendant; no events or hearings region. *)
Definition info_paragraph : node :=
  Tag "p" []
    [Tag "strong" [] [NavigableString "Case Type:"];
     NavigableString " Criminal ";
     Tag "br" [] [];
     Tag "strong" [] [NavigableString "Filing Date:"];
     NavigableString " 05/15/2021 ";
     Tag "br" [] [];
     Tag "strong" [] [NavigableString "Case Status:"];
     NavigableString " Active ";
     Tag "br" [] [];
     Tag "strong" [] [NavigableString "Court Location:"];
     NavigableString " Hall of Justice "].

Definition complete_document : node :=
  document
    [case_number_heading;
     Tag "h3" [("id", "caseCaption")] [NavigableString "People vs. Smith"];
     Tag "div" [("id", "info")]
       [Tag "div" [("id", "caseinfo1")] [info_paragraph]];
     region "parties" [tr [td "Defendant"; td "John"; td "M."; td "Smith"]]].

(** The markup of an element without attributes, as far as the sample
    paragraph needs it. *)
Definition sample_decode (n : node) : string :=
  match n with
  | Tag nm _ cs =>
      "<" ++ nm ++ ">" ++ String.concat "" (flat_map _all_strings cs)
      ++ "</" ++ nm ++ ">"
  | NavigableString t | Comment t => t
  end.

(** What the four searches find in the text of the sample paragraph. *)
Definition sample_re_search (pattern text : string) : option string :=
  if negb (String.eqb text
             ("<strong>Case Type:</strong> Criminal "
              ++ "<strong>Filing Date:</strong> 05/15/2021 "
              ++ "<strong>Case Status:</strong> Active "
              ++ "<strong>Court Location:</strong> Hall of Justice"))
  then None
  else if prefix "Case Type:" pattern then Some "Criminal "
  else if prefix "Filing Date:" pattern then Some "05/15/2021"
  else if prefix "Case Status:" pattern then Some "Active "
  else if prefix "Court Location:" pattern then Some "Hall of Justice"
  else None.

(** A listing of three cases. *)
Definition docket : node :=
  document
    [Tag "table" [("id", "tblPartySearchResults")]
       [Tag "tbody" []
          [listing_row;
           tr [td ""; td "21CR012346"; td "People vs. Smith"; td "Closed";
               td "Criminal"; td "06/01/2021"];
           tr [td ""; td "22CV000101"; td "Smith v. Jones"; td "Active";
               td "Civil"; td "01/10/2022"]]]].

(** The number of bytes of a text in UTF-8, for code points below 256. *)
Definition utf8_length (s : string) : nat :=
  fold_right (fun c n => (if (nat_of_ascii c <? 128)%nat then 1 else 2) + n)
    0 (list_ascii_of_string s).

(** A world with the given value of [USE_FIXTURES] whose fixtures
    directory holds the listing of John Smith and the detail file of one of
    its three cases; [stat()] refuses a file name of more than 255 bytes.
    The texts of the two files stand for their markup: the tree builder
    gives [docket] for the one and [complete_document] for the other, and
    [listing] for the text of that name.  It refuses the marked section
    [<![x]>], and gives the document of the text for any other text. *)
Definition sample_world (use_fixtures : string) : world :=
  {| USE_FIXTURES := use_fixtures;
     fixture := fun name =>
       if (255 <? utf8_length name)%nat
       then Inaccessible ("[Errno 36] File name too long: 'fixtures/"
                          ++ name ++ "'")%string
       else if String.eqb name "john_smith_search.html" then Text "docket"
       else if String.eqb name "case_21CR012345.html" then Text "complete"
       else Missing;
     path_of := fun name => ("fixtures/" ++ name)%string;
     utc_now := "2024-03-15T09:00:00+00:00";
     soup_of := fun html =>
       if String.eqb html "docket" then inl docket
       else if String.eqb html "listing" then inl listing
       else if String.eqb html "complete" then inl complete_document
       else if String.eqb html "<![x]>"
       then inr "unknown status keyword 'x' in marked section"
       else inl (document [NavigableString html]);
     str_error := fun e =>
       match e with
       | NotImplementedError msg | OSError msg | ReadError msg
       | ParserRejectedMarkup msg => msg
       | ZeroDivisionError => "integer division or modulo by zero"
       | _ => EmptyString
       end |}.

(** A name of 100 letters, each of two bytes in UTF-8, and a case number
    of 300 letters. *)
Definition long_name : string :=
  string_of_list_ascii (repeat (ascii_of_nat 233) 100).

Definition long_case_number : string :=
  string_of_list_ascii (repeat "a"%char 300).

(** The request of the samples. *)
Definition john_smith : SearchRequest.t :=
  {| SearchRequest.first_name := "John";
     SearchRequest.last_name := "Smith" |}.

(** ** Vocabulary of the statements *)

(** [p] occurs in [s]. *)
Definition Substring (p s : string) : Prop :=
  exists a b : string, s = (a ++ p ++ b)%string.

(** [s] is empty or has only whitespace. *)
Definition Blank (s : string) : Prop :=
  Forall (fun c => PyStr.is_space c = true) (list_ascii_of_string s).

(** The separators of a case style, in the order they are tested. *)
Definition separators : list string := [" vs. "; " vs "; " v. "; " v "].

(** [strptime] refuses the text under the format. *)
Definition Refused (date_str fmt : string) : Prop :=
  exists e, Datetime.strptime date_str fmt = Raise e.

(** [Shape items text]: [text] is made of one alternative of each group and
    of the literal characters, in the order of [items]. *)
Inductive Shape : list Datetime.item -> list ascii -> Prop :=
| Shape_nil : Shape [] []
| Shape_lit c items t :
    Shape items t -> Shape (Datetime.Lit c :: items) (c :: t)
| Shape_group g alts items alt m t :
    In alt alts ->
    Forall2 (fun (p : Datetime.cclass) c => p c = true) alt m ->
    Shape items t ->
    Shape (Datetime.Group g alts :: items) (m ++ t).

(** No class of the alternatives takes the character [x]. *)
Definition alts_exclude (x : ascii) (alts : list (list Datetime.cclass))
  : Prop :=
  forall alt p, In alt alts -> In p alt -> p x = false.

(** The patterns of the four formats: month, day, year and year, month,
    day, each with its separator. *)
Definition items_mdY (sep : ascii) : list Datetime.item :=
  [Datetime.group_m; Datetime.Lit sep; Datetime.group_d; Datetime.Lit sep;
   Datetime.group_Y].

Definition items_Ymd (sep : ascii) : list Datetime.item :=
  [Datetime.group_Y; Datetime.Lit sep; Datetime.group_m; Datetime.Lit sep;
   Datetime.group_d].

(** The characters of a date written as year-month-day. *)
Definition out_text (nc : bool) (dt : Datetime.datetime) : list ascii :=
  Datetime.year_text nc (Datetime.year dt)
  ++ "-"%char :: Datetime.pad2 (Datetime.month dt)
  ++ "-"%char :: Datetime.pad2 (Datetime.day dt).

(** The part of the year-first pattern behind the year. *)
Definition items_md : list Datetime.item :=
  [Datetime.Lit "-"; Datetime.group_m; Datetime.Lit "-"; Datetime.group_d].

(** [items_md] takes the two-digit month and day and reads their values
    back. *)
Definition md_check (m d : Z) : bool :=
  match Datetime.re_match items_md
          ("-"%char :: Datetime.pad2 m ++ "-"%char :: Datetime.pad2 d)
  with
  | Some ([(gm, tm); (gd, td)], []) =>
      Ascii.eqb gm "m" && Ascii.eqb gd "d"
      && (Datetime.int_of tm =? m)%Z && (Datetime.int_of td =? d)%Z
  | _ => false
  end.

(** [x] is the first node below [n], in document order, that [p] takes. *)
Definition First (p : node -> bool) (x n : node) : Prop :=
  exists before after,
    descendants n = before ++ x :: after
    /\ p x = true /\ forall y, In y before -> p y = false.




(** The name of the listing file of a search, below the fixtures
    directory. *)
Definition search_file_name (first_name last_name : string) : string :=
  ((PyStr.lower first_name ++ "_" ++ PyStr.lower last_name)
   ++ "_search.html")%string.

(** The name of the detail file of a case. *)
Definition case_file_name (case_number : string) : string :=
  ("case_" ++ case_number ++ ".html")%string.

Definition is_http (e : error) : bool :=
  match e with
  | HTTPException _ _ => true
  | _ => false
  end.

(** The case number the record is built with: the caller's when it is
    given and not empty, else the text of the heading. *)
Definition chosen_case_number (soup : node) (case_number : option string)
  : option string :=
  if opt_truthy case_number then case_number
  else _extract_case_number_from_header soup.

(** ** Tactics *)

(** [cases_between H] splits a bound [lo <= m <= hi] on [m] into the values
    of [m]; the other three evaluate the closed tests of a match. *)
Ltac cases_between H :=
  repeat match type of H with
         | (?lo <= ?m <= ?hi)%Z =>
             first
               [ (assert (m = lo) by lia; subst m; clear H)
               | (let E := fresh "E" in
                  destruct (Z.eq_dec m lo) as [E | E];
                  [ subst m; clear H
                  | assert (lo + 1 <= m <= hi)%Z by lia; clear H E;
                    match goal with
                    | H' : (lo + 1 <= m <= hi)%Z |- _ =>
                        rename H' into H; simpl (lo + 1)%Z in H
                    end ]) ]
         end.

Ltac literal_pad2 :=
  repeat match goal with
         | |- context [Datetime.pad2 ?k] =>
             let v := eval vm_compute in (Datetime.pad2 k) in
             change (Datetime.pad2 k) with v
         end.

Ltac eval_tests :=
  repeat match goal with
         | |- context [Datetime.between ?a ?b ?c] =>
             let v := eval vm_compute in (Datetime.between a b c) in
             change (Datetime.between a b c) with v
         | |- context [Datetime.exactly ?a ?c] =>
             let v := eval vm_compute in (Datetime.exactly a c) in
             change (Datetime.exactly a c) with v
         | |- context [Datetime.is_digit ?c] =>
             let v := eval vm_compute in (Datetime.is_digit c) in
             change (Datetime.is_digit c) with v
         | |- context [Ascii.eqb ?a ?c] =>
             let v := eval vm_compute in (Ascii.eqb a c) in
             change (Ascii.eqb a c) with v
         end.

Ltac run_match :=
  repeat (progress
            (cbn [Datetime.re_match Datetime.first_alt Datetime.take_seq
                  Datetime.group_m Datetime.group_d Datetime.group_Y app];
             eval_tests)).

(** * Properties *)

(** ** Strings *)

Lemma append_assoc' (a b c : string) :
  ((a ++ b) ++ c = a ++ (b ++ c))%string.
Proof. induction a as [|x a IH]; simpl; [reflexivity | now rewrite IH]. Qed.

Lemma length_append' (a b : string) :
  String.length (a ++ b)%string = String.length a + String.length b.
Proof. induction a as [|x a IH]; simpl; [reflexivity | now rewrite IH]. Qed.

Lemma prefix_iff (p s : string) :
  prefix p s = true <-> exists b : string, s = (p ++ b)%string.
Proof.
  revert s; induction p as [|x p IH]; intros s; simpl.
  - destruct s; split; intros; try reflexivity; eexists; reflexivity.
  - destruct s as [|y s]; simpl.
    + split; [discriminate | intros [b H]; discriminate].
    + destruct (ascii_dec x y) as [->|Hxy].
      * rewrite IH. split; intros [b H]; exists b.
        -- now rewrite H.
        -- now inversion H.
      * split; [discriminate | intros [b H]; inversion H; congruence].
Qed.

Lemma prefix_drop (p s : string) :
  prefix p s = true -> s = (p ++ PyStr.drop (String.length p) s)%string.
Proof.
  revert s; induction p as [|x p IH]; intros s H.
  - destruct s; reflexivity.
  - destruct s as [|y s]; simpl in H; [discriminate|].
    destruct (ascii_dec x y) as [->|]; [|discriminate].
    simpl. f_equal. now apply IH.
Qed.

Lemma contains_iff (p s : string) :
  PyStr.contains p s = true <-> Substring p s.
Proof.
  unfold Substring. induction s as [|y s IH]; cbn [PyStr.contains].
  - rewrite orb_false_r, prefix_iff. split.
    + intros [b H]. exists EmptyString, b. exact H.
    + intros [a [b H]]. destruct a; simpl in H; [now exists b | discriminate].
  - rewrite orb_true_iff, prefix_iff, IH. split.
    + intros [[b H] | [a [b H]]].
      * exists EmptyString, b. exact H.
      * exists (String y a), b. simpl. now rewrite H.
    + intros [a [b H]]. destruct a as [|x a]; simpl in H.
      * left. now exists b.
      * right. inversion H. now exists a, b.
Qed.

Lemma contains_false_iff (p s : string) :
  PyStr.contains p s = false <-> ~ Substring p s.
Proof.
  rewrite <- contains_iff. destruct (PyStr.contains p s); split; intros H;
    try reflexivity; try discriminate; try (intro; discriminate).
  now destruct H.
Qed.

Lemma lstrip_empty_iff (s : string) :
  PyStr.lstrip s = EmptyString <-> Blank s.
Proof.
  unfold Blank. induction s as [|c s IH]; simpl.
  - split; [constructor | reflexivity].
  - destruct (PyStr.is_space c) eqn:Hc.
    + rewrite IH. split; intros H.
      * now constructor.
      * now inversion H.
    + split; [discriminate|]. intros H. inversion H; congruence.
Qed.

Lemma rstrip_empty_iff (s : string) :
  PyStr.rstrip s = EmptyString <-> Blank s.
Proof.
  unfold Blank. induction s as [|c s IH]; simpl.
  - split; [constructor | reflexivity].
  - destruct (PyStr.rstrip s) eqn:Hr.
    + destruct (PyStr.is_space c) eqn:Hc.
      * split; intros _; [constructor; [assumption | now apply IH] | reflexivity].
      * split; [discriminate|]. intros H. inversion H; congruence.
    + split; [discriminate|]. intros H. inversion H; subst.
      assert (Hn : String a s0 = EmptyString) by now apply IH.
      discriminate.
Qed.

Lemma lstrip_head (s : string) (c : ascii) (r : string) :
  PyStr.lstrip s = String c r -> PyStr.is_space c = false.
Proof.
  induction s as [|x s IH]; simpl; [discriminate|].
  destruct (PyStr.is_space x) eqn:Hx; [exact IH|].
  intros H. inversion H; subst. exact Hx.
Qed.

Lemma strip_empty_iff (s : string) :
  PyStr.strip s = EmptyString <-> Blank s.
Proof.
  unfold PyStr.strip. rewrite rstrip_empty_iff. split.
  - intros H. apply lstrip_empty_iff.
    destruct (PyStr.lstrip s) as [|c r] eqn:Hl; [reflexivity|].
    apply lstrip_head in Hl. inversion H; congruence.
  - intros H. apply lstrip_empty_iff in H. rewrite H. constructor.
Qed.

Lemma truthy_false_iff (s : string) :
  PyStr.truthy s = false <-> s = EmptyString.
Proof. destruct s; simpl; split; congruence. Qed.

Lemma cut_Some (sep s a b : string) :
  PyStr.cut sep s = Some (a, b) -> s = (a ++ sep ++ b)%string.
Proof.
  revert a; induction s as [|c s IH]; intros a; cbn [PyStr.cut];
    destruct (prefix sep _) eqn:Hp.
  - intros H; inversion H; subst. now apply prefix_drop.
  - discriminate.
  - intros H; inversion H; subst. now apply prefix_drop.
  - destruct (PyStr.cut sep s) as [[a' b']|]; [|discriminate].
    intros H; inversion H; subst. simpl. f_equal. now apply IH.
Qed.

Lemma cut_None_iff (sep s : string) :
  PyStr.cut sep s = None <-> PyStr.contains sep s = false.
Proof.
  induction s as [|c s IH]; cbn [PyStr.cut PyStr.contains];
    destruct (prefix sep _); simpl.
  - split; discriminate.
  - split; reflexivity.
  - split; discriminate.
  - rewrite <- IH. destruct (PyStr.cut sep s) as [[a b]|];
      split; congruence.
Qed.

Lemma prefix_append (p s t : string) :
  prefix p s = true -> prefix p (s ++ t)%string = true.
Proof.
  rewrite !prefix_iff. intros [b ->]. exists (b ++ t)%string.
  apply append_assoc'.
Qed.

(** The text before the leftmost occurrence holds no occurrence. *)
Lemma cut_before_free (sep s a b : string) :
  sep <> EmptyString ->
  PyStr.cut sep s = Some (a, b) -> PyStr.contains sep a = false.
Proof.
  intros Hsep. revert a; induction s as [|c s IH]; intros a;
    cbn [PyStr.cut]; destruct (prefix sep _) eqn:Hp.
  - intros H; inversion H; subst. destruct sep; [congruence | reflexivity].
  - discriminate.
  - intros H; inversion H; subst. destruct sep; [congruence | reflexivity].
  - destruct (PyStr.cut sep s) as [[a' b']|] eqn:Hc; [|discriminate].
    intros H; inversion H; subst. cbn [PyStr.contains].
    rewrite (IH a' eq_refl), orb_false_r.
    destruct (prefix sep (String c a')) eqn:Hpa; [|reflexivity].
    apply cut_Some in Hc. subst s.
    apply (prefix_append _ _ (sep ++ b)) in Hpa. cbn [append] in Hpa.
    congruence.
Qed.

Lemma cut_after_shorter (sep s a b : string) :
  sep <> EmptyString ->
  PyStr.cut sep s = Some (a, b) -> String.length b < String.length s.
Proof.
  intros Hsep H. apply cut_Some in H. subst s.
  rewrite !length_append'. destruct sep; [congruence | simpl; lia].
Qed.

Lemma split_fuel_not_nil (fuel : nat) (sep s : string) :
  PyStr.split_fuel fuel sep s <> [].
Proof.
  destruct fuel; simpl; [discriminate|].
  destruct (PyStr.cut sep s) as [[a b]|]; discriminate.
Qed.

(** Joining the pieces with the separator gives the text back. *)
Lemma split_fuel_join (fuel : nat) (sep s : string) :
  String.concat sep (PyStr.split_fuel fuel sep s) = s.
Proof.
  revert s; induction fuel as [|fuel IH]; intros s; simpl; [reflexivity|].
  destruct (PyStr.cut sep s) as [[a b]|] eqn:Hc; [|reflexivity].
  simpl. pose proof (split_fuel_not_nil fuel sep b) as Hn.
  destruct (PyStr.split_fuel fuel sep b) eqn:Hs; [congruence|].
  rewrite <- Hs, IH. symmetry. now apply cut_Some.
Qed.

(** No piece holds the separator. *)
Lemma split_fuel_free (fuel : nat) (sep s : string) :
  sep <> EmptyString -> String.length s <= fuel ->
  Forall (fun piece => PyStr.contains sep piece = false)
    (PyStr.split_fuel fuel sep s).
Proof.
  intros Hsep. revert s; induction fuel as [|fuel IH]; intros s Hlen; simpl.
  - constructor; [|constructor]. destruct s; [|simpl in Hlen; lia].
    destruct sep; [congruence | reflexivity].
  - destruct (PyStr.cut sep s) as [[a b]|] eqn:Hc.
    + constructor; [now apply (cut_before_free sep s a b)|].
      apply IH. pose proof (cut_after_shorter sep s a b Hsep Hc). lia.
    + constructor; [|constructor]. now apply cut_None_iff.
Qed.

Lemma split_join (sep s : string) :
  String.concat sep (PyStr.split sep s) = s.
Proof. apply split_fuel_join. Qed.

Lemma split_free (sep s : string) :
  sep <> EmptyString ->
  Forall (fun piece => ~ Substring sep piece) (PyStr.split sep s).
Proof.
  intros Hsep. eapply Forall_impl; [|apply split_fuel_free; auto].
  intros piece H. now apply contains_false_iff.
Qed.

(** A text that holds the separator splits into two pieces or more. *)
Lemma split_at_least_two (sep s : string) :
  sep <> EmptyString -> Substring sep s ->
  2 <= List.length (PyStr.split sep s).
Proof.
  intros Hsep H. apply contains_iff in H. unfold PyStr.split.
  destruct s as [|c s].
  - destruct sep; [congruence | discriminate].
  - cbn [String.length PyStr.split_fuel].
    destruct (PyStr.cut sep (String c s)) as [[a b]|] eqn:Hc.
    + pose proof (split_fuel_not_nil (String.length s) sep b).
      destruct (PyStr.split_fuel (String.length s) sep b);
        [congruence | simpl; lia].
    + apply cut_None_iff in Hc. congruence.
Qed.

(** ** Party count *)

Lemma extract_count_absent (case_style : string) :
  Substring "XXXX" case_style \/ Blank case_style ->
  _extract_count case_style = None.
Proof.
  intros [H | H]; unfold _extract_count.
  - apply contains_iff in H. now rewrite H.
  - apply strip_empty_iff in H. rewrite H, orb_true_r. reflexivity.
Qed.

Lemma extract_count_guard (case_style : string) :
  ~ Substring "XXXX" case_style -> ~ Blank case_style ->
  PyStr.contains "XXXX" case_style
  || negb (PyStr.truthy (PyStr.strip case_style)) = false.
Proof.
  intros HX HB. apply contains_false_iff in HX. rewrite HX. simpl.
  destruct (PyStr.strip case_style) eqn:Hs; [|reflexivity].
  apply strip_empty_iff in Hs. contradiction.
Qed.

(** C1.  Party count of a case style.  When the text holds "XXXX" or is
    blank the count is absent.  Otherwise the count is the number of pieces
    of the text split at the first of the separators " vs. ", " vs ",
    " v. ", " v " (tested in that order) that occurs in it, and it is
    absent when none occurs.  "John Smith vs. Jane Doe vs. State" counts
    3. *)
Theorem extract_count_spec (case_style : string) :
  (Substring "XXXX" case_style \/ Blank case_style ->
   _extract_count case_style = None)
  /\ (~ Substring "XXXX" case_style -> ~ Blank case_style ->
      forall (earlier later : list string) (sep : string),
        separators = earlier ++ sep :: later ->
        (forall sep', In sep' earlier -> ~ Substring sep' case_style) ->
        Substring sep case_style ->
        _extract_count case_style
        = Some (Z.of_nat (List.length (PyStr.split sep case_style))))
  /\ (~ Substring "XXXX" case_style -> ~ Blank case_style ->
      (forall sep, In sep separators -> ~ Substring sep case_style) ->
      _extract_count case_style = None)
  /\ _extract_count "John Smith vs. Jane Doe vs. State" = Some 3%Z.
Proof.
  clear normalize_century decode re_search.
  split; [apply extract_count_absent|].
  split; [|split; [|reflexivity]].
  - intros HX HB earlier later sep Hsplit Hearlier Hsep.
    unfold _extract_count. rewrite (extract_count_guard _ HX HB).
    apply contains_iff in Hsep.
    assert (Hno : forall sep', In sep' earlier ->
                    PyStr.contains sep' case_style = false)
      by (intros sep' Hin; apply contains_false_iff; auto).
    unfold separators in Hsplit.
    destruct earlier as [|e1 [|e2 [|e3 [|e4 earlier]]]];
      simpl in Hsplit; inversion Hsplit; subst; clear Hsplit;
      repeat match goal with
        | |- context [PyStr.contains ?p case_style] =>
            first [ rewrite Hsep
                  | rewrite (Hno p) by (simpl; tauto) ]
        end;
      try reflexivity.
    destruct earlier; discriminate.
  - intros HX HB Hnone.
    unfold _extract_count. rewrite (extract_count_guard _ HX HB).
    rewrite !(proj2 (contains_false_iff _ _));
      try (apply Hnone; simpl; tauto).
    reflexivity.
Qed.

(** ** Date normalizer *)

(** [strptime] raises nothing but [ValueError]. *)
Lemma strptime_raises (date_str fmt : string) (e : exn) :
  Datetime.strptime date_str fmt = Raise e -> is_ValueError e = true.
Proof.
  unfold Datetime.strptime.
  destruct (Datetime.pattern _) as [items|];
    [|intros H; inversion H; reflexivity].
  destruct (Datetime.re_match _ _) as [[caps [|c rest]]|];
    try (intros H; inversion H; reflexivity).
  destruct (Datetime.valid_date _ _ _);
    intros H; inversion H; reflexivity.
Qed.

Lemma try_formats_total (date_str : string) (fs : list string) :
  exists v, try_formats date_str fs = Ret v.
Proof.
  induction fs as [|fmt fs IH]; simpl; [eauto|].
  destruct (Datetime.strptime date_str fmt) as [dt|e] eqn:Hp; [eauto|].
  now rewrite (strptime_raises _ _ _ Hp).
Qed.

Lemma try_formats_refused (date_str : string) (fs : list string) :
  (forall fmt, In fmt fs -> Refused date_str fmt) ->
  try_formats date_str fs = Ret (Some date_str).
Proof.
  induction fs as [|fmt fs IH]; intros H; simpl; [reflexivity|].
  destruct (H fmt (or_introl eq_refl)) as [e He].
  rewrite He, (strptime_raises _ _ _ He).
  apply IH; intros f Hf; apply H; now right.
Qed.

Lemma try_formats_first (date_str : string) (earlier later : list string)
  (fmt : string) (dt : Datetime.datetime) :
  (forall f, In f earlier -> Refused date_str f) ->
  Datetime.strptime date_str fmt = Ret dt ->
  try_formats date_str (earlier ++ fmt :: later)
  = Ret (Some (Datetime.strftime normalize_century dt "%Y-%m-%d")).
Proof.
  intros Hearlier Hfmt.
  induction earlier as [|f earlier IH]; simpl.
  - now rewrite Hfmt.
  - destruct (Hearlier f (or_introl eq_refl)) as [e He].
    rewrite He, (strptime_raises _ _ _ He).
    apply IH; intros g Hg; apply Hearlier; now right.
Qed.

Lemma normalize_date_total (date_str : option string) :
  exists v, _normalize_date date_str = Ret v.
Proof.
  unfold _normalize_date. destruct date_str as [s|]; [|eauto].
  destruct (negb (PyStr.truthy s)); [eauto|].
  destruct (try_formats_total s formats) as [v ->]. simpl. eauto.
Qed.

Lemma normalize_date_nonempty (s : string) :
  s <> EmptyString ->
  _normalize_date (Some s) = try_formats s formats.
Proof.
  intros Hs. unfold _normalize_date.
  destruct s; [congruence|]. simpl PyStr.truthy. cbn [negb].
  destruct (try_formats_total (String a s) formats) as [v ->]. reflexivity.
Qed.

Lemma strftime_Ymd (dt : Datetime.datetime) :
  Datetime.strftime normalize_century dt "%Y-%m-%d"
  = string_of_list_ascii
      (Datetime.year_text normalize_century (Datetime.year dt)
       ++ "-"%char :: Datetime.pad2 (Datetime.month dt)
       ++ "-"%char :: Datetime.pad2 (Datetime.day dt)).
Proof. reflexivity. Qed.

(** C2.  Date normalizer.  The empty text gives no value.  For any other
    text the four formats month/day/year, month-day-year, year-month-day,
    year/month/day are tried in that order; the first one [strptime] takes
    decides, and the result is its date written as year-month-day with
    hyphens; when all four refuse the text, the text comes back as it is.
    The call returns for every text: no exception leaves it. *)
Theorem normalize_date_spec (date_str : string) :
  formats = ["%m/%d/%Y"; "%m-%d-%Y"; "%Y-%m-%d"; "%Y/%m/%d"]
  /\ _normalize_date (Some EmptyString) = Ret None
  /\ (date_str <> EmptyString ->
      forall (earlier later : list string) (fmt : string)
             (dt : Datetime.datetime),
        formats = earlier ++ fmt :: later ->
        (forall f, In f earlier -> Refused date_str f) ->
        Datetime.strptime date_str fmt = Ret dt ->
        _normalize_date (Some date_str)
        = Ret (Some (string_of_list_ascii
                       (Datetime.year_text normalize_century
                          (Datetime.year dt)
                        ++ "-"%char :: Datetime.pad2 (Datetime.month dt)
                        ++ "-"%char :: Datetime.pad2 (Datetime.day dt)))))
  /\ (date_str <> EmptyString ->
      (forall f, In f formats -> Refused date_str f) ->
      _normalize_date (Some date_str) = Ret (Some date_str))
  /\ (exists v, _normalize_date (Some date_str) = Ret v)
  /\ _normalize_date (Some "03/15/2024") = Ret (Some "2024-03-15")
  /\ _normalize_date (Some "not-a-date") = Ret (Some "not-a-date").
Proof.
  split; [reflexivity|]. split; [reflexivity|].
  split; [|split; [|split; [apply normalize_date_total|]]].
  - intros Hs earlier later fmt dt Hsplit Hearlier Hfmt.
    rewrite (normalize_date_nonempty _ Hs), Hsplit.
    rewrite (try_formats_first _ _ _ _ _ Hearlier Hfmt).
    now rewrite strftime_Ymd.
  - intros Hs Hall. rewrite (normalize_date_nonempty _ Hs).
    now apply try_formats_refused.
  - split; reflexivity.
Qed.

(** *** What a successful [re_match] says about the text *)

Lemma take_seq_sound (cs : list Datetime.cclass) (s m r : list ascii) :
  Datetime.take_seq cs s = Some (m, r) ->
  s = m ++ r /\ Forall2 (fun (p : Datetime.cclass) c => p c = true) cs m.
Proof.
  revert s m r; induction cs as [|p cs IH]; intros s m r; simpl.
  - intros H; inversion H; subst. split; [reflexivity | constructor].
  - destruct s as [|c s]; [discriminate|].
    destruct (p c) eqn:Hp; [|discriminate].
    destruct (Datetime.take_seq cs s) as [[m' r']|] eqn:Ht; [|discriminate].
    intros H; inversion H; subst. destruct (IH _ _ _ Ht) as [-> HF].
    split; [reflexivity | now constructor].
Qed.

Lemma first_alt_sound {R : Type}
  (k : list ascii -> list ascii -> option R)
  (alts : list (list Datetime.cclass)) (s : list ascii) (x : R) :
  Datetime.first_alt k alts s = Some x ->
  exists alt m r,
    In alt alts /\ Datetime.take_seq alt s = Some (m, r) /\ k m r = Some x.
Proof.
  induction alts as [|a alts IH]; simpl; [discriminate|].
  destruct (Datetime.take_seq a s) as [[m r]|] eqn:Ht.
  - destruct (k m r) as [y|] eqn:Hk.
    + intros H; inversion H; subst. exists a, m, r. auto.
    + intros H. destruct (IH H) as (alt & m' & r' & Hin & H1 & H2).
      exists alt, m', r'. auto.
  - intros H. destruct (IH H) as (alt & m' & r' & Hin & H1 & H2).
    exists alt, m', r'. auto.
Qed.

Lemma re_match_sound (items : list Datetime.item) (s : list ascii)
  (caps : list (ascii * list ascii)) (rest : list ascii) :
  Datetime.re_match items s = Some (caps, rest) ->
  exists text, s = text ++ rest /\ Shape items text.
Proof.
  revert s caps rest; induction items as [|[c | g alts] items IH];
    intros s caps rest; simpl.
  - intros H; inversion H; subst. exists []. split; [reflexivity | constructor].
  - destruct s as [|c' s]; [discriminate|].
    destruct (Ascii.eqb c c') eqn:Hc; [|discriminate].
    apply Ascii.eqb_eq in Hc; subst c'. intros H.
    destruct (IH _ _ _ H) as (text & -> & Hs).
    exists (c :: text). split; [reflexivity | now constructor].
  - intros H. apply first_alt_sound in H.
    destruct H as (alt & m & r & Hin & Ht & Hk).
    destruct (Datetime.re_match items r) as [[caps' rest']|] eqn:Hr;
      [|discriminate].
    inversion Hk; subst. apply take_seq_sound in Ht. destruct Ht as [-> HF].
    destruct (IH _ _ _ Hr) as (text & -> & Hs).
    exists (m ++ text). split; [now rewrite app_assoc|].
    econstructor; eauto.
Qed.

Lemma Forall2_exclude (x : ascii) (alt : list Datetime.cclass)
  (m : list ascii) :
  Forall2 (fun (p : Datetime.cclass) c => p c = true) alt m ->
  (forall p, In p alt -> p x = false) -> ~ In x m.
Proof.
  induction 1 as [|p c alt m Hp HF IH]; intros Hex; simpl; [tauto|].
  intros [-> | Hin].
  - rewrite (Hex p (or_introl eq_refl)) in Hp. discriminate.
  - apply IH; [|exact Hin]. intros q Hq. apply Hex. now right.
Qed.

Lemma Shape_lit_inv c items text :
  Shape (Datetime.Lit c :: items) text ->
  exists t, text = c :: t /\ Shape items t.
Proof. intros H; inversion H; subst. eauto. Qed.

Lemma Shape_group_inv x g alts items text :
  alts_exclude x alts ->
  Shape (Datetime.Group g alts :: items) text ->
  exists alt m t,
    text = m ++ t /\ ~ In x m /\ In alt alts
    /\ List.length m = List.length alt /\ Shape items t.
Proof.
  intros Hex H; inversion H; subst. exists alt, m, t.
  repeat split; auto.
  - eapply Forall2_exclude; eauto.
  - symmetry. eapply Forall2_length; eauto.
Qed.

(** A pattern with the literal [c] only matches a text that holds [c]. *)
Lemma Shape_holds_lit c items text :
  Shape items text -> In (Datetime.Lit c) items -> In c text.
Proof.
  induction 1 as [|c' items t Hs IH|g alts items alt m t Hin HF Hs IH];
    simpl; intros H.
  - contradiction.
  - destruct H as [H | H]; [inversion H; now left | right; auto].
  - destruct H as [H | H]; [discriminate|]. apply in_or_app. right. auto.
Qed.

(** The cut at the first [x] is unique. *)
Lemma split_first_unique {A : Type} (x : A) (a a' b b' : list A) :
  ~ In x a -> ~ In x a' -> a ++ x :: b = a' ++ x :: b' ->
  a = a' /\ b = b'.
Proof.
  revert a'; induction a as [|y a IH]; intros [|y' a'] Ha Ha' H;
    simpl in *.
  - inversion H. auto.
  - inversion H; subst. tauto.
  - inversion H; subst. tauto.
  - inversion H; subst. destruct (IH a') as [-> ->]; auto.
Qed.

(** *** Digits *)

Lemma nat_of_digit (n : Z) :
  nat_of_ascii (Datetime.digit n) = 48 + Z.to_nat (n mod 10).
Proof.
  unfold Datetime.digit. apply nat_ascii_embedding.
  pose proof (Z.mod_pos_bound n 10 ltac:(lia)). lia.
Qed.

Lemma is_digit_digit (n : Z) : Datetime.is_digit (Datetime.digit n) = true.
Proof.
  unfold Datetime.is_digit. rewrite nat_of_digit.
  pose proof (Z.mod_pos_bound n 10 ltac:(lia)).
  apply andb_true_intro; split; apply Nat.leb_le; lia.
Qed.

Lemma digit_value (n : Z) :
  (Z.of_nat (nat_of_ascii (Datetime.digit n)) - 48 = n mod 10)%Z.
Proof.
  rewrite nat_of_digit.
  pose proof (Z.mod_pos_bound n 10 ltac:(lia)). lia.
Qed.

Lemma is_digit_not (c x : ascii) :
  Datetime.is_digit c = true -> Datetime.is_digit x = false -> c <> x.
Proof. intros Hc Hx ->. congruence. Qed.

Lemma digits_exclude (x : ascii) (l : list ascii) :
  Datetime.is_digit x = false ->
  Forall (fun c => Datetime.is_digit c = true) l -> ~ In x l.
Proof.
  intros Hx HF Hin. rewrite Forall_forall in HF.
  specialize (HF x Hin). congruence.
Qed.

Lemma pad2_digits (n : Z) :
  Forall (fun c => Datetime.is_digit c = true) (Datetime.pad2 n).
Proof. repeat constructor; apply is_digit_digit. Qed.

Lemma pad4_digits (n : Z) :
  Forall (fun c => Datetime.is_digit c = true) (Datetime.pad4 n).
Proof. repeat constructor; apply is_digit_digit. Qed.

Lemma year_text_digits (nc : bool) (y : Z) :
  Forall (fun c => Datetime.is_digit c = true) (Datetime.year_text nc y).
Proof.
  unfold Datetime.year_text.
  destruct ((1000 <=? y)%Z || nc); [apply pad4_digits|].
  destruct (100 <=? y)%Z; [repeat constructor; apply is_digit_digit|].
  destruct (10 <=? y)%Z; repeat constructor; apply is_digit_digit.
Qed.

Lemma year_text_length (nc : bool) (y : Z) :
  (Datetime.year_text nc y = Datetime.pad4 y)
  \/ List.length (Datetime.year_text nc y) < 4.
Proof.
  unfold Datetime.year_text.
  destruct ((1000 <=? y)%Z || nc); [now left | right].
  destruct (100 <=? y)%Z; [simpl; lia|].
  destruct (10 <=? y)%Z; simpl; lia.
Qed.

Lemma int_of_pad2 (n : Z) :
  (0 <= n < 100)%Z -> Datetime.int_of (Datetime.pad2 n) = n.
Proof.
  intros Hn. unfold Datetime.int_of, Datetime.pad2. cbn [fold_left].
  rewrite !is_digit_digit, !digit_value.
  Z.div_mod_to_equations. lia.
Qed.

Lemma int_of_pad4 (n : Z) :
  (0 <= n < 10000)%Z -> Datetime.int_of (Datetime.pad4 n) = n.
Proof.
  intros Hn. unfold Datetime.int_of, Datetime.pad4. cbn [fold_left].
  rewrite !is_digit_digit, !digit_value.
  Z.div_mod_to_equations. lia.
Qed.

(** *** The normalizer on its own output *)

Lemma pattern_formats :
  Datetime.pattern (list_ascii_of_string "%m/%d/%Y") = Some (items_mdY "/")
  /\ Datetime.pattern (list_ascii_of_string "%m-%d-%Y") = Some (items_mdY "-")
  /\ Datetime.pattern (list_ascii_of_string "%Y-%m-%d") = Some (items_Ymd "-")
  /\ Datetime.pattern (list_ascii_of_string "%Y/%m/%d") = Some (items_Ymd "/").
Proof. repeat split. Qed.

Lemma strptime_no_match (s fmt : string) (items : list Datetime.item) :
  Datetime.pattern (list_ascii_of_string fmt) = Some items ->
  Datetime.re_match items (list_ascii_of_string s) = None ->
  Refused s fmt.
Proof.
  intros Hp Hm. unfold Refused, Datetime.strptime. rewrite Hp, Hm. eauto.
Qed.

Ltac solve_exclude :=
  let alt := fresh "alt" in
  let p := fresh "p" in
  let Halt := fresh "Halt" in
  let Hp := fresh "Hp" in
  intros alt p Halt Hp;
  simpl in Halt;
  repeat (destruct Halt as [<- | Halt]; [| try contradiction]);
  simpl in Hp;
  repeat (destruct Hp as [<- | Hp]; [| try contradiction]);
  reflexivity.

Lemma group_m_exclude_hyphen :
  alts_exclude "-"
    [ [Datetime.exactly "1"; Datetime.between "0" "2"];
      [Datetime.exactly "0"; Datetime.between "1" "9"];
      [Datetime.between "1" "9"] ].
Proof. solve_exclude. Qed.

Lemma group_d_exclude_hyphen :
  alts_exclude "-"
    [ [Datetime.exactly "3"; Datetime.between "0" "1"];
      [Datetime.between "1" "2"; Datetime.is_digit];
      [Datetime.exactly "0"; Datetime.between "1" "9"];
      [Datetime.between "1" "9"];
      [Datetime.exactly " "; Datetime.between "1" "9"] ].
Proof. solve_exclude. Qed.

Lemma group_Y_exclude_hyphen :
  alts_exclude "-"
    [ [Datetime.is_digit; Datetime.is_digit; Datetime.is_digit;
       Datetime.is_digit] ].
Proof. solve_exclude. Qed.

Lemma out_text_no_slash (nc : bool) (dt : Datetime.datetime) :
  ~ In "/"%char (out_text nc dt).
Proof.
  unfold out_text. intros H.
  apply in_app_or in H. destruct H as [H | [H | H]].
  - revert H. apply digits_exclude; [reflexivity | apply year_text_digits].
  - discriminate.
  - apply in_app_or in H. destruct H as [H | [H | H]].
    + revert H. apply digits_exclude; [reflexivity | apply pad2_digits].
    + discriminate.
    + revert H. apply digits_exclude; [reflexivity | apply pad2_digits].
Qed.

Lemma no_match_without_lit (items : list Datetime.item) (c : ascii)
  (s : list ascii) :
  In (Datetime.Lit c) items -> ~ In c s -> Datetime.re_match items s = None.
Proof.
  intros Hin Hc.
  destruct (Datetime.re_match items s) as [[caps rest]|] eqn:H;
    [|reflexivity].
  apply re_match_sound in H. destruct H as (text & -> & Hs).
  exfalso. apply Hc. apply in_or_app. left.
  eapply Shape_holds_lit; eauto.
Qed.

Lemma no_match_mdY_hyphen (nc : bool) (dt : Datetime.datetime) :
  Datetime.re_match (items_mdY "-") (out_text nc dt) = None.
Proof.
  destruct (Datetime.re_match _ _) as [[caps rest]|] eqn:H; [|reflexivity].
  exfalso. apply re_match_sound in H. destruct H as (text & Hout & Hs).
  unfold items_mdY, Datetime.group_m, Datetime.group_d, Datetime.group_Y
    in Hs.
  apply (Shape_group_inv "-") in Hs; [|apply group_m_exclude_hyphen].
  destruct Hs as (_ & tm & t1 & -> & Hm & _ & _ & Hs).
  apply Shape_lit_inv in Hs. destruct Hs as (t2 & -> & Hs).
  apply (Shape_group_inv "-") in Hs; [|apply group_d_exclude_hyphen].
  destruct Hs as (_ & td & t3 & -> & Hd & _ & _ & Hs).
  apply Shape_lit_inv in Hs. destruct Hs as (t4 & -> & Hs).
  apply (Shape_group_inv "-") in Hs; [|apply group_Y_exclude_hyphen].
  destruct Hs as (alt & tY & t5 & -> & _ & Halt & Hlen & _).
  destruct Halt as [<- | []]. simpl in Hlen.
  unfold out_text in Hout.
  rewrite <- app_assoc in Hout. cbn [app] in Hout.
  apply split_first_unique in Hout;
    [| apply digits_exclude; [reflexivity | apply year_text_digits]
     | exact Hm].
  destruct Hout as [_ Hout].
  rewrite <- app_assoc in Hout. cbn [app] in Hout.
  apply split_first_unique in Hout;
    [| apply digits_exclude; [reflexivity | apply pad2_digits]
     | exact Hd].
  destruct Hout as [_ Hout].
  apply (f_equal (@List.length ascii)) in Hout.
  rewrite !length_app in Hout. simpl in Hout. lia.
Qed.

Lemma no_match_Ymd_short (nc : bool) (dt : Datetime.datetime) :
  List.length (Datetime.year_text nc (Datetime.year dt)) < 4 ->
  Datetime.re_match (items_Ymd "-") (out_text nc dt) = None.
Proof.
  intros Hshort.
  destruct (Datetime.re_match _ _) as [[caps rest]|] eqn:H; [|reflexivity].
  exfalso. apply re_match_sound in H. destruct H as (text & Hout & Hs).
  unfold items_Ymd, Datetime.group_Y in Hs.
  apply (Shape_group_inv "-") in Hs; [|apply group_Y_exclude_hyphen].
  destruct Hs as (alt & tY & t1 & -> & HY & Halt & Hlen & Hs).
  destruct Halt as [<- | []]. simpl in Hlen.
  apply Shape_lit_inv in Hs. destruct Hs as (t2 & -> & Hs).
  unfold out_text in Hout.
  rewrite <- app_assoc in Hout. cbn [app] in Hout.
  apply split_first_unique in Hout;
    [| apply digits_exclude; [reflexivity | apply year_text_digits]
     | exact HY].
  destruct Hout as [Hout _]. rewrite Hout in Hshort. lia.
Qed.

Lemma md_check_all :
  forallb
    (fun m =>
       forallb (fun d => md_check (Z.of_nat m) (Z.of_nat d)) (seq 1 31))
    (seq 1 12) = true.
Proof. vm_compute. reflexivity. Qed.

Lemma md_check_range (m d : Z) :
  (1 <= m <= 12)%Z -> (1 <= d <= 31)%Z -> md_check m d = true.
Proof.
  intros Hm Hd. pose proof md_check_all as H.
  rewrite forallb_forall in H.
  specialize (H (Z.to_nat m)). rewrite forallb_forall in H.
  specialize (H ltac:(apply in_seq; lia) (Z.to_nat d)
                ltac:(apply in_seq; lia)).
  now rewrite !Z2Nat.id in H by lia.
Qed.

Lemma group_Y_step (items : list Datetime.item) (a b c d : ascii)
  (s : list ascii) :
  Datetime.is_digit a = true -> Datetime.is_digit b = true ->
  Datetime.is_digit c = true -> Datetime.is_digit d = true ->
  Datetime.re_match (Datetime.group_Y :: items) (a :: b :: c :: d :: s)
  = match Datetime.re_match items s with
    | Some (caps, rest) => Some (("Y"%char, [a; b; c; d]) :: caps, rest)
    | None => None
    end.
Proof.
  intros Ha Hb Hc Hd. unfold Datetime.group_Y.
  cbn [Datetime.re_match Datetime.first_alt Datetime.take_seq].
  rewrite Ha, Hb, Hc, Hd.
  destruct (Datetime.re_match items s) as [[caps rest]|]; reflexivity.
Qed.

Lemma valid_date_range (y m d : Z) :
  Datetime.valid_date y m d = true ->
  (1 <= y <= 9999 /\ 1 <= m <= 12 /\ 1 <= d <= 31)%Z.
Proof.
  unfold Datetime.valid_date, Datetime.days_in_month.
  rewrite !andb_true_iff, !Z.leb_le. intros H.
  destruct (m =? 2)%Z; [destruct (Datetime.is_leap y)|];
    [| |destruct ((m =? 4) || (m =? 6) || (m =? 9) || (m =? 11))%Z]; lia.
Qed.

Lemma strptime_valid (s fmt : string) (dt : Datetime.datetime) :
  Datetime.strptime s fmt = Ret dt ->
  Datetime.valid_date (Datetime.year dt) (Datetime.month dt)
    (Datetime.day dt) = true.
Proof.
  unfold Datetime.strptime.
  destruct (Datetime.pattern _) as [items|]; [|discriminate].
  destruct (Datetime.re_match _ _) as [[caps [|c rest]]|]; try discriminate.
  destruct (Datetime.valid_date _ _ _) eqn:Hv; [|discriminate].
  intros H; inversion H; subst. exact Hv.
Qed.

(** A date that was read is read back from its four-digit rendering. *)
Lemma strptime_pad4 (dt : Datetime.datetime) :
  Datetime.valid_date (Datetime.year dt) (Datetime.month dt)
    (Datetime.day dt) = true ->
  Datetime.strptime
    (string_of_list_ascii
       (Datetime.pad4 (Datetime.year dt)
        ++ "-"%char :: Datetime.pad2 (Datetime.month dt)
        ++ "-"%char :: Datetime.pad2 (Datetime.day dt)))
    "%Y-%m-%d"
  = Ret dt.
Proof.
  intros Hv. destruct dt as [y m d]. cbn [Datetime.year Datetime.month
    Datetime.day] in *.
  pose proof (valid_date_range _ _ _ Hv) as (Hy & Hm & Hd).
  unfold Datetime.strptime.
  destruct pattern_formats as (_ & _ & -> & _).
  rewrite list_ascii_of_string_of_list_ascii.
  unfold items_Ymd, Datetime.pad4. cbn [app].
  rewrite group_Y_step by apply is_digit_digit.
  pose proof (md_check_range m d Hm Hd) as Hc. unfold md_check in Hc.
  fold items_md.
  destruct (Datetime.re_match items_md _)
    as [[[|[gm tm] [|[gd td] [|? ?]]] [|? ?]]|]; try discriminate.
  rewrite !andb_true_iff, !Z.eqb_eq in Hc.
  destruct Hc as [[[Hgm Hgd] Htm] Htd].
  apply Ascii.eqb_eq in Hgm, Hgd. subst gm gd.
  cbn [Datetime.group Ascii.eqb Bool.eqb].
  fold (Datetime.pad4 y). rewrite int_of_pad4 by lia.
  rewrite Htm, Htd, Hv. reflexivity.
Qed.

Lemma try_formats_cases (s : string) (fs : list string) :
  try_formats s fs = Ret (Some s)
  \/ exists fmt dt,
       Datetime.strptime s fmt = Ret dt
       /\ try_formats s fs
          = Ret (Some (Datetime.strftime normalize_century dt "%Y-%m-%d")).
Proof.
  induction fs as [|fmt fs IH]; simpl; [now left|].
  destruct (Datetime.strptime s fmt) as [dt|e] eqn:Hp.
  - right. exists fmt, dt. auto.
  - rewrite (strptime_raises _ _ _ Hp). exact IH.
Qed.

Lemma refused_of_no_match_out (fmt : string) (items : list Datetime.item)
  (dt : Datetime.datetime) :
  Datetime.pattern (list_ascii_of_string fmt) = Some items ->
  Datetime.re_match items (out_text normalize_century dt) = None ->
  Refused (string_of_list_ascii (out_text normalize_century dt)) fmt.
Proof.
  intros Hp Hm. apply (strptime_no_match _ _ items Hp).
  now rewrite list_ascii_of_string_of_list_ascii.
Qed.

(** The normalizer leaves a date it has written as it is. *)
Lemma normalize_date_output (dt : Datetime.datetime) :
  Datetime.valid_date (Datetime.year dt) (Datetime.month dt)
    (Datetime.day dt) = true ->
  _normalize_date
    (Some (Datetime.strftime normalize_century dt "%Y-%m-%d"))
  = Ret (Some (Datetime.strftime normalize_century dt "%Y-%m-%d")).
Proof.
  intros Hv. rewrite strftime_Ymd. fold (out_text normalize_century dt).
  destruct pattern_formats as (P1 & P2 & P3 & P4).
  assert (R1 : Refused (string_of_list_ascii (out_text normalize_century dt))
                 "%m/%d/%Y").
  { apply (refused_of_no_match_out _ _ _ P1).
    apply (no_match_without_lit _ "/");
      [simpl; tauto | apply out_text_no_slash]. }
  assert (R2 : Refused (string_of_list_ascii (out_text normalize_century dt))
                 "%m-%d-%Y").
  { apply (refused_of_no_match_out _ _ _ P2). apply no_match_mdY_hyphen. }
  assert (R4 : Refused (string_of_list_ascii (out_text normalize_century dt))
                 "%Y/%m/%d").
  { apply (refused_of_no_match_out _ _ _ P4).
    apply (no_match_without_lit _ "/");
      [simpl; tauto | apply out_text_no_slash]. }
  rewrite normalize_date_nonempty.
  2:{ unfold out_text.
      destruct (Datetime.year_text normalize_century (Datetime.year dt))
        as [|c l] eqn:Hy; [|discriminate].
      exfalso. revert Hy. unfold Datetime.year_text.
      repeat match goal with |- context [if ?b then _ else _] =>
        destruct b end; discriminate. }
  destruct (year_text_length normalize_century (Datetime.year dt))
    as [Hpad | Hshort].
  - change formats with (["%m/%d/%Y"; "%m-%d-%Y"] ++ "%Y-%m-%d" :: ["%Y/%m/%d"]).
    rewrite (try_formats_first _ _ _ _ dt).
    + now rewrite strftime_Ymd.
    + intros f [<- | [<- | []]]; assumption.
    + unfold out_text. rewrite Hpad. now apply strptime_pad4.
  - apply try_formats_refused.
    intros f [<- | [<- | [<- | [<- | []]]]]; try assumption.
    apply (refused_of_no_match_out _ _ _ P3).
    now apply no_match_Ymd_short.
Qed.

(** C9.  The date normalizer is idempotent: normalizing what it returns
    gives that value again, for every text (and for no text).
    "2024-03-15" stays "2024-03-15". *)
Theorem normalize_date_idempotent (date_str : option string) :
  (v <- _normalize_date date_str ;; _normalize_date v)
  = _normalize_date date_str
  /\ _normalize_date (Some "2024-03-15") = Ret (Some "2024-03-15").
Proof.
  split; [|reflexivity].
  destruct date_str as [s|]; [|reflexivity].
  destruct s as [|c s]; [reflexivity|].
  rewrite (normalize_date_nonempty (String c s)) by discriminate.
  destruct (try_formats_cases (String c s) formats)
    as [H | (fmt & dt & Hp & H)]; rewrite H; cbn [bind].
  - rewrite normalize_date_nonempty by discriminate. exact H.
  - apply normalize_date_output. eapply strptime_valid; eauto.
Qed.

(** ** Search results *)

Lemma get_text_single (nm : string) (a : list (string * string))
  (t : string) :
  get_text "" true (Tag nm a [NavigableString t]) = PyStr.strip t.
Proof.
  unfold get_text. cbn [_all_strings flat_map app map filter].
  destruct (PyStr.strip t); reflexivity.
Qed.

Lemma datatable_row_short (row : node) :
  List.length (find_all "td" any row) < 6 ->
  _extract_case_from_datatable_row row = Ret None.
Proof.
  intros H. unfold _extract_case_from_datatable_row.
  apply Nat.ltb_lt in H. rewrite H. reflexivity.
Qed.

Lemma datatable_row_cells (row c0 c1 c2 c3 c4 c5 : node)
  (more : list node) :
  find_all "td" any row = c0 :: c1 :: c2 :: c3 :: c4 :: c5 :: more ->
  _extract_case_from_datatable_row row
  = if PyStr.truthy (get_text "" true c1) then
      Ret (Some
             {| Case.case_number := get_text "" true c1;
                Case.filing_date := Some (get_text "" true c5);
                Case.case_type := Some (get_text "" true c4);
                Case.status := Some (get_text "" true c3);
                Case.parties := _extract_count (get_text " " true c2);
                Case.metadata :=
                  Some {| CaseMetadata.fixture_available := false;
                          CaseMetadata.fixture_path := None |} |})
    else Ret None.
Proof.
  intros H. unfold _extract_case_from_datatable_row. rewrite H.
  cbn [List.length Nat.ltb Nat.leb item_at nth_error bind].
  destruct (PyStr.truthy (get_text "" true c1)); reflexivity.
Qed.

Lemma collect_cases_app (extract : node -> res (option Case.t))
  (rows1 rows2 : list node) :
  collect_cases extract (rows1 ++ rows2)
  = collect_cases extract rows1 ++ collect_cases extract rows2.
Proof.
  induction rows1 as [|row rows1 IH]; simpl; [reflexivity|].
  destruct (extract row) as [[case|]|e]; simpl; now rewrite IH.
Qed.


Lemma collect_cases_keep (extract : node -> res (option Case.t))
  (rows : list node) (row : node) (case : Case.t) :
  In row rows -> extract row = Ret (Some case) ->
  In case (collect_cases extract rows).
Proof.
  intros Hin Hrow. apply in_split in Hin. destruct Hin as (r1 & r2 & ->).
  rewrite collect_cases_app. apply in_or_app. right. simpl.
  rewrite Hrow. now left.
Qed.

Lemma hd_filter_first {A : Type} (p : A -> bool) (l : list A) (x : A) :
  hd_error (filter p l) = Some x
  <-> exists before after,
        l = before ++ x :: after
        /\ p x = true /\ forall y, In y before -> p y = false.
Proof.
  clear normalize_century decode re_search.
  induction l as [|a l IH]; simpl.
  - split; [discriminate|].
    intros (before & after & H & _). destruct before; discriminate.
  - destruct (p a) eqn:Ha; simpl.
    + split.
      * intros H; inversion H; subst. exists [], l. simpl.
        repeat split; auto. intros y [].
      * intros ([|b before] & after & H & Hx & Hb); inversion H; subst.
        -- reflexivity.
        -- rewrite (Hb b (or_introl eq_refl)) in Ha. discriminate.
    + rewrite IH. split.
      * intros (before & after & -> & Hx & Hb).
        exists (a :: before), after. simpl. split; [reflexivity|].
        split; [exact Hx|]. intros y [<- | Hy]; auto.
      * intros ([|b before] & after & H & Hx & Hb); inversion H; subst.
        -- congruence.
        -- exists before, after. split; [reflexivity|].
           split; [exact Hx|]. intros y Hy. apply Hb. now right.
Qed.

Lemma hd_filter_None {A : Type} (p : A -> bool) (l : list A) :
  hd_error (filter p l) = None <-> forall y, In y l -> p y = false.
Proof.
  clear normalize_century decode re_search.
  induction l as [|a l IH]; simpl.
  - split; [intros _ y [] | reflexivity].
  - destruct (p a) eqn:Ha; simpl.
    + split; [discriminate|]. intros H.
      rewrite (H a (or_introl eq_refl)) in Ha. discriminate.
    + rewrite IH. split.
      * intros H y [<- | Hy]; auto.
      * intros H y Hy. apply H. now right.
Qed.




Lemma First_or_none (p : node -> bool) (n : node) :
  (forall y, In y (descendants n) -> p y = false) \/ exists x, First p x n.
Proof.
  destruct (hd_error (filter p (descendants n))) as [x|] eqn:H.
  - right. exists x. now apply hd_filter_first.
  - left. now apply hd_filter_None.
Qed.




(** C8.  Fields of a summary.  A row with six cells or more and a case
    number that is not empty after trimming yields a summary whose case
    number, status, case type and filing date are the stripped texts of
    cells 1, 3, 4 and 5 (for a cell that holds one piece of text: that
    text, trimmed).  The filing date is the cell text itself, not the
    normalized date: the row of the scenario keeps "05/15/2021", which the
    normalizer would turn into "2021-05-15". *)
Theorem datatable_row_summary (row c0 c1 c2 c3 c4 c5 : node)
  (more : list node) :
  find_all "td" any row = c0 :: c1 :: c2 :: c3 :: c4 :: c5 :: more ->
  get_text "" true c1 <> EmptyString ->
  (exists case,
     _extract_case_from_datatable_row row = Ret (Some case)
     /\ Case.case_number case = get_text "" true c1
     /\ Case.status case = Some (get_text "" true c3)
     /\ Case.case_type case = Some (get_text "" true c4)
     /\ Case.filing_date case = Some (get_text "" true c5))
  /\ (forall nm a t,
        get_text "" true (Tag nm a [NavigableString t]) = PyStr.strip t)
  /\ (exists case,
        _extract_case_from_datatable_row listing_row = Ret (Some case)
        /\ Case.case_number case = "21CR012345"
        /\ Case.status case = Some "Active"
        /\ Case.case_type case = Some "Criminal"
        /\ Case.parties case = Some 2%Z
        /\ Case.filing_date case = Some "05/15/2021")
  /\ _normalize_date (Some "05/15/2021") = Ret (Some "2021-05-15").
Proof.
  intros Hc Hn. split; [|split; [apply get_text_single|split]].
  - rewrite (datatable_row_cells _ _ _ _ _ _ _ _ Hc).
    destruct (get_text "" true c1) eqn:H1; [congruence|].
    eexists. split; [reflexivity|]. simpl. auto.
  - eexists. split; [reflexivity|]. repeat split.
  - reflexivity.
Qed.

(** ** Case detail *)

Lemma for_each_raise {A B : Type} (f : A -> res (list B)) (xs : list A)
  (x : A) (e : exn) :
  In x xs -> f x = Raise e -> exists e', for_each f xs = Raise e'.
Proof.
  induction xs as [|y xs IH]; intros Hin Hx; [contradiction|]. simpl.
  destruct Hin as [-> | Hin].
  - rewrite Hx. simpl. eauto.
  - destruct (f y) as [ys|e0]; simpl; [|eauto].
    destruct (IH Hin Hx) as [e' ->]. simpl. eauto.
Qed.

Lemma for_each_raise_inv {A B : Type} (f : A -> res (list B))
  (xs : list A) (e : exn) :
  for_each f xs = Raise e -> exists x, In x xs /\ f x = Raise e.
Proof.
  induction xs as [|y xs IH]; simpl; [discriminate|].
  destruct (f y) as [ys|e0] eqn:Hy; simpl.
  - destruct (for_each f xs) as [zs|e1]; simpl; [discriminate|].
    intros H; inversion H; subst.
    destruct (IH eq_refl) as (x & Hin & Hx). eauto.
  - intros H; inversion H; subst. eauto.
Qed.

Lemma for_each_nil_total {A B : Type} (f : A -> res (list B))
  (xs : list A) :
  (forall x, In x xs -> exists ys, f x = Ret ys) ->
  exists zs, for_each f xs = Ret zs.
Proof.
  induction xs as [|y xs IH]; intros H; simpl; [eauto|].
  destruct (H y (or_introl eq_refl)) as [ys ->]. simpl.
  destruct IH as [zs ->]; [intros x Hx; apply H; now right|].
  simpl. eauto.
Qed.

Lemma of_value_None (s : string) :
  ~ In s ["Plaintiff"; "Defendant"; "Petitioner"; "Respondent";
          "Appellant"; "Appellee"; "Other"] ->
  PartyRole.of_value s = None.
Proof.
  intros H. unfold PartyRole.of_value.
  destruct (List.find _ _) as [r|] eqn:Hf; [|reflexivity].
  apply find_some in Hf. destruct Hf as [_ Hr].
  apply String.eqb_eq in Hr. subst s. exfalso. apply H.
  destruct r; simpl; tauto.
Qed.

Lemma of_value_Some (s : string) (r : PartyRole.t) :
  PartyRole.of_value s = Some r -> s = PartyRole.value r.
Proof.
  unfold PartyRole.of_value. intros Hf. apply find_some in Hf.
  destruct Hf as [_ Hr]. apply String.eqb_eq in Hr. now subst.
Qed.

Lemma party_of_row_cells (row c0 c1 c2 c3 : node) (more : list node) :
  find_all "td" any row = c0 :: c1 :: c2 :: c3 :: more ->
  party_of_row row
  = if PyStr.truthy (get_text "" true c0) then
      p <- Party.make (get_text "" true c0) (get_text "" true c1)
             (get_text "" true c2) (get_text "" true c3) ;;
      Ret [p]
    else Ret [].
Proof.
  intros H. unfold party_of_row. rewrite H. reflexivity.
Qed.

(** The only failure of a parties row is the refusal of its role. *)
Lemma party_of_row_raise (row : node) (e : exn) :
  party_of_row row = Raise e -> e = ValidationError "Party" "role".
Proof.
  unfold party_of_row.
  destruct (find_all "td" any row) as [|c0 [|c1 [|c2 [|c3 more]]]];
    try discriminate.
  cbn [List.length Nat.eqb Nat.leb item_at nth_error bind].
  destruct (PyStr.truthy _); [|discriminate].
  unfold Party.make. destruct (PartyRole.of_value _); simpl; congruence.
Qed.

Lemma attorney_of_row_total (row : node) :
  exists attorneys, attorney_of_row row = Ret attorneys.
Proof.
  unfold attorney_of_row.
  destruct (find_all "td" any row) as [|c0 [|c1 [|c2 [|c3 more]]]];
    cbn [List.length Nat.eqb Nat.leb item_at nth_error bind];
    eauto.
  - destruct (PyStr.contains _ _); eauto.
  - destruct (_ || _); simpl; eauto.
Qed.

Lemma extract_attorneys_total (soup : node) :
  exists attorneys, _extract_attorneys soup = Ret attorneys.
Proof.
  unfold _extract_attorneys.
  destruct (find "div" _ soup) as [tab|]; [|eauto].
  destruct (find_all "table" any tab) as [|t0 [|t1 tables]];
    cbn [List.length Nat.leb item_at nth_error bind]; eauto.
  destruct (find "tbody" any t1); [|eauto].
  apply for_each_nil_total. intros row _. apply attorney_of_row_total.
Qed.

Lemma hearing_of_row_total (row : node) :
  exists hearings, hearing_of_row row = Ret hearings.
Proof.
  unfold hearing_of_row.
  destruct (find_all "td" any row)
    as [|c0 [|c1 [|c2 [|c3 [|c4 [|c5 more]]]]]];
    cbn [List.length Nat.leb item_at nth_error bind]; eauto.
  destruct (_ || _); [|eauto].
  destruct (normalize_date_total (Some (get_text "" true c2))) as [d ->].
  simpl. eauto.
Qed.

Lemma extract_hearings_total (soup : node) :
  exists hearings, _extract_hearings soup = Ret hearings.
Proof.
  apply for_each_nil_total. intros row _. apply hearing_of_row_total.
Qed.

Lemma extract_case_info_total (soup : node) :
  exists info, _extract_case_info_from_detail soup = Ret info.
Proof.
  unfold _extract_case_info_from_detail.
  destruct (find "div" _ soup) as [s1|]; [|eauto].
  destruct (find "div" _ s1) as [s2|]; [|eauto].
  destruct (find "p" any s2) as [p|]; [|eauto].
  destruct (re_search "Filing Date:</strong>\s*(\d{1,2}/\d{1,2}/\d{4})" _)
    as [g|]; [|simpl; eauto].
  destruct (normalize_date_total (Some g)) as [d ->]. simpl. eauto.
Qed.

Lemma str_field_Ret (field : string) (v : option string) (s : string) :
  CaseDetail.str_field field v = Ret s -> v = Some s.
Proof. destruct v; simpl; congruence. Qed.

(** When the block under [try:] returns a record, every step of it has
    returned, and the record holds what the steps found. *)
Lemma case_detail_body_Ret (soup : node) (case_number : option string)
  (d : CaseDetail.t) :
  case_detail_body soup case_number = Ret d ->
  exists info parties attorneys events hearings,
    _extract_case_info_from_detail soup = Ret info
    /\ _extract_parties soup = Ret parties
    /\ _extract_attorneys soup = Ret attorneys
    /\ _extract_events soup = Ret events
    /\ _extract_hearings soup = Ret hearings
    /\ CaseDetail.parties d = parties
    /\ CaseDetail.attorneys d = attorneys
    /\ CaseDetail.events d = events
    /\ CaseDetail.hearings d = hearings
    /\ CaseDetail.financials d = None
    /\ CaseDetail.case_caption d = _extract_case_caption soup
    /\ CaseDetail.filing_date d = dict_get "filing_date" info
    /\ CaseDetail.case_type d = dict_get "case_type" info
    /\ CaseDetail.status d = dict_get "status" info
    /\ CaseDetail.court_location d = dict_get "court_location" info.
Proof.
  unfold case_detail_body.
  destruct (_extract_case_info_from_detail soup) as [info|]; [|discriminate].
  destruct (_extract_parties soup) as [ps|]; [|discriminate].
  destruct (_extract_attorneys soup) as [ats|]; [|discriminate].
  destruct (_extract_events soup) as [es|]; [|discriminate].
  destruct (_extract_hearings soup) as [hs|]; [|discriminate].
  cbn [bind]. unfold CaseDetail.make.
  destruct (CaseDetail.str_field "case_number" _) as [n|]; [|discriminate].
  destruct (CaseDetail.str_field "case_caption" _) as [c|] eqn:Hc;
    [|discriminate].
  destruct (CaseDetail.str_field "filing_date" _) as [f|] eqn:Hf;
    [|discriminate].
  destruct (CaseDetail.str_field "case_type" _) as [k|] eqn:Hk;
    [|discriminate].
  destruct (CaseDetail.str_field "status" _) as [s|] eqn:Hs;
    [|discriminate].
  destruct (CaseDetail.str_field "court_location" _) as [l|] eqn:Hl;
    [|discriminate].
  cbn [bind]. intros H; inversion H; subst; clear H.
  apply str_field_Ret in Hc, Hf, Hk, Hs, Hl.
  exists info, ps, ats, es, hs. cbn.
  repeat split; auto.
Qed.

Lemma parse_case_detail_cases (soup : node) (case_number : option string) :
  (exists d, case_detail_body soup case_number = Ret d
             /\ parse_case_detail soup case_number = Ret (Some d))
  \/ (exists e, case_detail_body soup case_number = Raise e
                /\ parse_case_detail soup case_number = Ret None).
Proof.
  unfold parse_case_detail.
  destruct (case_detail_body soup case_number) as [d|e]; simpl; eauto.
Qed.

Lemma step_raise_body (soup : node) (case_number : option string) :
  (exists e, _extract_case_info_from_detail soup = Raise e)
  \/ (exists e, _extract_parties soup = Raise e)
  \/ (exists e, _extract_attorneys soup = Raise e)
  \/ (exists e, _extract_events soup = Raise e)
  \/ (exists e, _extract_hearings soup = Raise e) ->
  parse_case_detail soup case_number = Ret None.
Proof.
  intros H.
  destruct (parse_case_detail_cases soup case_number)
    as [(d & Hb & _) | (e & _ & Hp)]; [|exact Hp].
  apply case_detail_body_Ret in Hb.
  destruct Hb as (info & ps & ats & es & hs & H1 & H2 & H3 & H4 & H5 & _).
  destruct H as [[e H] | [[e H] | [[e H] | [[e H] | [e H]]]]]; congruence.
Qed.

(** C5.  Failures in the case-detail parse, from the text of the document.
    The tree builder runs before the [try:], so a text it refuses makes
    the call raise the builder's exception: that one leaves the call.  For
    a text whose tree is built the call returns: when the block under
    [try:] raises, whatever the exception, the result is [None], in
    particular when the header-info, parties, attorneys, events or
    hearings step raises.  A record is returned only when every step has
    returned, and then it holds the lists the steps found: there is no
    partial record. *)
Theorem parse_case_detail_escape (w : world) (html : string)
  (case_number : option string) :
  (forall msg, soup_of w html = inr msg ->
     parse_case_detail_html w html case_number
     = Raised (ParserRejectedMarkup msg))
  /\ (forall soup, soup_of w html = inl soup ->
        (exists r, parse_case_detail_html w html case_number = Returned r)
        /\ (forall e, case_detail_body soup case_number = Raise e ->
              parse_case_detail_html w html case_number = Returned None)
        /\ ((exists e, _extract_case_info_from_detail soup = Raise e)
            \/ (exists e, _extract_parties soup = Raise e)
            \/ (exists e, _extract_attorneys soup = Raise e)
            \/ (exists e, _extract_events soup = Raise e)
            \/ (exists e, _extract_hearings soup = Raise e) ->
            parse_case_detail_html w html case_number = Returned None)
        /\ (forall d,
              parse_case_detail_html w html case_number
              = Returned (Some d) ->
              exists parties attorneys events hearings,
                _extract_parties soup = Ret parties
                /\ _extract_attorneys soup = Ret attorneys
                /\ _extract_events soup = Ret events
                /\ _extract_hearings soup = Ret hearings
                /\ CaseDetail.parties d = parties
                /\ CaseDetail.attorneys d = attorneys
                /\ CaseDetail.events d = events
                /\ CaseDetail.hearings d = hearings)).
Proof.
  split.
  - intros msg H. unfold parse_case_detail_html, BeautifulSoup.
    now rewrite H.
  - intros soup Hsoup.
    assert (E : parse_case_detail_html w html case_number
                = lift (parse_case_detail soup case_number)).
    { unfold parse_case_detail_html, BeautifulSoup. now rewrite Hsoup. }
    rewrite E. split; [|split; [|split]].
    + destruct (parse_case_detail_cases soup case_number)
        as [(d & _ & ->) | (e & _ & ->)]; simpl; eauto.
    + intros e H. unfold parse_case_detail. now rewrite H.
    + intros H. now rewrite (step_raise_body _ _ H).
    + intros d H.
      destruct (parse_case_detail_cases soup case_number)
        as [(d' & Hb & Hp) | (e & _ & Hp)]; rewrite Hp in H;
        simpl in H; [|discriminate].
      assert (d' = d) by congruence. subst d'.
      apply case_detail_body_Ret in Hb.
      destruct Hb as (info & ps & ats & es & hs & H1 & H2 & H3 & H4 & H5
                      & P1 & P2 & P3 & P4 & _).
      exists ps, ats, es, hs. repeat split; assumption.
Qed.

(** C10.  A parties row with a role outside the enumeration.  When one of
    the rows the parties loop runs over has four cells or more and the
    stripped text of cell 0 is not empty and is none of Plaintiff,
    Defendant, Petitioner, Respondent, Appellant, Appellee, Other, the
    construction of the party is refused, the parties step raises that
    refusal, and the whole call returns [None]. *)
Theorem unknown_role_rejects_document (soup : node)
  (case_number : option string) (row c0 c1 c2 c3 : node)
  (more : list node) :
  In row (section_rows "parties" soup) ->
  find_all "td" any row = c0 :: c1 :: c2 :: c3 :: more ->
  get_text "" true c0 <> EmptyString ->
  ~ In (get_text "" true c0)
      ["Plaintiff"; "Defendant"; "Petitioner"; "Respondent";
       "Appellant"; "Appellee"; "Other"] ->
  Party.make (get_text "" true c0) (get_text "" true c1)
    (get_text "" true c2) (get_text "" true c3)
  = Raise (ValidationError "Party" "role")
  /\ _extract_parties soup = Raise (ValidationError "Party" "role")
  /\ parse_case_detail soup case_number = Ret None.
Proof.
  intros Hin Hcells Hrole Hnot.
  assert (Hmake : Party.make (get_text "" true c0) (get_text "" true c1)
                    (get_text "" true c2) (get_text "" true c3)
                  = Raise (ValidationError "Party" "role")).
  { unfold Party.make. now rewrite (of_value_None _ Hnot). }
  assert (Hrow : party_of_row row = Raise (ValidationError "Party" "role")).
  { rewrite (party_of_row_cells _ _ _ _ _ _ Hcells), Hmake.
    destruct (get_text "" true c0); [congruence | reflexivity]. }
  assert (Hparties : _extract_parties soup
                     = Raise (ValidationError "Party" "role")).
  { destruct (for_each_raise party_of_row _ _ _ Hin Hrow) as [e He].
    unfold _extract_parties. rewrite He. f_equal.
    apply for_each_raise_inv in He. destruct He as (x & _ & Hx).
    now apply party_of_row_raise in Hx. }
  repeat split; [exact Hmake | exact Hparties |].
  apply step_raise_body. right. left. eauto.
Qed.

(** *** Sections that are not there *)

Lemma section_rows_absent (id : string) (soup : node) :
  find "div" (attr_is "id" id) soup = None -> section_rows id soup = [].
Proof. intros H. unfold section_rows. now rewrite H. Qed.

Lemma section_rows_no_table (id : string) (soup tab : node) :
  find "div" (attr_is "id" id) soup = Some tab ->
  find "table" any tab = None -> section_rows id soup = [].
Proof. intros H1 H2. unfold section_rows. now rewrite H1, H2. Qed.

Lemma section_rows_no_tbody (id : string) (soup tab table : node) :
  find "div" (attr_is "id" id) soup = Some tab ->
  find "table" any tab = Some table ->
  find "tbody" any table = None -> section_rows id soup = [].
Proof. intros H1 H2 H3. unfold section_rows. now rewrite H1, H2, H3. Qed.

(** Without its region, table or table body a section step returns the
    empty list. *)
Lemma extract_lists_absent (soup : node) :
  (section_rows "parties" soup = [] -> _extract_parties soup = Ret [])
  /\ (section_rows "events" soup = [] -> _extract_events soup = Ret [])
  /\ (section_rows "hearings" soup = [] -> _extract_hearings soup = Ret [])
  /\ (find "div" (attr_is "id" "parties") soup = None ->
      _extract_attorneys soup = Ret []).
Proof.
  unfold _extract_parties, _extract_events, _extract_hearings,
    _extract_attorneys.
  repeat split; intros ->; reflexivity.
Qed.

(** A record that is returned for a document without parties region has
    the empty parties list. *)
Lemma parse_case_detail_no_parties (soup : node)
  (case_number : option string) (d : CaseDetail.t) :
  find "div" (attr_is "id" "parties") soup = None ->
  parse_case_detail soup case_number = Ret (Some d) ->
  CaseDetail.parties d = [] /\ CaseDetail.attorneys d = [].
Proof.
  intros Hno Hp.
  destruct (parse_case_detail_cases soup case_number)
    as [(d' & Hb & Hp') | (e & _ & Hp')]; [|congruence].
  assert (d' = d) by congruence. subst d'.
  apply case_detail_body_Ret in Hb.
  destruct Hb as (info & ps & ats & es & hs & _ & H1 & H2 & _ & _
                  & <- & <- & _).
  destruct (extract_lists_absent soup) as (P & _ & _ & A).
  rewrite P in H1 by now apply section_rows_absent.
  rewrite A in H2 by exact Hno. split; congruence.
Qed.

(** The record is refused as soon as the caption heading is missing. *)
Lemma parse_case_detail_no_caption (soup : node)
  (case_number : option string) :
  _extract_case_caption soup = None ->
  parse_case_detail soup case_number = Ret None.
Proof.
  intros Hc.
  destruct (parse_case_detail_cases soup case_number)
    as [(d & Hb & _) | (e & _ & Hp)]; [|exact Hp].
  exfalso. revert Hb. unfold case_detail_body. rewrite Hc.
  destruct (_extract_case_info_from_detail soup); [|discriminate].
  destruct (_extract_parties soup); [|discriminate].
  destruct (_extract_attorneys soup); [|discriminate].
  destruct (_extract_events soup); [|discriminate].
  destruct (_extract_hearings soup); [|discriminate].
  cbn [bind]. unfold CaseDetail.make.
  destruct (CaseDetail.str_field "case_number" _); discriminate.
Qed.

(** C6.  On the document that holds a case-number heading and nothing
    else, the parties step returns the empty list, yet the call returns no
    record: the caption, a [str] field of [CaseDetail], is given [None]. *)
Theorem heading_only_document_rejected (case_number : option string) :
  _extract_parties heading_only_document = Ret []
  /\ _extract_case_caption heading_only_document = None
  /\ case_detail_body heading_only_document case_number
     = Raise (ValidationError "CaseDetail" "case_caption")
  /\ parse_case_detail heading_only_document case_number = Ret None.
Proof.
  repeat split; destruct case_number as [[|c s]|]; reflexivity.
Qed.

(** *** Events *)

Lemma event_of_row_cells (row c0 c1 c2 c3 c4 : node) (more : list node) :
  find_all "td" any row = c0 :: c1 :: c2 :: c3 :: c4 :: more ->
  event_of_row row
  = if PyStr.truthy (get_text "" true c0)
       || PyStr.truthy (get_text "" true c1)
    then
      d <- _normalize_date (Some (get_text "" true c0)) ;;
      e <- Event.make d (get_text "" true c1)
             (or_None (get_text "" true c2)) (or_None (get_text "" true c3))
             (has_link c4) ;;
      Ret [e]
    else Ret [].
Proof. intros H. unfold event_of_row. rewrite H. reflexivity. Qed.

(** A row with a date yields an event with the normalized date. *)
Lemma event_of_row_dated (row c0 c1 c2 c3 c4 : node) (more : list node) :
  find_all "td" any row = c0 :: c1 :: c2 :: c3 :: c4 :: more ->
  get_text "" true c0 <> EmptyString ->
  exists d,
    _normalize_date (Some (get_text "" true c0)) = Ret (Some d)
    /\ event_of_row row
       = Ret [ {| Event.file_date := d;
                  Event.file_type := get_text "" true c1;
                  Event.filed_by := or_None (get_text "" true c2);
                  Event.comment := or_None (get_text "" true c3);
                  Event.has_documents := has_link c4 |} ].
Proof.
  intros Hc Hd. rewrite (event_of_row_cells _ _ _ _ _ _ _ Hc).
  destruct (get_text "" true c0) as [|a s] eqn:H0; [congruence|].
  cbn [PyStr.truthy orb].
  rewrite (normalize_date_nonempty (String a s)) by discriminate.
  destruct (try_formats_cases (String a s) formats)
    as [H | (fmt & dt & _ & H)]; rewrite H; eexists; split; reflexivity.
Qed.

(** A row with a type and no date makes the events step raise. *)
Lemma event_of_row_undated (row c0 c1 c2 c3 c4 : node) (more : list node) :
  find_all "td" any row = c0 :: c1 :: c2 :: c3 :: c4 :: more ->
  get_text "" true c0 = EmptyString ->
  get_text "" true c1 <> EmptyString ->
  event_of_row row = Raise (ValidationError "Event" "file_date").
Proof.
  intros Hc Hd Ht. rewrite (event_of_row_cells _ _ _ _ _ _ _ Hc), Hd.
  destruct (get_text "" true c1); [congruence | reflexivity].
Qed.

(** A row without date and type yields nothing. *)
Lemma event_of_row_empty (row c0 c1 c2 c3 c4 : node) (more : list node) :
  find_all "td" any row = c0 :: c1 :: c2 :: c3 :: c4 :: more ->
  get_text "" true c0 = EmptyString ->
  get_text "" true c1 = EmptyString ->
  event_of_row row = Ret [].
Proof.
  intros Hc Hd Ht. rewrite (event_of_row_cells _ _ _ _ _ _ _ Hc), Hd, Ht.
  reflexivity.
Qed.

(** The events row of the scenario. *)
Lemma event_of_motion_row :
  event_of_row motion_row
  = Ret [ {| Event.file_date := "2024-02-15";
             Event.file_type := "Motion";
             Event.filed_by := Some "Jane Doe";
             Event.comment := Some "Request for continuance";
             Event.has_documents := true |} ].
Proof. reflexivity. Qed.

(** C4.  On the events row with the type "Motion" and an empty date the
    construction of the event is refused ([file_date] is [None]), the
    events step raises, and the whole call returns [None]: no event is
    emitted for that row. *)
Theorem undated_event_rejects_document (case_number : option string) :
  event_of_row undated_row = Raise (ValidationError "Event" "file_date")
  /\ _extract_events undated_event_document
     = Raise (ValidationError "Event" "file_date")
  /\ parse_case_detail undated_event_document case_number = Ret None.
Proof.
  repeat split; destruct case_number as [[|c s]|]; reflexivity.
Qed.

(** *** Hearings *)

Lemma hearing_of_row_cells (row c0 c1 c2 c3 c4 c5 : node)
  (more : list node) :
  find_all "td" any row = c0 :: c1 :: c2 :: c3 :: c4 :: c5 :: more ->
  hearing_of_row row
  = if PyStr.truthy (get_text "" true c2)
       || PyStr.truthy (get_text "" true c1)
    then
      d <- _normalize_date (Some (get_text "" true c2)) ;;
      Ret [ {| Hearing.date := d;
               Hearing.type := Some (get_text "" true c1);
               Hearing.department := Some (get_text "" true c0);
               Hearing.judge := None;
               Hearing.result := Some (get_text "" true c4) |} ]
    else Ret [].
Proof. intros H. unfold hearing_of_row. rewrite H. reflexivity. Qed.

(** C3.  The hearing record does not depend on the time, the combined
    date and time, or the document flag that the parser passes: the two
    sample rows, which differ in the time cell and in the link of cell 5,
    yield the same record, with the five declared fields only. *)
Theorem hearing_record_drops_time :
  (forall date time time' datetime datetime' type department result
          has_documents has_documents',
     Hearing.make date time datetime type department result has_documents
     = Hearing.make date time' datetime' type department result
         has_documents')
  /\ hearing_of_row hearing_row_morning
     = Ret [ {| Hearing.date := Some "2024-03-15";
                Hearing.type := Some "Arraignment";
                Hearing.department := Some "Dept 12";
                Hearing.judge := None;
                Hearing.result := Some "Continued" |} ]
  /\ hearing_of_row hearing_row_afternoon
     = hearing_of_row hearing_row_morning.
Proof. repeat split. Qed.

(** * Further properties *)

(** ** Stripping *)

Lemma rstrip_idempotent (s : string) :
  PyStr.rstrip (PyStr.rstrip s) = PyStr.rstrip s.
Proof.
  induction s as [|c s IH]; [reflexivity|]. cbn [PyStr.rstrip].
  destruct (PyStr.rstrip s) as [|d r] eqn:Hr.
  - destruct (PyStr.is_space c) eqn:Hc; [reflexivity|].
    cbn [PyStr.rstrip]. now rewrite Hc.
  - cbn [PyStr.rstrip] in *. now rewrite IH.
Qed.

Lemma rstrip_head (c : ascii) (s : string) :
  PyStr.is_space c = false ->
  exists r, PyStr.rstrip (String c s) = String c r.
Proof.
  intros Hc. cbn [PyStr.rstrip]. rewrite Hc.
  destruct (PyStr.rstrip s); eauto.
Qed.

Lemma lstrip_fixed (s : string) :
  (forall c r, s = String c r -> PyStr.is_space c = false) ->
  PyStr.lstrip s = s.
Proof.
  destruct s as [|c r]; [reflexivity|]. intros H. simpl.
  now rewrite (H c r eq_refl).
Qed.

Lemma lstrip_idempotent (s : string) :
  PyStr.lstrip (PyStr.lstrip s) = PyStr.lstrip s.
Proof.
  apply lstrip_fixed. intros c r H. now apply lstrip_head in H.
Qed.

Lemma strip_idempotent (s : string) :
  PyStr.strip (PyStr.strip s) = PyStr.strip s.
Proof.
  unfold PyStr.strip.
  assert (H : PyStr.lstrip (PyStr.rstrip (PyStr.lstrip s))
              = PyStr.rstrip (PyStr.lstrip s)).
  { apply lstrip_fixed. intros c r Hr.
    destruct (PyStr.lstrip s) as [|d t] eqn:Hl; [discriminate|].
    pose proof (lstrip_head _ _ _ Hl) as Hd.
    destruct (rstrip_head d t Hd) as [r' Hr'].
    rewrite Hr' in Hr. inversion Hr; subst. exact Hd. }
  rewrite H. apply rstrip_idempotent.
Qed.

Lemma lstrip_length (s : string) :
  String.length (PyStr.lstrip s) <= String.length s.
Proof.
  induction s as [|c s IH]; simpl; [lia|].
  destruct (PyStr.is_space c); simpl; lia.
Qed.

Lemma rstrip_length (s : string) :
  String.length (PyStr.rstrip s) <= String.length s.
Proof.
  induction s as [|c s IH]; simpl; [lia|].
  destruct (PyStr.rstrip s); [destruct (PyStr.is_space c)|]; simpl in *; lia.
Qed.

Lemma strip_length (s : string) :
  String.length (PyStr.strip s) <= String.length s.
Proof.
  unfold PyStr.strip.
  pose proof (rstrip_length (PyStr.lstrip s)).
  pose proof (lstrip_length s). lia.
Qed.

(** The stripped text starts with no whitespace. *)
Lemma strip_first (s : string) (c : ascii) (r : string) :
  PyStr.strip s = String c r -> PyStr.is_space c = false.
Proof.
  unfold PyStr.strip. intros H.
  destruct (PyStr.lstrip s) as [|d t] eqn:Hl; [discriminate|].
  pose proof (lstrip_head _ _ _ Hl) as Hd.
  destruct (rstrip_head d t Hd) as [r' Hr']. rewrite Hr' in H.
  inversion H; subst. exact Hd.
Qed.

(** The stripped text ends with no whitespace. *)
Lemma rstrip_last (s a : string) (c : ascii) :
  PyStr.rstrip s = (a ++ String c EmptyString)%string ->
  PyStr.is_space c = false.
Proof.
  revert a; induction s as [|d s IH]; intros a; cbn [PyStr.rstrip].
  - destruct a; discriminate.
  - destruct (PyStr.rstrip s) as [|e r] eqn:Hr.
    + destruct (PyStr.is_space d) eqn:Hd.
      * destruct a; discriminate.
      * destruct a as [|x [|y a]]; simpl; intros H; inversion H; subst;
          assumption.
    + destruct a as [|x a]; simpl; intros H; inversion H; subst.
      now apply (IH a).
Qed.

Lemma strip_last (s a : string) (c : ascii) :
  PyStr.strip s = (a ++ String c EmptyString)%string ->
  PyStr.is_space c = false.
Proof. unfold PyStr.strip. apply rstrip_last. Qed.


(** ** Search request *)

Lemma validate_name_iff (field v t : string) :
  SearchRequest.validate_name field v = Ret t
  <-> 1 <= String.length v <= 100 /\ ~ Blank v /\ t = PyStr.strip v.
Proof.
  clear normalize_century decode re_search.
  unfold SearchRequest.validate_name.
  destruct (String.length v <? 1)%nat eqn:H1; cbn [orb].
  { apply Nat.ltb_lt in H1. split; [discriminate | intros [? _]; lia]. }
  destruct (100 <? String.length v)%nat eqn:H2.
  { apply Nat.ltb_lt in H2. split; [discriminate | intros [? _]; lia]. }
  apply Nat.ltb_ge in H1, H2.
  destruct v as [|c v]; [simpl in H1; lia|]. cbn [PyStr.truthy negb orb].
  destruct (PyStr.strip (String c v)) as [|d r] eqn:Hs; cbn [PyStr.truthy negb].
  - apply strip_empty_iff in Hs. split; [discriminate | tauto].
  - split.
    + intros H; inversion H; subst. repeat split; try lia.
      intros HB. apply strip_empty_iff in HB. congruence.
    + intros (_ & _ & ->). reflexivity.
Qed.

Lemma search_request_make_iff (first_name last_name : string)
  (r : SearchRequest.t) :
  SearchRequest.make first_name last_name = Ret r
  <-> 1 <= String.length first_name <= 100 /\ ~ Blank first_name
      /\ 1 <= String.length last_name <= 100 /\ ~ Blank last_name
      /\ r = {| SearchRequest.first_name := PyStr.strip first_name;
                SearchRequest.last_name := PyStr.strip last_name |}.
Proof.
  unfold SearchRequest.make. split.
  - destruct (SearchRequest.validate_name "first_name" first_name)
      as [f|] eqn:Hf; [|discriminate].
    destruct (SearchRequest.validate_name "last_name" last_name)
      as [l|] eqn:Hl; [|discriminate].
    cbn [bind]. intros H; inversion H; subst.
    apply validate_name_iff in Hf, Hl.
    destruct Hf as (? & ? & ->), Hl as (? & ? & ->). auto.
  - intros (H1 & H2 & H3 & H4 & ->).
    rewrite (proj2 (validate_name_iff "first_name" first_name _)) by auto.
    cbn [bind].
    rewrite (proj2 (validate_name_iff "last_name" last_name _)) by auto.
    reflexivity.
Qed.

(** X1.  A search request is accepted exactly when each of the two names
    has between 1 and 100 characters and is not blank; the request then
    holds the two names stripped. *)
Theorem search_request_accepted (first_name last_name : string)
  (r : SearchRequest.t) :
  SearchRequest.make first_name last_name = Ret r
  <-> 1 <= String.length first_name <= 100 /\ ~ Blank first_name
      /\ 1 <= String.length last_name <= 100 /\ ~ Blank last_name
      /\ r = {| SearchRequest.first_name := PyStr.strip first_name;
                SearchRequest.last_name := PyStr.strip last_name |}.
Proof. apply search_request_make_iff. Qed.

Lemma not_blank_strip (v : string) : ~ Blank v -> ~ Blank (PyStr.strip v).
Proof.
  intros H HB. apply strip_empty_iff in HB. rewrite strip_idempotent in HB.
  now apply strip_empty_iff in HB.
Qed.

Lemma strip_not_blank_length (v : string) :
  ~ Blank v -> 1 <= String.length (PyStr.strip v).
Proof.
  intros H. destruct (PyStr.strip v) eqn:Hs; [|simpl; lia].
  apply strip_empty_iff in Hs. contradiction.
Qed.

Lemma search_request_again (first_name last_name : string)
  (r : SearchRequest.t) :
  SearchRequest.make first_name last_name = Ret r ->
  SearchRequest.make (SearchRequest.first_name r) (SearchRequest.last_name r)
  = Ret r.
Proof.
  intros H. apply search_request_make_iff in H.
  destruct H as (Hf & Bf & Hl & Bl & ->). cbn.
  apply search_request_make_iff.
  pose proof (strip_length first_name). pose proof (strip_length last_name).
  pose proof (strip_not_blank_length _ Bf).
  pose proof (strip_not_blank_length _ Bl).
  rewrite !strip_idempotent.
  repeat split; try lia; now apply not_blank_strip.
Qed.

(** X2.  The names of an accepted request are not empty, have at most 100
    characters and neither start nor end with whitespace, and a request
    built again from them is accepted and is the same request. *)
Theorem search_request_stable (first_name last_name : string)
  (r : SearchRequest.t) :
  SearchRequest.make first_name last_name = Ret r ->
  SearchRequest.make (SearchRequest.first_name r) (SearchRequest.last_name r)
  = Ret r
  /\ (forall name,
        name = SearchRequest.first_name r \/ name = SearchRequest.last_name r ->
        1 <= String.length name <= 100
        /\ (forall c rest, name = String c rest -> PyStr.is_space c = false)
        /\ (forall front c, name = (front ++ String c EmptyString)%string ->
              PyStr.is_space c = false)).
Proof.
  intros H. apply search_request_make_iff in H.
  destruct H as (Hf & Bf & Hl & Bl & ->). cbn. split.
  - apply search_request_make_iff.
    pose proof (strip_length first_name). pose proof (strip_length last_name).
    pose proof (strip_not_blank_length _ Bf).
    pose proof (strip_not_blank_length _ Bl).
    rewrite !strip_idempotent.
    repeat split; try lia; now apply not_blank_strip.
  - intros name [-> | ->].
    + pose proof (strip_length first_name).
      pose proof (strip_not_blank_length _ Bf).
      repeat split; try lia.
      * intros c rest. apply strip_first.
      * intros front c. apply strip_last.
    + pose proof (strip_length last_name).
      pose proof (strip_not_blank_length _ Bl).
      repeat split; try lia.
      * intros c rest. apply strip_first.
      * intros front c. apply strip_last.
Qed.


(** ** The four date formats *)

Lemma group_m_exclude_slash :
  alts_exclude "/"
    [ [Datetime.exactly "1"; Datetime.between "0" "2"];
      [Datetime.exactly "0"; Datetime.between "1" "9"];
      [Datetime.between "1" "9"] ].
Proof. solve_exclude. Qed.

Lemma group_Y_exclude_slash :
  alts_exclude "/"
    [ [Datetime.is_digit; Datetime.is_digit; Datetime.is_digit;
       Datetime.is_digit] ].
Proof. solve_exclude. Qed.

Lemma Shape_group_inv2 x1 x2 g alts items text :
  alts_exclude x1 alts -> alts_exclude x2 alts ->
  Shape (Datetime.Group g alts :: items) text ->
  exists alt m t,
    text = m ++ t /\ ~ In x1 m /\ ~ In x2 m /\ In alt alts
    /\ List.length m = List.length alt /\ Shape items t.
Proof.
  intros H1 H2 H; inversion H; subst. exists alt, m, t.
  repeat split; auto.
  - eapply Forall2_exclude; eauto.
  - eapply Forall2_exclude; eauto.
  - symmetry. eapply Forall2_length; eauto.
Qed.

(** The cut at the first character with the property [P] is unique. *)
Lemma split_first_such {A : Type} (P : A -> Prop) (a a' b b' : list A)
  (x x' : A) :
  (forall y, In y a -> ~ P y) -> (forall y, In y a' -> ~ P y) ->
  P x -> P x' -> a ++ x :: b = a' ++ x' :: b' ->
  a = a' /\ x = x' /\ b = b'.
Proof.
  revert a'; induction a as [|y a IH]; intros [|y' a'] Ha Ha' Hx Hx' H;
    simpl in *.
  - inversion H. auto.
  - inversion H; subst. exfalso.
    eapply Ha'; [left; reflexivity | exact Hx].
  - inversion H; subst. exfalso.
    eapply Ha; [left; reflexivity | exact Hx'].
  - inversion H; subst. destruct (IH a') as (-> & -> & ->); auto.
Qed.

(** How a text that a month-first pattern takes begins: one or two
    characters that are no separator, then the separator. *)
Lemma Shape_mdY_head (c : ascii) (text : list ascii) :
  Shape (items_mdY c) text ->
  exists t rest,
    text = t ++ c :: rest /\ List.length t <= 2
    /\ ~ In "/"%char t /\ ~ In "-"%char t.
Proof.
  intros Hs. unfold items_mdY, Datetime.group_m in Hs.
  apply (Shape_group_inv2 "/" "-") in Hs;
    [|apply group_m_exclude_slash|apply group_m_exclude_hyphen].
  destruct Hs as (alt & tm & t1 & -> & Hslash & Hhyphen & Halt & Hlen & Hs).
  apply Shape_lit_inv in Hs. destruct Hs as (t2 & -> & _).
  exists tm, t2. repeat split; auto.
  rewrite Hlen. simpl in Halt.
  destruct Halt as [<- | [<- | [<- | []]]]; simpl; lia.
Qed.

(** A text that a year-first pattern takes begins with four characters
    that are no separator, then the separator. *)
Lemma Shape_Ymd_head (c : ascii) (text : list ascii) :
  Shape (items_Ymd c) text ->
  exists t rest,
    text = t ++ c :: rest /\ List.length t = 4
    /\ ~ In "/"%char t /\ ~ In "-"%char t.
Proof.
  intros Hs. unfold items_Ymd, Datetime.group_Y in Hs.
  apply (Shape_group_inv2 "/" "-") in Hs;
    [|apply group_Y_exclude_slash|apply group_Y_exclude_hyphen].
  destruct Hs as (alt & tY & t1 & -> & Hslash & Hhyphen & Halt & Hlen & Hs).
  apply Shape_lit_inv in Hs. destruct Hs as (t2 & -> & _).
  exists tY, t2. repeat split; auto.
  rewrite Hlen. destruct Halt as [<- | []]. reflexivity.
Qed.

Lemma strptime_Shape (s fmt : string) (items : list Datetime.item)
  (dt : Datetime.datetime) :
  Datetime.pattern (list_ascii_of_string fmt) = Some items ->
  Datetime.strptime s fmt = Ret dt ->
  Shape items (list_ascii_of_string s).
Proof.
  intros Hp. unfold Datetime.strptime. rewrite Hp.
  destruct (Datetime.re_match _ _) as [[caps [|c rest]]|] eqn:Hm;
    try discriminate.
  intros _. apply re_match_sound in Hm.
  destruct Hm as (text & Heq & Hs). rewrite app_nil_r in Heq.
  now rewrite Heq.
Qed.

(** The first separator of a text that a format takes, and the number of
    characters before it. *)
Lemma accepted_head (s fmt : string) (dt : Datetime.datetime) :
  In fmt formats -> Datetime.strptime s fmt = Ret dt ->
  exists t c rest,
    list_ascii_of_string s = t ++ c :: rest
    /\ ~ In "/"%char t /\ ~ In "-"%char t
    /\ ((fmt = "%m/%d/%Y" /\ c = "/"%char /\ List.length t <= 2)
        \/ (fmt = "%m-%d-%Y" /\ c = "-"%char /\ List.length t <= 2)
        \/ (fmt = "%Y-%m-%d" /\ c = "-"%char /\ List.length t = 4)
        \/ (fmt = "%Y/%m/%d" /\ c = "/"%char /\ List.length t = 4)).
Proof.
  clear normalize_century decode re_search.
  destruct pattern_formats as (P1 & P2 & P3 & P4).
  intros [<- | [<- | [<- | [<- | []]]]] H.
  - apply (strptime_Shape _ _ _ _ P1) in H. apply Shape_mdY_head in H.
    destruct H as (t & rest & Heq & Hlen & H1 & H2).
    exists t, "/"%char, rest. tauto.
  - apply (strptime_Shape _ _ _ _ P2) in H. apply Shape_mdY_head in H.
    destruct H as (t & rest & Heq & Hlen & H1 & H2).
    exists t, "-"%char, rest. tauto.
  - apply (strptime_Shape _ _ _ _ P3) in H. apply Shape_Ymd_head in H.
    destruct H as (t & rest & Heq & Hlen & H1 & H2).
    exists t, "-"%char, rest. tauto.
  - apply (strptime_Shape _ _ _ _ P4) in H. apply Shape_Ymd_head in H.
    destruct H as (t & rest & Heq & Hlen & H1 & H2).
    exists t, "/"%char, rest. tauto.
Qed.

Lemma formats_exclusive (s f1 f2 : string) (dt1 dt2 : Datetime.datetime) :
  In f1 formats -> In f2 formats ->
  Datetime.strptime s f1 = Ret dt1 -> Datetime.strptime s f2 = Ret dt2 ->
  f1 = f2.
Proof.
  intros I1 I2 H1 H2.
  destruct (accepted_head _ _ _ I1 H1) as (t & c & r & E & S1 & S2 & K).
  destruct (accepted_head _ _ _ I2 H2) as (t' & c' & r' & E' & S1' & S2' & K').
  rewrite E in E'.
  assert (t = t' /\ c = c' /\ r = r') as (<- & <- & _).
  { apply (split_first_such (fun y => y = "/"%char \/ y = "-"%char));
      auto.
    - intros y Hy [-> | ->]; contradiction.
    - intros y Hy [-> | ->]; contradiction.
    - destruct K as [L | [L | [L | L]]]; destruct L as (_ & -> & _); auto.
    - destruct K' as [L | [L | [L | L]]]; destruct L as (_ & -> & _); auto. }
  destruct K as [L | [L | [L | L]]]; destruct L as (-> & Hc & Hl);
    destruct K' as [L | [L | [L | L]]]; destruct L as (-> & Hc' & Hl');
    try reflexivity; try (rewrite Hc in Hc'; discriminate Hc'); lia.
Qed.


Lemma try_formats_outcome (s : string) (fs : list string) :
  (try_formats s fs = Ret (Some s)
   /\ forall f, In f fs -> Refused s f)
  \/ exists f dt,
       In f fs /\ Datetime.strptime s f = Ret dt
       /\ try_formats s fs
          = Ret (Some (Datetime.strftime normalize_century dt "%Y-%m-%d")).
Proof.
  induction fs as [|fmt fs IH]; simpl.
  - left. split; [reflexivity | contradiction].
  - destruct (Datetime.strptime s fmt) as [dt|e] eqn:Hp.
    + right. exists fmt, dt. auto.
    + rewrite (strptime_raises _ _ _ Hp).
      destruct IH as [[H1 H2] | (f & dt & Hin & Hf & H)].
      * left. split; [exact H1|]. intros f [<- | Hf]; [|auto].
        exists e. exact Hp.
      * right. exists f, dt. auto.
Qed.

(** X3.  No text is taken by two of the four formats, so the order in
    which the loop tries them does not matter: tried in any order, the
    formats give the same result. *)
Theorem format_order_irrelevant (s : string) :
  (forall f1 f2 dt1 dt2,
     In f1 formats -> In f2 formats ->
     Datetime.strptime s f1 = Ret dt1 -> Datetime.strptime s f2 = Ret dt2 ->
     f1 = f2)
  /\ (forall fs, Permutation fs formats ->
        try_formats s fs = try_formats s formats).
Proof.
  split; [intros f1 f2 dt1 dt2; apply formats_exclusive|].
  intros fs Hperm.
  destruct (try_formats_outcome s fs)
    as [[H1 H2] | (f & dt & Hin & Hf & H)];
    destruct (try_formats_outcome s formats)
      as [[H1' H2'] | (f' & dt' & Hin' & Hf' & H')].
  - congruence.
  - exfalso. destruct (H2 f') as [e He]; [|congruence].
    eapply Permutation_in; [symmetry; exact Hperm | exact Hin'].
  - exfalso. destruct (H2' f) as [e He]; [|congruence].
    eapply Permutation_in; eauto.
  - assert (f = f').
    { eapply formats_exclusive; eauto. eapply Permutation_in; eauto. }
    subst f'. congruence.
Qed.


Lemma group_m_step (c : ascii) (items : list Datetime.item)
  (rest : list ascii) (m : Z) :
  c = "/"%char \/ c = "-"%char -> (1 <= m <= 12)%Z ->
  Datetime.re_match (Datetime.group_m :: Datetime.Lit c :: items)
    (Datetime.pad2 m ++ c :: rest)
  = match Datetime.re_match items rest with
    | Some (caps, r) => Some (("m"%char, Datetime.pad2 m) :: caps, r)
    | None => None
    end.
Proof.
  intros Hc Hm.
  destruct Hc as [-> | ->]; cases_between Hm; literal_pad2; run_match;
    destruct (Datetime.re_match items rest) as [[caps r]|];
    run_match; reflexivity.
Qed.

Lemma group_d_step (c : ascii) (items : list Datetime.item)
  (rest : list ascii) (d : Z) :
  c = "/"%char \/ c = "-"%char -> (1 <= d <= 31)%Z ->
  Datetime.re_match (Datetime.group_d :: Datetime.Lit c :: items)
    (Datetime.pad2 d ++ c :: rest)
  = match Datetime.re_match items rest with
    | Some (caps, r) => Some (("d"%char, Datetime.pad2 d) :: caps, r)
    | None => None
    end.
Proof.
  intros Hc Hd.
  destruct Hc as [-> | ->]; cases_between Hd; literal_pad2; run_match;
    destruct (Datetime.re_match items rest) as [[caps r]|];
    run_match; reflexivity.
Qed.

Lemma group_d_last (d : Z) :
  (1 <= d <= 31)%Z ->
  Datetime.re_match [Datetime.group_d] (Datetime.pad2 d)
  = Some ([("d"%char, Datetime.pad2 d)], []).
Proof. intros Hd. cases_between Hd; reflexivity. Qed.


Lemma strptime_empty (fmt : string) :
  In fmt formats -> Refused EmptyString fmt.
Proof.
  intros [<- | [<- | [<- | [<- | []]]]]; eexists; reflexivity.
Qed.

(** A text that one of the four formats takes is normalized to the date
    that format reads. *)
Lemma normalize_accepted (s fmt : string) (dt : Datetime.datetime) :
  In fmt formats -> Datetime.strptime s fmt = Ret dt ->
  _normalize_date (Some s)
  = Ret (Some (Datetime.strftime normalize_century dt "%Y-%m-%d")).
Proof.
  intros Hin Hp.
  assert (Hs : s <> EmptyString).
  { intros ->. destruct (strptime_empty _ Hin) as [e He]. congruence. }
  rewrite (normalize_date_nonempty _ Hs).
  destruct (try_formats_outcome s formats)
    as [[_ H] | (f & dt' & Hin' & Hf & H)].
  - destruct (H fmt Hin) as [e He]. congruence.
  - assert (f = fmt) by (eapply formats_exclusive; eauto). subst f.
    congruence.
Qed.

Lemma strptime_month_first (c : ascii) (fmt : string)
  (dt : Datetime.datetime) :
  (c = "/"%char /\ fmt = "%m/%d/%Y") \/ (c = "-"%char /\ fmt = "%m-%d-%Y") ->
  Datetime.valid_date (Datetime.year dt) (Datetime.month dt)
    (Datetime.day dt) = true ->
  Datetime.strptime
    (string_of_list_ascii
       (Datetime.pad2 (Datetime.month dt)
        ++ c :: Datetime.pad2 (Datetime.day dt)
        ++ c :: Datetime.pad4 (Datetime.year dt)))
    fmt
  = Ret dt.
Proof.
  intros Hc Hv. destruct dt as [y m d].
  cbn [Datetime.year Datetime.month Datetime.day] in *.
  pose proof (valid_date_range _ _ _ Hv) as (Hy & Hm & Hd).
  unfold Datetime.strptime.
  destruct pattern_formats as (P1 & P2 & _ & _).
  assert (Hpat : Datetime.pattern (list_ascii_of_string fmt)
                 = Some (items_mdY c))
    by (destruct Hc as [[-> ->] | [-> ->]]; assumption).
  assert (Hc' : c = "/"%char \/ c = "-"%char)
    by (destruct Hc as [[-> _] | [-> _]]; auto).
  rewrite Hpat, list_ascii_of_string_of_list_ascii.
  unfold items_mdY.
  rewrite (group_m_step c _ _ m Hc' Hm), (group_d_step c _ _ d Hc' Hd).
  unfold Datetime.pad4 at 1.
  rewrite group_Y_step by apply is_digit_digit.
  cbn [Datetime.re_match Datetime.group Ascii.eqb Bool.eqb].
  fold (Datetime.pad4 y).
  rewrite int_of_pad4, !int_of_pad2 by lia. now rewrite Hv.
Qed.

Lemma re_match_lit (c : ascii) (items : list Datetime.item)
  (s : list ascii) :
  Datetime.re_match (Datetime.Lit c :: items) (c :: s)
  = Datetime.re_match items s.
Proof. cbn [Datetime.re_match]. now rewrite Ascii.eqb_refl. Qed.

Lemma strptime_year_first_slash (dt : Datetime.datetime) :
  Datetime.valid_date (Datetime.year dt) (Datetime.month dt)
    (Datetime.day dt) = true ->
  Datetime.strptime
    (string_of_list_ascii
       (Datetime.pad4 (Datetime.year dt)
        ++ "/"%char :: Datetime.pad2 (Datetime.month dt)
        ++ "/"%char :: Datetime.pad2 (Datetime.day dt)))
    "%Y/%m/%d"
  = Ret dt.
Proof.
  intros Hv. destruct dt as [y m d].
  cbn [Datetime.year Datetime.month Datetime.day] in *.
  pose proof (valid_date_range _ _ _ Hv) as (Hy & Hm & Hd).
  unfold Datetime.strptime.
  destruct pattern_formats as (_ & _ & _ & ->).
  rewrite list_ascii_of_string_of_list_ascii.
  unfold items_Ymd, Datetime.pad4. cbn [app].
  rewrite group_Y_step by apply is_digit_digit.
  rewrite re_match_lit.
  rewrite (group_m_step "/" _ _ m (or_introl eq_refl) Hm).
  rewrite (group_d_last d Hd).
  cbn [Datetime.group Ascii.eqb Bool.eqb].
  fold (Datetime.pad4 y).
  rewrite int_of_pad4, !int_of_pad2 by lia. now rewrite Hv.
Qed.

(** X4.  Every calendar date is converted: written with two-digit month
    and day and four-digit year as month/day/year, as month-day-year or as
    year/month/day, it is normalized to the same date written
    year-month-day. *)
Theorem normalize_date_converts (dt : Datetime.datetime) :
  Datetime.valid_date (Datetime.year dt) (Datetime.month dt)
    (Datetime.day dt) = true ->
  let iso := Datetime.strftime normalize_century dt "%Y-%m-%d" in
  let mm := Datetime.pad2 (Datetime.month dt) in
  let dd := Datetime.pad2 (Datetime.day dt) in
  let yyyy := Datetime.pad4 (Datetime.year dt) in
  _normalize_date
    (Some (string_of_list_ascii (mm ++ "/"%char :: dd ++ "/"%char :: yyyy)))
  = Ret (Some iso)
  /\ _normalize_date
       (Some (string_of_list_ascii (mm ++ "-"%char :: dd ++ "-"%char :: yyyy)))
     = Ret (Some iso)
  /\ _normalize_date
       (Some (string_of_list_ascii (yyyy ++ "/"%char :: mm ++ "/"%char :: dd)))
     = Ret (Some iso).
Proof.
  intros Hv iso mm dd yyyy. subst iso mm dd yyyy. repeat split.
  - apply (normalize_accepted _ "%m/%d/%Y"); [simpl; tauto|].
    apply strptime_month_first; auto.
  - apply (normalize_accepted _ "%m-%d-%Y"); [simpl; tauto|].
    apply strptime_month_first; auto.
  - apply (normalize_accepted _ "%Y/%m/%d"); [simpl; tauto|].
    now apply strptime_year_first_slash.
Qed.


Lemma strftime_nonempty (dt : Datetime.datetime) :
  Datetime.strftime normalize_century dt "%Y-%m-%d" <> EmptyString.
Proof.
  rewrite strftime_Ymd.
  destruct (Datetime.year_text normalize_century (Datetime.year dt))
    as [|c l] eqn:Hy; [|discriminate].
  exfalso. revert Hy. unfold Datetime.year_text.
  repeat match goal with |- context [if ?b then _ else _] =>
    destruct b end; discriminate.
Qed.

Lemma normalize_date_outcome (s : string) :
  s <> EmptyString ->
  exists t,
    _normalize_date (Some s) = Ret (Some t) /\ t <> EmptyString
    /\ (t = s
        \/ exists fmt dt,
             In fmt formats /\ Datetime.strptime s fmt = Ret dt
             /\ Datetime.valid_date (Datetime.year dt) (Datetime.month dt)
                  (Datetime.day dt) = true
             /\ t = Datetime.strftime normalize_century dt "%Y-%m-%d").
Proof.
  intros Hs. rewrite (normalize_date_nonempty _ Hs).
  destruct (try_formats_outcome s formats)
    as [[H _] | (f & dt & Hin & Hf & H)]; rewrite H.
  - exists s. auto.
  - eexists. split; [reflexivity|]. split; [apply strftime_nonempty|].
    right. exists f, dt. repeat split; auto.
    eapply strptime_valid; eauto.
Qed.

(** X5.  For a text that is not empty the normalizer returns a text that
    is not empty: either the text itself, or a calendar date (month 1 to
    12, day within the month, leap years counted) that one of the four
    formats reads from the text, written year-month-day. *)
Theorem normalize_date_result (s : string) :
  s <> EmptyString ->
  exists t,
    _normalize_date (Some s) = Ret (Some t) /\ t <> EmptyString
    /\ (t = s
        \/ exists fmt dt,
             In fmt formats /\ Datetime.strptime s fmt = Ret dt
             /\ Datetime.valid_date (Datetime.year dt) (Datetime.month dt)
                  (Datetime.day dt) = true
             /\ t = Datetime.strftime normalize_century dt "%Y-%m-%d").
Proof. apply normalize_date_outcome. Qed.

(** ** Lists built row by row *)

Lemma for_each_Ret {A B : Type} (f : A -> res (list B)) (xs : list A)
  (zs : list B) :
  for_each f xs = Ret zs ->
  exists yss,
    Forall2 (fun x ys => f x = Ret ys) xs yss /\ zs = concat yss.
Proof.
  revert zs; induction xs as [|x xs IH]; intros zs; simpl.
  - intros H; inversion H; subst. exists []. split; [constructor | reflexivity].
  - destruct (f x) as [ys|] eqn:Hx; [|discriminate]. cbn [bind].
    destruct (for_each f xs) as [zs'|]; [|discriminate]. cbn [bind].
    intros H; inversion H; subst.
    destruct (IH zs' eq_refl) as (yss & HF & ->).
    exists (ys :: yss). split; [now constructor | reflexivity].
Qed.

Lemma concat_Forall {A B : Type} (R : A -> list B -> Prop) (P : B -> Prop)
  (xs : list A) (yss : list (list B)) :
  Forall2 R xs yss ->
  (forall x ys, In x xs -> R x ys -> Forall P ys) ->
  Forall P (concat yss).
Proof.
  induction 1 as [|x ys xs yss HR HF IH]; intros H; simpl; [constructor|].
  apply Forall_app. split.
  - apply (H x); [now left | exact HR].
  - apply IH. intros x' ys' Hin. apply H. now right.
Qed.

Lemma concat_length_le {A B : Type} (R : A -> list B -> Prop)
  (xs : list A) (yss : list (list B)) :
  Forall2 R xs yss ->
  (forall x ys, R x ys -> List.length ys <= 1) ->
  List.length (concat yss) <= List.length xs.
Proof.
  induction 1 as [|x ys xs yss HR HF IH]; intros H; simpl; [lia|].
  rewrite length_app. pose proof (H x ys HR). pose proof (IH H). lia.
Qed.


(** ** What every summary satisfies *)

Lemma extract_count_at_least_two (case_style : string) (n : Z) :
  _extract_count case_style = Some n -> (2 <= n)%Z.
Proof.
  unfold _extract_count.
  destruct (_ || _); [discriminate|].
  repeat match goal with
    | |- context [PyStr.contains ?sep case_style] =>
        let H := fresh "H" in
        destruct (PyStr.contains sep case_style) eqn:H;
        [ apply contains_iff in H;
          apply split_at_least_two in H; [|discriminate];
          intros E; inversion E; subst; lia
        | ]
    end.
  discriminate.
Qed.

Lemma datatable_row_Some (row : node) (case : Case.t) :
  _extract_case_from_datatable_row row = Ret (Some case) ->
  Case.case_number case <> EmptyString
  /\ Case.metadata case
     = Some {| CaseMetadata.fixture_available := false;
               CaseMetadata.fixture_path := None |}
  /\ Case.filing_date case <> None /\ Case.case_type case <> None
  /\ Case.status case <> None
  /\ (forall n, Case.parties case = Some n -> (2 <= n)%Z).
Proof.
  destruct (find_all "td" any row)
    as [|c0 [|c1 [|c2 [|c3 [|c4 [|c5 more]]]]]] eqn:Hc;
    try (rewrite datatable_row_short by (rewrite Hc; simpl; lia);
         discriminate).
  rewrite (datatable_row_cells _ _ _ _ _ _ _ _ Hc).
  destruct (get_text "" true c1) as [|a s] eqn:H1; [discriminate|].
  cbn [PyStr.truthy]. intros E; inversion E; subst; clear E. cbn.
  repeat split; try discriminate.
  intros n. apply extract_count_at_least_two.
Qed.

Lemma collect_cases_Forall (extract : node -> res (option Case.t))
  (P : Case.t -> Prop) (rows : list node) :
  (forall row case, extract row = Ret (Some case) -> P case) ->
  Forall P (collect_cases extract rows).
Proof.
  intros H. induction rows as [|row rows IH]; simpl; [constructor|].
  destruct (extract row) as [[case|]|e] eqn:Hr; auto.
  constructor; eauto.
Qed.

Lemma collect_cases_length (extract : node -> res (option Case.t))
  (rows : list node) :
  List.length (collect_cases extract rows) <= List.length rows.
Proof.
  induction rows as [|row rows IH]; simpl; [lia|].
  destruct (extract row) as [[case|]|e]; simpl; lia.
Qed.

Lemma parse_search_results_Forall (soup : node) (cases : list Case.t) :
  parse_search_results soup = Ret cases ->
  Forall
    (fun case =>
       Case.case_number case <> EmptyString
       /\ Case.metadata case
          = Some {| CaseMetadata.fixture_available := false;
                    CaseMetadata.fixture_path := None |}
       /\ Case.filing_date case <> None /\ Case.case_type case <> None
       /\ Case.status case <> None
       /\ (forall n, Case.parties case = Some n -> (2 <= n)%Z))
    cases.
Proof.
  unfold parse_search_results.
  destruct (results_table soup) as [table|];
    [|intros H; inversion H; constructor].
  destruct (find "tbody" any table) as [tbody|];
    [|intros H; inversion H; constructor].
  intros H; inversion H; subst.
  apply collect_cases_Forall. apply datatable_row_Some.
Qed.

(** X6.  Every summary the search-result extractor returns has a case
    number that is not empty, a filing date, a case type and a status (a
    text, possibly empty, never [None]), the fixture flag off with no
    path, and a party count that is absent or at least 2. *)
Theorem search_results_invariant (soup : node) (cases : list Case.t) :
  parse_search_results soup = Ret cases ->
  Forall
    (fun case =>
       Case.case_number case <> EmptyString
       /\ Case.metadata case
          = Some {| CaseMetadata.fixture_available := false;
                    CaseMetadata.fixture_path := None |}
       /\ Case.filing_date case <> None /\ Case.case_type case <> None
       /\ Case.status case <> None
       /\ (forall n, Case.parties case = Some n -> (2 <= n)%Z))
    cases.
Proof. apply parse_search_results_Forall. Qed.


(** ** Parties, attorneys, hearings and events *)

Lemma of_value_value (r : PartyRole.t) :
  PartyRole.of_value (PartyRole.value r) = Some r.
Proof. destruct r; reflexivity. Qed.

Lemma party_of_row_Ret (row : node) (ps : list Party.t) :
  party_of_row row = Ret ps ->
  ps = []
  \/ exists c0 c1 c2 c3 more r,
       find_all "td" any row = c0 :: c1 :: c2 :: c3 :: more
       /\ PartyRole.value r = get_text "" true c0
       /\ ps = [ {| Party.first_name := get_text "" true c1;
                    Party.middle_name := get_text "" true c2;
                    Party.last_name := get_text "" true c3;
                    Party.role := r |} ].
Proof.
  destruct (find_all "td" any row) as [|c0 [|c1 [|c2 [|c3 more]]]] eqn:Hc;
    try (unfold party_of_row; rewrite Hc; cbn; intros H; inversion H;
         now left).
  rewrite (party_of_row_cells _ _ _ _ _ _ Hc).
  destruct (PyStr.truthy _); [|intros H; inversion H; now left].
  unfold Party.make.
  destruct (PartyRole.of_value (get_text "" true c0)) as [r|] eqn:Hr;
    [|discriminate].
  cbn [bind]. intros H; inversion H; subst. right.
  exists c0, c1, c2, c3, more, r. repeat split.
  symmetry. now apply of_value_Some.
Qed.

(** X7.  When the parties step returns, it returns at most one party per
    row of the parties table, and every party comes from a row with four
    cells or more: its role is the member of the enumeration whose value is
    the stripped text of cell 0, its names are the stripped texts of cells
    1, 2 and 3.  Reading a member back from its value gives the member. *)
Theorem extract_parties_result (soup : node) (parties : list Party.t) :
  _extract_parties soup = Ret parties ->
  List.length parties <= List.length (section_rows "parties" soup)
  /\ Forall
       (fun p =>
          exists row c0 c1 c2 c3 more,
            In row (section_rows "parties" soup)
            /\ find_all "td" any row = c0 :: c1 :: c2 :: c3 :: more
            /\ PartyRole.value (Party.role p) = get_text "" true c0
            /\ Party.first_name p = get_text "" true c1
            /\ Party.middle_name p = get_text "" true c2
            /\ Party.last_name p = get_text "" true c3)
       parties
  /\ (forall r, PartyRole.of_value (PartyRole.value r) = Some r).
Proof.
  unfold _extract_parties. intros H. apply for_each_Ret in H.
  destruct H as (yss & HF & ->). split; [|split; [|apply of_value_value]].
  - eapply concat_length_le; [exact HF|]. cbn beta.
    intros row ps Hrow. apply party_of_row_Ret in Hrow.
    destruct Hrow as [-> | (? & ? & ? & ? & ? & ? & _ & _ & ->)]; simpl; lia.
  - eapply concat_Forall; [exact HF|]. cbn beta.
    intros row ps Hin Hrow. apply party_of_row_Ret in Hrow.
    destruct Hrow as [-> | (c0 & c1 & c2 & c3 & more & r & Hc & Hr & ->)];
      [constructor|].
    constructor; [|constructor].
    exists row, c0, c1, c2, c3, more. cbn.
    repeat (split; [assumption || reflexivity|]). reflexivity.
Qed.

Lemma attorney_of_row_Ret (row : node) (l : list Attorney.t) :
  attorney_of_row row = Ret l ->
  Forall (fun a => Attorney.first_name a <> EmptyString
                   \/ Attorney.last_name a <> EmptyString) l.
Proof.
  unfold attorney_of_row.
  destruct (find_all "td" any row) as [|c0 [|c1 [|c2 [|c3 more]]]];
    cbn [List.length Nat.eqb Nat.leb item_at nth_error bind].
  - intros H; inversion H; constructor.
  - destruct (PyStr.contains _ _); intros H; inversion H; constructor.
  - intros H; inversion H; constructor.
  - intros H; inversion H; constructor.
  - destruct (get_text "" true c1) as [|a1 s1] eqn:H1;
      destruct (get_text "" true c3) as [|a3 s3] eqn:H3;
      cbn [PyStr.truthy orb Attorney.make bind];
      intros H; inversion H; subst;
      [ constructor
      | constructor; [cbn; right; discriminate | constructor]
      | constructor; [cbn; left; discriminate | constructor]
      | constructor; [cbn; left; discriminate | constructor] ].
Qed.

(** X8.  The attorneys step never raises; every attorney it returns has a
    first name or a last name that is not empty; and when the parties
    region holds fewer than two tables it returns no attorney. *)
Theorem extract_attorneys_result (soup : node) :
  (exists attorneys,
     _extract_attorneys soup = Ret attorneys
     /\ Forall (fun a => Attorney.first_name a <> EmptyString
                         \/ Attorney.last_name a <> EmptyString) attorneys)
  /\ (forall parties_tab,
        find "div" (attr_is "id" "parties") soup = Some parties_tab ->
        List.length (find_all "table" any parties_tab) < 2 ->
        _extract_attorneys soup = Ret []).
Proof.
  split.
  - destruct (extract_attorneys_total soup) as [l Hl]. exists l.
    split; [exact Hl|]. revert Hl. unfold _extract_attorneys.
    destruct (find "div" _ soup) as [tab|];
      [|intros H; inversion H; constructor].
    destruct (find_all "table" any tab) as [|t0 [|t1 tables]];
      cbn [List.length Nat.leb item_at nth_error bind];
      try (intros H; inversion H; constructor).
    destruct (find "tbody" any t1);
      [|intros H; inversion H; constructor].
    intros H. apply for_each_Ret in H. destruct H as (yss & HF & ->).
    eapply concat_Forall; [exact HF|]. cbn beta.
    intros row l' _. apply attorney_of_row_Ret.
  - intros tab Htab Hlen. unfold _extract_attorneys. rewrite Htab.
    destruct (find_all "table" any tab) as [|t0 [|t1 tables]];
      [reflexivity | reflexivity | simpl in Hlen; lia].
Qed.


Lemma hearing_of_row_Ret (row : node) (hs : list Hearing.t) :
  hearing_of_row row = Ret hs ->
  List.length hs <= 1
  /\ Forall
       (fun h =>
          Hearing.judge h = None
          /\ Hearing.date h <> Some EmptyString
          /\ (exists t, Hearing.type h = Some t
                        /\ (Hearing.date h = None -> t <> EmptyString))
          /\ Hearing.department h <> None /\ Hearing.result h <> None)
       hs.
Proof.
  destruct (find_all "td" any row)
    as [|c0 [|c1 [|c2 [|c3 [|c4 [|c5 more]]]]]] eqn:Hc;
    try (unfold hearing_of_row; rewrite Hc; cbn [List.length Nat.leb];
         intros H; inversion H; split; [simpl; lia | constructor]).
  rewrite (hearing_of_row_cells _ _ _ _ _ _ _ _ Hc).
  destruct (get_text "" true c2) as [|a s] eqn:H2.
  - destruct (get_text "" true c1) as [|b t] eqn:H1;
      cbn [PyStr.truthy orb]; [intros H; inversion H; split;
                                [simpl; lia | constructor]|].
    change (_normalize_date (Some EmptyString)) with (@Ret (option string) None).
    cbn [bind]. intros H; inversion H; subst. (split; [simpl; lia|]).
    repeat constructor; cbn [Hearing.judge Hearing.date Hearing.type
      Hearing.department Hearing.result]; try discriminate.
    exists (String b t). split; [reflexivity | discriminate].
  - cbn [PyStr.truthy orb].
    destruct (normalize_date_outcome (String a s)) as (d & -> & Hd & _);
      [discriminate|].
    cbn [bind]. intros H; inversion H; subst. (split; [simpl; lia|]).
    repeat constructor; cbn [Hearing.judge Hearing.date Hearing.type
      Hearing.department Hearing.result]; try discriminate.
    + congruence.
    + eexists. split; [reflexivity | discriminate].
Qed.

(** X9.  The hearings step never raises.  It returns at most one hearing
    per row of the hearings table; every hearing has no judge, has a type,
    a department and a result (a text, never [None]), has a date that is
    [None] or a text that is not empty, and has a type that is not empty
    when the date is [None]. *)
Theorem extract_hearings_result (soup : node) :
  exists hearings,
    _extract_hearings soup = Ret hearings
    /\ List.length hearings <= List.length (section_rows "hearings" soup)
    /\ Forall
         (fun h =>
            Hearing.judge h = None
            /\ Hearing.date h <> Some EmptyString
            /\ (exists t, Hearing.type h = Some t
                          /\ (Hearing.date h = None -> t <> EmptyString))
            /\ Hearing.department h <> None /\ Hearing.result h <> None)
         hearings.
Proof.
  destruct (extract_hearings_total soup) as [hs Hs]. exists hs.
  split; [exact Hs|]. unfold _extract_hearings in Hs.
  apply for_each_Ret in Hs. destruct Hs as (yss & HF & ->). split.
  - eapply concat_length_le; [exact HF|]. cbn beta.
    intros row l Hrow. now apply hearing_of_row_Ret in Hrow.
  - eapply concat_Forall; [exact HF|]. cbn beta.
    intros row l _ Hrow. now apply hearing_of_row_Ret in Hrow.
Qed.

Lemma event_of_row_Ret (row : node) (es : list Event.t) :
  event_of_row row = Ret es ->
  List.length es <= 1
  /\ Forall
       (fun e =>
          Event.file_date e <> EmptyString
          /\ Event.filed_by e <> Some EmptyString
          /\ Event.comment e <> Some EmptyString)
       es.
Proof.
  assert (Hor : forall s, or_None s <> Some EmptyString)
    by (intros [|a s]; discriminate).
  destruct (find_all "td" any row)
    as [|c0 [|c1 [|c2 [|c3 [|c4 more]]]]] eqn:Hc;
    try (unfold event_of_row; rewrite Hc; cbn [List.length Nat.leb];
         intros H; inversion H; split; [simpl; lia | constructor]).
  destruct (get_text "" true c0) as [|a s] eqn:H0.
  - destruct (get_text "" true c1) as [|b t] eqn:H1.
    + rewrite (event_of_row_empty _ _ _ _ _ _ _ Hc H0 H1).
      intros H; inversion H. split; [simpl; lia | constructor].
    + rewrite (event_of_row_undated _ _ _ _ _ _ _ Hc H0); [discriminate|].
      rewrite H1. discriminate.
  - destruct (event_of_row_dated _ _ _ _ _ _ _ Hc) as (d & Hd & ->);
      [rewrite H0; discriminate|].
    rewrite H0 in Hd.
    destruct (normalize_date_outcome (String a s)) as (d' & Hd' & Hne & _);
      [discriminate|].
    assert (d' = d) by congruence. subst d'.
    intros H; inversion H; subst. split; [simpl; lia|].
    repeat constructor; cbn [Event.file_date Event.filed_by Event.comment];
      auto.
Qed.

Lemma event_of_row_Raise (row : node) (e : exn) :
  event_of_row row = Raise e ->
  e = ValidationError "Event" "file_date"
  /\ exists c0 c1 more,
       find_all "td" any row = c0 :: c1 :: more
       /\ get_text "" true c0 = EmptyString
       /\ get_text "" true c1 <> EmptyString.
Proof.
  destruct (find_all "td" any row)
    as [|c0 [|c1 [|c2 [|c3 [|c4 more]]]]] eqn:Hc;
    try (unfold event_of_row; rewrite Hc; cbn [List.length Nat.leb];
         discriminate).
  destruct (get_text "" true c0) as [|a s] eqn:H0.
  - destruct (get_text "" true c1) as [|b t] eqn:H1.
    + rewrite (event_of_row_empty _ _ _ _ _ _ _ Hc H0 H1). discriminate.
    + rewrite (event_of_row_undated _ _ _ _ _ _ _ Hc H0);
        [|rewrite H1; discriminate].
      intros H; inversion H; subst. split; [reflexivity|].
      exists c0, c1, (c2 :: c3 :: c4 :: more).
      repeat split; auto. rewrite H1. discriminate.
  - destruct (event_of_row_dated _ _ _ _ _ _ _ Hc) as (d & _ & ->);
      [rewrite H0; discriminate|].
    discriminate.
Qed.

(** X10.  When the events step returns, it returns at most one event per
    row, and every event has a date that is not empty and a filer and a
    comment that are [None] or not empty.  When it raises, the exception is
    the refusal of [file_date], and the table has a row whose date cell is
    empty while its type cell is not. *)
Theorem extract_events_result (soup : node) :
  (forall events,
     _extract_events soup = Ret events ->
     List.length events <= List.length (section_rows "events" soup)
     /\ Forall
          (fun e =>
             Event.file_date e <> EmptyString
             /\ Event.filed_by e <> Some EmptyString
             /\ Event.comment e <> Some EmptyString)
          events)
  /\ (forall e,
        _extract_events soup = Raise e ->
        e = ValidationError "Event" "file_date"
        /\ exists row c0 c1 more,
             In row (section_rows "events" soup)
             /\ find_all "td" any row = c0 :: c1 :: more
             /\ get_text "" true c0 = EmptyString
             /\ get_text "" true c1 <> EmptyString).
Proof.
  unfold _extract_events. split.
  - intros es Hs. apply for_each_Ret in Hs.
    destruct Hs as (yss & HF & ->). split.
    + eapply concat_length_le; [exact HF|]. cbn beta.
      intros row l Hrow. now apply event_of_row_Ret in Hrow.
    + eapply concat_Forall; [exact HF|]. cbn beta.
      intros row l _ Hrow. now apply event_of_row_Ret in Hrow.
  - intros e He. apply for_each_raise_inv in He.
    destruct He as (row & Hin & Hrow). apply event_of_row_Raise in Hrow.
    destruct Hrow as (-> & c0 & c1 & more & Hc & H0 & H1).
    split; [reflexivity|]. exists row, c0, c1, more. auto.
Qed.


(** ** The detail record *)

Lemma case_detail_body_number (soup : node) (case_number : option string)
  (d : CaseDetail.t) :
  case_detail_body soup case_number = Ret d ->
  chosen_case_number soup case_number = Some (CaseDetail.case_number d).
Proof.
  unfold case_detail_body, chosen_case_number.
  destruct (_extract_case_info_from_detail soup) as [info|]; [|discriminate].
  destruct (_extract_parties soup) as [ps|]; [|discriminate].
  destruct (_extract_attorneys soup) as [ats|]; [|discriminate].
  destruct (_extract_events soup) as [es|]; [|discriminate].
  destruct (_extract_hearings soup) as [hs|]; [|discriminate].
  cbn [bind]. unfold CaseDetail.make.
  destruct (CaseDetail.str_field "case_number" _) as [n|] eqn:Hn;
    [|discriminate].
  apply str_field_Ret in Hn. rewrite Hn.
  repeat match goal with
    | |- context [CaseDetail.str_field ?f ?v] =>
        destruct (CaseDetail.str_field f v); [|discriminate]
    end.
  cbn [bind]. intros H; inversion H; subst. reflexivity.
Qed.

Lemma parse_case_detail_Some (soup : node) (case_number : option string)
  (d : CaseDetail.t) :
  parse_case_detail soup case_number = Ret (Some d) ->
  case_detail_body soup case_number = Ret d.
Proof.
  intros H.
  destruct (parse_case_detail_cases soup case_number)
    as [(d' & Hb & Hp) | (e & _ & Hp)]; congruence.
Qed.

(** X11.  The case number of a returned record is the caller's case number
    whenever that one is given and not empty, whatever the heading of the
    document says; only without it is it the stripped text of the
    heading. *)
Theorem detail_case_number (soup : node) (case_number : option string)
  (d : CaseDetail.t) :
  parse_case_detail soup case_number = Ret (Some d) ->
  (forall n, case_number = Some n -> n <> EmptyString ->
             CaseDetail.case_number d = n)
  /\ (case_number = None \/ case_number = Some EmptyString ->
      exists heading,
        find "h1" (attr_is "id" "caseNumber") soup = Some heading
        /\ CaseDetail.case_number d = get_text "" true heading).
Proof.
  intros H. apply parse_case_detail_Some, case_detail_body_number in H.
  unfold chosen_case_number in H. split.
  - intros n -> Hn. destruct n; [congruence|]. cbn in H. congruence.
  - intros Hc.
    assert (Hh : _extract_case_number_from_header soup
                 = Some (CaseDetail.case_number d))
      by (destruct Hc as [-> | ->]; exact H).
    unfold _extract_case_number_from_header in Hh.
    destruct (find "h1" _ soup) as [heading|]; [|discriminate].
    exists heading. split; [reflexivity | congruence].
Qed.



(** ** Pages *)

Lemma firstn_part {A : Type} (n : nat) (xs : list A) (x : A) :
  In x (firstn n xs) -> In x xs.
Proof.
  revert xs; induction n as [|n IH]; intros [|y xs]; simpl; try tauto.
  intros [-> | H]; auto.
Qed.

Lemma skipn_part {A : Type} (n : nat) (xs : list A) (x : A) :
  In x (skipn n xs) -> In x xs.
Proof.
  revert xs; induction n as [|n IH]; intros [|y xs]; simpl; auto.
Qed.

Lemma slice_In {A : Type} (xs : list A) (start stop : Z) (x : A) :
  In x (slice xs start stop) -> In x xs.
Proof.
  unfold slice. intros H. apply firstn_part in H.
  now apply skipn_part in H.
Qed.

Lemma slice_Forall {A : Type} (P : A -> Prop) (xs : list A)
  (start stop : Z) :
  Forall P xs -> Forall P (slice xs start stop).
Proof.
  rewrite !Forall_forall. intros H x Hx. apply H.
  eapply slice_In; eauto.
Qed.

(** The slice of a page with a page number and a page size from 1 on. *)
Lemma slice_page {A : Type} (xs : list A) (page page_size : Z) :
  (1 <= page)%Z -> (1 <= page_size)%Z ->
  slice xs ((page - 1) * page_size) ((page - 1) * page_size + page_size)
  = firstn (Z.to_nat page_size)
      (skipn (Z.to_nat ((page - 1) * page_size)) xs).
Proof.
  intros Hp Hs. unfold slice, slice_bound.
  set (len := Z.of_nat (List.length xs)).
  set (start := ((page - 1) * page_size)%Z).
  assert (Hstart : (0 <= start)%Z) by (subst start; nia).
  destruct (start <? 0)%Z eqn:E1; [apply Z.ltb_lt in E1; lia|].
  destruct (start + page_size <? 0)%Z eqn:E2; [apply Z.ltb_lt in E2; lia|].
  destruct (Z.le_gt_cases start len) as [Hle | Hgt].
  - rewrite (Z.min_l start len) by lia.
    destruct (Z.le_gt_cases (start + page_size) len) as [Hle2 | Hgt2].
    + rewrite Z.min_l by lia. f_equal. lia.
    + rewrite Z.min_r by lia.
      rewrite !firstn_all2; [reflexivity| |];
        rewrite length_skipn; subst len; lia.
  - rewrite !Z.min_r by lia. rewrite Z.sub_diag. simpl.
    rewrite skipn_all2 by (subst len; lia). now rewrite firstn_nil.
Qed.

(** Page 0 is empty for every page size from 1 on. *)
Lemma slice_page_zero {A : Type} (xs : list A) (page_size : Z) :
  (1 <= page_size)%Z ->
  slice xs ((0 - 1) * page_size) ((0 - 1) * page_size + page_size) = [].
Proof.
  intros Hs. unfold slice, slice_bound.
  replace ((0 - 1) * page_size + page_size)%Z with 0%Z by lia.
  replace ((0 - 1) * page_size)%Z with (- page_size)%Z by lia.
  destruct (- page_size <? 0)%Z eqn:E; [|apply Z.ltb_ge in E; lia].
  cbn [Z.ltb Z.compare].
  replace (Z.to_nat _) with 0; [reflexivity|]. lia.
Qed.

(** The blocks of [n] elements of a list, put one after the other, give
    the list back. *)
Lemma blocks_concat {A : Type} (n : nat) (xs : list A) (k : nat) :
  0 < n -> List.length xs <= k * n ->
  concat (map (fun i => firstn n (skipn (i * n) xs)) (seq 0 k)) = xs.
Proof.
  intros Hn. revert xs. induction k as [|k IH]; intros xs Hlen.
  - destruct xs; [reflexivity | simpl in Hlen; lia].
  - cbn [seq map concat]. rewrite <- seq_shift, map_map.
    transitivity (firstn n xs ++ skipn n xs); [|apply firstn_skipn].
    f_equal. transitivity
      (concat (map (fun i => firstn n (skipn (i * n) (skipn n xs)))
                 (seq 0 k))).
    + f_equal. apply map_ext. intros i.
      rewrite skipn_skipn. do 2 f_equal. lia.
    + apply IH. rewrite length_skipn. lia.
Qed.

(** [(len + size - 1) // size] is the number of blocks. *)
Lemma ceil_div (len size : Z) :
  (0 <= len)%Z -> (1 <= size)%Z ->
  let pages := ((len + size - 1) / size)%Z in
  (0 <= pages /\ len <= pages * size /\ (pages - 1) * size < len)%Z.
Proof.
  intros Hl Hs pages. subst pages.
  pose proof (Z.div_mod (len + size - 1) size ltac:(lia)).
  pose proof (Z.mod_pos_bound (len + size - 1) size ltac:(lia)).
  assert (0 <= (len + size - 1) / size)%Z by (apply Z.div_pos; lia).
  nia.
Qed.


(** ** The search service *)

Lemma slice_nil {A : Type} (start stop : Z) : slice (@nil A) start stop = [].
Proof. unfold slice. rewrite skipn_nil. apply firstn_nil. Qed.

(** X13.  Pages of a search.  When [_search_fixtures] returns for some
    page with a page size from 1 on, it returns for every page from 1 on
    with that size, always with the same query, total and number of pages;
    there is one list of all cases, as long as the total says, of which
    page [p] holds the [p]-th block of [page_size] cases; the number of
    pages is the least that covers the list, and the pages from 1 to that
    number, one after the other, are that list. *)
Theorem search_pages (w : world) (first_name last_name : string)
  (page0 page_size : Z) (r0 : SearchResponse.t) :
  (1 <= page_size)%Z ->
  _search_fixtures w first_name last_name page0 page_size = Returned r0 ->
  exists all : list Case.t,
    let size := Z.to_nat page_size in
    let pages := SearchResponse.total_pages r0 in
    SearchResponse.total_results r0 = Z.of_nat (List.length all)
    /\ (forall page, (1 <= page)%Z ->
          exists r,
            _search_fixtures w first_name last_name page page_size
            = Returned r
            /\ SearchResponse.cases r
               = firstn size (skipn (Z.to_nat (page - 1) * size) all)
            /\ SearchResponse.current_page r = page
            /\ SearchResponse.query r = SearchResponse.query r0
            /\ SearchResponse.total_results r
               = SearchResponse.total_results r0
            /\ SearchResponse.total_pages r = pages)
    /\ (0 <= pages /\ Z.of_nat (List.length all) <= pages * page_size
        /\ (pages - 1) * page_size < Z.of_nat (List.length all))%Z
    /\ concat (map (fun i => firstn size (skipn (i * size) all))
                 (seq 0 (Z.to_nat pages)))
       = all.
Proof.
  intros Hps. unfold _search_fixtures.
  destruct (fixture w _) as [|msg|msg|html];
    cbn [exists_ negb read_text and_then];
    [|discriminate|discriminate|].
  2:{ cbn [and_then].
    destruct (parse_search_results_html w html) as [cases|]; [|discriminate].
    cbn [and_then].
    destruct (enrich_all w cases) as [all|]; [|discriminate].
    cbn [and_then].
    destruct (SearchRequest.make first_name last_name) as [q|];
      [|discriminate].
    cbn [lift and_then]. unfold floordiv.
    destruct (page_size =? 0)%Z eqn:E; [apply Z.eqb_eq in E; lia|].
    cbn [lift and_then SourceMetadata.make SearchResponse.make].
    intros H; inversion H; subst; clear H. exists all.
    cbn [SearchResponse.total_results SearchResponse.total_pages
         SearchResponse.cases SearchResponse.query
         SearchResponse.current_page].
    pose proof (ceil_div (Z.of_nat (List.length all)) page_size
                  ltac:(lia) Hps) as Hceil. cbv zeta in Hceil.
    split; [reflexivity|]. split; [|split; [exact Hceil|]].
    + intros page Hpage. eexists. split; [reflexivity|].
      cbn [SearchResponse.total_results SearchResponse.total_pages
           SearchResponse.cases SearchResponse.query
           SearchResponse.current_page].
      rewrite slice_page by lia.
      repeat split. do 2 f_equal. nia.
    + apply blocks_concat; [lia|]. nia. }
  destruct (SearchRequest.make first_name last_name) as [q|];
      [|discriminate].
    cbn [lift and_then SourceMetadata.make SearchResponse.make].
    intros H; inversion H; subst; clear H. exists [].
    cbn [SearchResponse.total_results SearchResponse.total_pages
         SearchResponse.cases SearchResponse.query
         SearchResponse.current_page List.length].
    split; [reflexivity|]. split; [|split; [lia | reflexivity]].
    intros page Hpage. eexists. split; [reflexivity|].
    cbn [SearchResponse.total_results SearchResponse.total_pages
         SearchResponse.cases SearchResponse.query
         SearchResponse.current_page].
    rewrite skipn_nil, firstn_nil. repeat split.
Qed.


Lemma search_file_name_eq (first_name last_name : string) :
  ((PyStr.lower first_name ++ "_" ++ PyStr.lower last_name)
   ++ "_search.html")%string
  = search_file_name first_name last_name.
Proof. reflexivity. Qed.

(** The list of all cases behind the responses of [_search_fixtures];
    [listed] is what [exists()] of the listing file returned. *)
Lemma search_fixtures_all (w : world) (first_name last_name : string)
  (page page_size : Z) (r : SearchResponse.t) :
  _search_fixtures w first_name last_name page page_size = Returned r ->
  exists (all : list Case.t) (q : SearchRequest.t) (listed : bool),
    SearchRequest.make first_name last_name = Ret q
    /\ exists_ (fixture w (search_file_name first_name last_name))
       = Returned listed
    /\ (listed = false -> all = [])
    /\ (page_size <> 0%Z \/ listed = false)
    /\ forall page' size',
         (size' <> 0%Z \/ listed = false) ->
         exists r',
           _search_fixtures w first_name last_name page' size' = Returned r'
           /\ SearchResponse.cases r'
              = slice all ((page' - 1) * size') ((page' - 1) * size' + size')
           /\ SearchResponse.total_results r' = Z.of_nat (List.length all)
           /\ SearchResponse.current_page r' = page'
           /\ SearchResponse.query r' = q
           /\ SearchResponse.total_pages r'
              = if listed
                then ((Z.of_nat (List.length all) + size' - 1) / size')%Z
                else 0%Z.
Proof.
  unfold _search_fixtures. rewrite search_file_name_eq.
  destruct (fixture w _) as [|msg|msg|html];
    cbn [exists_ negb read_text and_then];
    [|discriminate|discriminate|].
  - destruct (SearchRequest.make first_name last_name) as [q|];
      [|discriminate].
    cbn [lift and_then SourceMetadata.make SearchResponse.make]. intros _.
    exists [], q, false. repeat split; auto.
    intros page' size' _. eexists. split; [reflexivity|].
    cbn [SearchResponse.total_results SearchResponse.cases
         SearchResponse.query SearchResponse.current_page
         SearchResponse.total_pages].
    rewrite slice_nil. repeat split.
  - destruct (parse_search_results_html w html) as [cases|]; [|discriminate].
    cbn [and_then].
    destruct (enrich_all w cases) as [all|]; [|discriminate].
    cbn [and_then].
    destruct (SearchRequest.make first_name last_name) as [q|];
      [|discriminate].
    cbn [lift and_then]. unfold floordiv.
    destruct (page_size =? 0)%Z eqn:E; [discriminate|].
    apply Z.eqb_neq in E. intros _.
    exists all, q, true. repeat split; auto; try discriminate.
    intros page' size' [Hs | Hs]; [|discriminate].
    apply Z.eqb_neq in Hs. rewrite Hs.
    cbn [lift and_then SourceMetadata.make SearchResponse.make].
    eexists. split; [reflexivity|]. repeat split.
Qed.

Lemma lift_no_http {A : Type} (m : res A) (e : error) :
  lift m = Raised e -> is_http e = false.
Proof. destruct m; simpl; intros H; inversion H; reflexivity. Qed.

Lemma case_file_name_eq (case_number : string) :
  ("case_" ++ case_number ++ ".html")%string = case_file_name case_number.
Proof. reflexivity. Qed.

(** [exists()] raises nothing but an [OSError]. *)
Lemma exists_Raised (f : file) (e : error) :
  exists_ f = Raised e -> exists msg, e = OSError msg.
Proof. destruct f; simpl; intros H; inversion H; eauto. Qed.

(** The loop over the cases returns when [exists()] returns for the
    detail file of every case. *)
Lemma enrich_all_total (w : world) (cases : list Case.t) :
  (forall c, In c cases ->
     exists present,
       exists_ (fixture w (case_file_name (Case.case_number c)))
       = Returned present) ->
  exists all, enrich_all w cases = Returned all.
Proof.
  induction cases as [|c cases IH]; intros H; simpl; [eauto|].
  destruct (H c (or_introl eq_refl)) as [present Hc].
  destruct IH as [all IH]; [intros c' Hc'; apply H; now right|].
  unfold enrich. rewrite case_file_name_eq, Hc. cbn [and_then].
  destruct present; cbn; rewrite IH; cbn; eauto.
Qed.

(** It raises at the first case for whose detail file [exists()]
    raises. *)
Lemma enrich_all_first_raise (w : world) (before after : list Case.t)
  (c : Case.t) (e : error) :
  (forall c', In c' before ->
     exists present,
       exists_ (fixture w (case_file_name (Case.case_number c')))
       = Returned present) ->
  exists_ (fixture w (case_file_name (Case.case_number c))) = Raised e ->
  enrich_all w (before ++ c :: after) = Raised e.
Proof.
  intros Hb Hc. induction before as [|b before IH]; simpl.
  - unfold enrich. rewrite case_file_name_eq, Hc. reflexivity.
  - destruct (Hb b (or_introl eq_refl)) as [present Hp].
    rewrite IH by (intros c' Hc'; apply Hb; now right).
    unfold enrich. rewrite case_file_name_eq, Hp. cbn [and_then].
    destruct present; reflexivity.
Qed.

Lemma enrich_all_Raised (w : world) (cases : list Case.t) (e : error) :
  enrich_all w cases = Raised e ->
  exists c,
    In c cases
    /\ exists_ (fixture w (case_file_name (Case.case_number c))) = Raised e.
Proof.
  induction cases as [|c cases IH]; simpl; [discriminate|].
  unfold enrich. rewrite case_file_name_eq.
  destruct (exists_ (fixture w (case_file_name (Case.case_number c))))
    as [present|e'] eqn:Hc; cbn [and_then].
  - destruct (enrich_all w cases) as [all|e'] eqn:Hall.
    + destruct present; cbn; discriminate.
    + intros H. assert (e' = e) by (destruct present; cbn in H; congruence).
      subst e'. destruct (IH eq_refl) as (c' & Hin & Hc').
      exists c'. split; [now right | exact Hc'].
  - intros H. inversion H; subst. exists c. split; [now left | exact Hc].
Qed.

(** The service raises no [HTTPException]. *)
Lemma search_no_http (w : world) (first_name last_name : string)
  (page page_size : Z) (e : error) :
  search w first_name last_name page page_size = Raised e ->
  is_http e = false.
Proof.
  unfold search, _search_live, _search_fixtures.
  destruct (mode w); [|intros H; inversion H; reflexivity].
  destruct (fixture w _) as [|msg|msg|html];
    cbn [exists_ negb read_text and_then].
  - destruct (SearchRequest.make first_name last_name) as [q|];
      cbn; intros H; inversion H; reflexivity.
  - intros H; inversion H; reflexivity.
  - intros H; inversion H; reflexivity.
  - unfold parse_search_results_html, BeautifulSoup.
    destruct (soup_of w html) as [soup|msg];
      [|cbn; intros H; inversion H; reflexivity].
    cbn [and_then].
    destruct (parse_search_results soup) as [cases|];
      [|cbn; intros H; inversion H; reflexivity].
    cbn [lift and_then].
    destruct (enrich_all w cases) as [all|e'] eqn:Hall; cbn [and_then].
    + destruct (SearchRequest.make first_name last_name) as [q|];
        [|cbn; intros H; inversion H; reflexivity].
      cbn [lift and_then]. unfold floordiv.
      destruct (page_size =? 0)%Z; cbn; intros H; inversion H; reflexivity.
    + intros H; inversion H; subst.
      apply enrich_all_Raised in Hall. destruct Hall as (c & _ & Hc).
      apply exists_Raised in Hc. destruct Hc as [msg ->]. reflexivity.
Qed.

Lemma to_http_Returned (w : world) (prefix : string) {A : Type}
  (m : outcome A) (a : A) :
  to_http w prefix m = Returned a <-> m = Returned a.
Proof.
  clear normalize_century decode re_search.
  destruct m as [x|e]; simpl; [tauto|].
  destruct e; split; discriminate.
Qed.

Lemma to_http_Raised (w : world) (prefix : string) {A : Type}
  (m : outcome A) (e : error) :
  m = Raised e ->
  to_http w prefix m
  = Raised (if is_http e then e
            else HTTPException 500 (prefix ++ str_error w e)%string).
Proof. intros ->. destruct e; reflexivity. Qed.

(** The three ways [POST /api/search] ends. *)
Lemma search_cases_cases (w : world) (body : SearchRequest.t)
  (page page_size : Z) :
  let first_name := SearchRequest.first_name body in
  let last_name := SearchRequest.last_name body in
  (exists r c cs,
     search w first_name last_name page page_size = Returned r
     /\ SearchResponse.cases r = c :: cs
     /\ search_cases w body page page_size = Returned r)
  \/ (exists r,
        search w first_name last_name page page_size = Returned r
        /\ SearchResponse.cases r = []
        /\ search_cases w body page page_size
           = Raised (HTTPException 404
                       ("No cases found for " ++ first_name ++ " "
                        ++ last_name)%string))
  \/ (exists e,
        search w first_name last_name page page_size = Raised e
        /\ search_cases w body page page_size
           = Raised (HTTPException 500
                       ("An error occurred while processing your request: "
                        ++ str_error w e)%string)).
Proof.
  intros first_name last_name. unfold search_cases.
  fold first_name last_name.
  destruct (search w first_name last_name page page_size) as [r|e] eqn:Hs.
  - cbn [and_then]. destruct (SearchResponse.cases r) as [|c cs] eqn:Hc.
    + right. left. exists r. auto.
    + left. exists r, c, cs. auto.
  - right. right. exists e. split; [reflexivity|]. cbn [and_then].
    rewrite (to_http_Raised _ _ _ e eq_refl).
    now rewrite (search_no_http _ _ _ _ _ _ Hs).
Qed.


Lemma search_Returned (w : world) (first_name last_name : string)
  (page page_size : Z) (r : SearchResponse.t) :
  search w first_name last_name page page_size = Returned r ->
  mode w = true
  /\ _search_fixtures w first_name last_name page page_size = Returned r.
Proof.
  unfold search, _search_live. destruct (mode w); [auto | discriminate].
Qed.

Lemma search_cases_of_search (w : world) (body : SearchRequest.t)
  (page page_size : Z) (r : SearchResponse.t) :
  search w (SearchRequest.first_name body) (SearchRequest.last_name body)
    page page_size = Returned r ->
  search_cases w body page page_size
  = match SearchResponse.cases r with
    | [] =>
        Raised (HTTPException 404
                  ("No cases found for " ++ SearchRequest.first_name body
                   ++ " " ++ SearchRequest.last_name body)%string)
    | _ :: _ => Returned r
    end.
Proof.
  intros H. unfold search_cases. rewrite H. cbn [and_then].
  destruct (SearchResponse.cases r); reflexivity.
Qed.

Lemma search_cases_Returned (w : world) (body : SearchRequest.t)
  (page page_size : Z) (r : SearchResponse.t) :
  search_cases w body page page_size = Returned r ->
  search w (SearchRequest.first_name body) (SearchRequest.last_name body)
    page page_size = Returned r
  /\ SearchResponse.cases r <> [].
Proof.
  intros H.
  destruct (search_cases_cases w body page page_size)
    as [(r' & c & cs & Hs & Hc & Hr) | [(r' & _ & _ & Hr) | (e & _ & Hr)]];
    cbv zeta in *; try congruence.
  assert (r' = r) by congruence. subst r'. split; [exact Hs|]. congruence.
Qed.

(** X14.  Pages of [POST /api/search].  When the endpoint returns a
    response for some page with a page size from 1 on, then with that size
    it returns, for every page from 1 to the number of pages of that
    response, a response with at least one and at most [page_size] cases,
    and it answers 404 for page 0 and for every page behind the last. *)
Theorem search_cases_pages (w : world) (body : SearchRequest.t)
  (page0 page_size : Z) (r0 : SearchResponse.t) :
  (1 <= page_size)%Z ->
  search_cases w body page0 page_size = Returned r0 ->
  forall page,
    ((1 <= page <= SearchResponse.total_pages r0)%Z ->
     exists r,
       search_cases w body page page_size = Returned r
       /\ 1 <= List.length (SearchResponse.cases r) <= Z.to_nat page_size
       /\ SearchResponse.current_page r = page
       /\ SearchResponse.total_results r = SearchResponse.total_results r0)
    /\ (page = 0%Z \/ (SearchResponse.total_pages r0 < page)%Z ->
        search_cases w body page page_size
        = Raised (HTTPException 404
                    ("No cases found for " ++ SearchRequest.first_name body
                     ++ " " ++ SearchRequest.last_name body)%string)).
Proof.
  intros Hps H0 page. apply search_cases_Returned in H0.
  destruct H0 as [Hs0 Hne]. apply search_Returned in Hs0.
  destruct Hs0 as [Hmode Hf0].
  destruct (search_fixtures_all _ _ _ _ _ _ Hf0)
    as (all & q & listed & Hq & _ & Hmiss & _ & Hall).
  assert (Hsize : page_size <> 0%Z \/ listed = false) by (left; lia).
  destruct (Hall page0 page_size Hsize)
    as (r0' & Hr0 & Hc0 & Ht0 & _ & _ & Hp0).
  assert (r0' = r0) by congruence. subst r0'.
  destruct listed.
  2:{ exfalso. apply Hne. rewrite Hc0, (Hmiss eq_refl). apply slice_nil. }
  pose proof (ceil_div (Z.of_nat (List.length all)) page_size
                ltac:(lia) Hps) as Hceil. cbv zeta in Hceil.
  rewrite <- Hp0 in Hceil. destruct Hceil as (C0 & C1 & C2).
  destruct (Hall page page_size Hsize) as (r & Hr & Hc & Ht & Hcur & _ & _).
  assert (Hsearch : search w (SearchRequest.first_name body)
                      (SearchRequest.last_name body) page page_size
                    = Returned r)
    by (unfold search; rewrite Hmode; exact Hr).
  pose proof (search_cases_of_search _ _ _ _ _ Hsearch) as Hend.
  split.
  - intros Hpage. exists r. rewrite slice_page in Hc by lia.
    assert (Hlen : 1 <= List.length (SearchResponse.cases r)
                   <= Z.to_nat page_size).
    { rewrite Hc, length_firstn, length_skipn. nia. }
    destruct (SearchResponse.cases r); [simpl in Hlen; lia|].
    repeat split; try assumption; try lia; congruence.
  - intros Hpage. rewrite Hend.
    replace (SearchResponse.cases r) with (@nil Case.t); [reflexivity|].
    rewrite Hc. destruct Hpage as [-> | Hbig].
    + symmetry. now apply slice_page_zero.
    + rewrite slice_page by lia. rewrite skipn_all2 by nia.
      now rewrite firstn_nil.
Qed.


(** X15.  Page size 0.  With page size 0 the search endpoint never returns
    a response.  In fixture mode, when the listing file is read and its
    tree built: if [exists()] returns for the detail file of every case
    and the names are accepted, the division for the number of pages
    raises and the endpoint answers 500; if [exists()] raises for the
    detail file of a case, and returns for those of the cases before it,
    the endpoint answers 500 with that exception.  When [exists()] of the
    listing file returns [False] no division takes place and the endpoint
    answers 404; when it raises, the endpoint answers 500. *)
Theorem page_size_zero (w : world) (body : SearchRequest.t) (page : Z) :
  let first_name := SearchRequest.first_name body in
  let last_name := SearchRequest.last_name body in
  let listing := fixture w (search_file_name first_name last_name) in
  let answer_500 (e : error) :=
    Raised (A := SearchResponse.t)
      (HTTPException 500
         ("An error occurred while processing your request: "
          ++ str_error w e)%string) in
  (forall r, search_cases w body page 0 <> Returned r)
  /\ (forall html soup cases,
        mode w = true -> listing = Text html -> soup_of w html = inl soup ->
        parse_search_results soup = Ret cases ->
        (forall q,
           (forall c, In c cases ->
              exists present,
                exists_ (fixture w (case_file_name (Case.case_number c)))
                = Returned present) ->
           SearchRequest.make first_name last_name = Ret q ->
           search w first_name last_name page 0 = Raised ZeroDivisionError
           /\ search_cases w body page 0 = answer_500 ZeroDivisionError)
        /\ (forall before c after e,
              cases = before ++ c :: after ->
              (forall c', In c' before ->
                 exists present,
                   exists_ (fixture w (case_file_name
                                         (Case.case_number c')))
                   = Returned present) ->
              exists_ (fixture w (case_file_name (Case.case_number c)))
              = Raised e ->
              search_cases w body page 0 = answer_500 e))
  /\ (forall q,
        mode w = true -> exists_ listing = Returned false ->
        SearchRequest.make first_name last_name = Ret q ->
        search_cases w body page 0
        = Raised (HTTPException 404
                    ("No cases found for " ++ first_name ++ " "
                     ++ last_name)%string))
  /\ (forall e,
        mode w = true -> exists_ listing = Raised e ->
        search_cases w body page 0 = answer_500 e).
Proof.
  intros first_name last_name listing answer_500.
  assert (Hraise : forall e,
            search w first_name last_name page 0 = Raised e ->
            is_http e = false ->
            search_cases w body page 0 = answer_500 e).
  { intros e Hs He. unfold search_cases. fold first_name last_name.
    rewrite Hs. cbn [and_then].
    rewrite (to_http_Raised _ _ _ e eq_refl), He. reflexivity. }
  split; [|split; [|split]].
  - intros r H. apply search_cases_Returned in H. destruct H as [Hs Hne].
    apply search_Returned in Hs. destruct Hs as [_ Hf].
    destruct (search_fixtures_all _ _ _ _ _ _ Hf)
      as (all & q & listed & _ & _ & Hmiss & Hsize & Hall).
    destruct Hsize as [Hsize | Hex]; [congruence|].
    destruct (Hall page 0%Z (or_intror Hex)) as (r' & Hr & Hc & _).
    assert (r' = r) by congruence. subst r'.
    apply Hne. rewrite Hc, (Hmiss Hex). apply slice_nil.
  - intros html soup cases Hmode Hfix Hsoup Hparse.
    assert (Hs : search w first_name last_name page 0
                 = (enriched_cases <~ enrich_all w cases ;;
                    query <~ lift (SearchRequest.make first_name
                                     last_name) ;;
                    Raised ZeroDivisionError)).
    { unfold search. rewrite Hmode. unfold _search_fixtures.
      rewrite search_file_name_eq. fold listing. rewrite Hfix.
      cbn [exists_ negb read_text and_then].
      unfold parse_search_results_html, BeautifulSoup. rewrite Hsoup.
      cbn [and_then]. rewrite Hparse. cbn [lift and_then].
      destruct (enrich_all w cases); [|reflexivity]. cbn [and_then].
      destruct (SearchRequest.make first_name last_name); reflexivity. }
    split.
    + intros q Hall Hq. apply enrich_all_total in Hall.
      destruct Hall as [all Hall]. rewrite Hall, Hq in Hs.
      cbn [lift and_then] in Hs. split; [exact Hs|].
      now apply Hraise.
    + intros before c after e -> Hb Hc.
      rewrite (enrich_all_first_raise _ _ _ _ _ Hb Hc) in Hs.
      cbn [and_then] in Hs. apply Hraise; [exact Hs|].
      apply exists_Raised in Hc. destruct Hc as [msg ->]. reflexivity.
  - intros q Hmode Hfix Hq.
    rewrite (search_cases_of_search w body page 0
               {| SearchResponse.query := q;
                  SearchResponse.total_results := 0;
                  SearchResponse.current_page := page;
                  SearchResponse.total_pages := 0;
                  SearchResponse.cases := [];
                  SearchResponse.metadata :=
                    {| SourceMetadata.search_url := SEARCH_URL;
                       SourceMetadata.case_url := None;
                       SourceMetadata.scrape_timestamp := utc_now w;
                       SourceMetadata.data_source := "fixture";
                       SourceMetadata.raw_html_path := None |} |});
      [reflexivity|].
    fold first_name last_name. unfold search. rewrite Hmode.
    unfold _search_fixtures. rewrite search_file_name_eq. fold listing.
    rewrite Hfix. cbn [negb and_then]. rewrite Hq. reflexivity.
  - intros e Hmode Hfix. apply Hraise.
    + unfold search. rewrite Hmode. unfold _search_fixtures.
      rewrite search_file_name_eq. fold listing. rewrite Hfix.
      reflexivity.
    + apply exists_Raised in Hfix. destruct Hfix as [msg ->]. reflexivity.
Qed.


Lemma slice_from_end {A : Type} (xs : list A) (page page_size : Z) :
  (page <= -1)%Z -> (1 <= page_size)%Z ->
  ((1 - page) * page_size <= Z.of_nat (List.length xs))%Z ->
  slice xs ((page - 1) * page_size) ((page - 1) * page_size + page_size)
  = firstn (Z.to_nat page_size)
      (skipn (Z.to_nat (Z.of_nat (List.length xs) - (1 - page) * page_size))
         xs).
Proof.
  intros Hp Hs Hlen. unfold slice, slice_bound.
  assert (E : ((page - 1) * page_size = - ((1 - page) * page_size))%Z)
    by ring.
  assert (Hpos : (page_size <= (1 - page) * page_size)%Z) by nia.
  rewrite E. set (k := ((1 - page) * page_size)%Z) in *.
  destruct (- k <? 0)%Z eqn:E1; [|apply Z.ltb_ge in E1; lia].
  destruct (- k + page_size <? 0)%Z eqn:E2.
  - rewrite !Z.max_l by lia.
    f_equal; [f_equal; lia | do 2 f_equal; lia].
  - apply Z.ltb_ge in E2. assert (k = page_size) by lia.
    rewrite Z.max_l by lia. rewrite Z.min_l by lia.
    f_equal; [f_equal; lia | do 2 f_equal; lia].
Qed.

(** X16.  A negative page number is not refused: it is counted from the
    end.  For a page number [page] below 0 and a page size from 1 on, a
    returned response holds a slice of the list [all] of all cases, the
    list whose blocks of [page_size] cases are the pages from 1 on: the
    slice runs from [(1 - page) * page_size] before the end of [all] to
    [- page * page_size] before its end (both from the start when [all]
    is shorter).  When [all] has at least [(1 - page) * page_size] cases,
    these are [page_size] cases. *)
Theorem negative_page (w : world) (first_name last_name : string)
  (page page_size : Z) (r : SearchResponse.t) :
  (page <= -1)%Z -> (1 <= page_size)%Z ->
  _search_fixtures w first_name last_name page page_size = Returned r ->
  exists all : list Case.t,
    let size := Z.to_nat page_size in
    let len := Z.of_nat (List.length all) in
    let lo := Z.max (len - (1 - page) * page_size) 0 in
    let hi := Z.max (len - - page * page_size) 0 in
    (forall p, (1 <= p)%Z ->
       exists r',
         _search_fixtures w first_name last_name p page_size = Returned r'
         /\ SearchResponse.cases r'
            = firstn size (skipn (Z.to_nat (p - 1) * size) all))
    /\ SearchResponse.total_results r = len
    /\ SearchResponse.current_page r = page
    /\ SearchResponse.cases r
       = firstn (Z.to_nat (hi - lo)) (skipn (Z.to_nat lo) all)
    /\ (((1 - page) * page_size <= len)%Z ->
        SearchResponse.cases r
        = firstn size (skipn (Z.to_nat (len - (1 - page) * page_size)) all)
        /\ List.length (SearchResponse.cases r) = size).
Proof.
  intros Hp Hs H.
  destruct (search_fixtures_all _ _ _ _ _ _ H)
    as (all & q & listed & _ & _ & _ & _ & Hall).
  assert (Hsize : page_size <> 0%Z \/ listed = false) by (left; lia).
  destruct (Hall page page_size Hsize) as (r' & Hr & Hc & Ht & Hcur & _).
  assert (r' = r) by congruence. subst r'. exists all. cbv zeta.
  split; [|split; [exact Ht|split; [exact Hcur|split]]].
  - intros p Hpage.
    destruct (Hall p page_size Hsize) as (r' & Hr' & Hc' & _).
    exists r'. split; [exact Hr'|]. rewrite Hc', slice_page by lia.
    do 2 f_equal. nia.
  - rewrite Hc. unfold slice, slice_bound.
    assert (E1 : ((page - 1) * page_size <? 0)%Z = true)
      by (apply Z.ltb_lt; nia).
    assert (E2 : ((page - 1) * page_size + page_size <? 0)%Z = true)
      by (apply Z.ltb_lt; nia).
    rewrite E1, E2.
    replace ((page - 1) * page_size + Z.of_nat (List.length all))%Z
      with (Z.of_nat (List.length all) - (1 - page) * page_size)%Z by ring.
    replace ((page - 1) * page_size + page_size
             + Z.of_nat (List.length all))%Z
      with (Z.of_nat (List.length all) - - page * page_size)%Z by ring.
    reflexivity.
  - intros Hlen. rewrite Hc, slice_from_end by assumption.
    split; [reflexivity|].
    rewrite length_firstn, length_skipn. nia.
Qed.

Lemma get_case_detail_service_Raised (w : world) (case_number : string)
  (e : error) :
  get_case_detail_service w case_number = Raised e ->
  is_http e = false
  /\ (mode w = false
      \/ exists_ (fixture w (case_file_name case_number)) = Raised e).
Proof.
  unfold get_case_detail_service, _get_case_detail_live,
    _get_case_detail_fixture. rewrite case_file_name_eq.
  destruct (mode w); [|intros H; inversion H; auto].
  destruct (exists_ (fixture w (case_file_name case_number)))
    as [present|e'] eqn:Hex; cbn [and_then].
  - destruct (negb present); [discriminate|].
    destruct (and_then _ _); discriminate.
  - intros H; inversion H; subst. split; [|now right].
    apply exists_Raised in Hex. destruct Hex as [msg ->]. reflexivity.
Qed.

(** X17.  How the two endpoints end, for integer [page] and [page_size].
    [POST /api/search] returns a response with at least one case, or
    raises [HTTPException] with status 404 (the service returned no case)
    or 500 (the service raised).  [GET /api/case/...] returns a record, or
    raises [HTTPException] with status 404, or with status 500, and that
    only outside fixture mode or when [exists()] of the detail file
    raises.  No other exception leaves them. *)
Theorem endpoints_end (w : world) :
  (forall body page page_size,
     (exists r, search_cases w body page page_size = Returned r
                /\ SearchResponse.cases r <> [])
     \/ (exists code detail,
           search_cases w body page page_size
           = Raised (HTTPException code detail)
           /\ (code = 404 \/ code = 500)%Z))
  /\ (forall case_number,
        (exists d, get_case_detail w case_number = Returned d)
        \/ (exists detail,
              get_case_detail w case_number
              = Raised (HTTPException 404 detail))
        \/ (exists detail,
              get_case_detail w case_number
              = Raised (HTTPException 500 detail)
              /\ (mode w = false
                  \/ exists e,
                       exists_ (fixture w (case_file_name case_number))
                       = Raised e))).
Proof.
  split.
  - intros body page page_size.
    destruct (search_cases_cases w body page page_size)
      as [(r & c & cs & _ & Hc & Hr) | [(r & _ & _ & Hr) | (e & _ & Hr)]];
      cbv zeta in *.
    + left. exists r. split; [exact Hr | congruence].
    + right. eauto.
    + right. eauto.
  - intros case_number. unfold get_case_detail.
    destruct (get_case_detail_service w case_number) as [[d|]|e] eqn:Hs;
      cbn [and_then].
    + left. cbn [to_http]. eauto.
    + right. left. cbn [to_http]. eauto.
    + right. right.
      apply get_case_detail_service_Raised in Hs. destruct Hs as [He Hm].
      rewrite (to_http_Raised _ _ _ e eq_refl), He.
      eexists. split; [reflexivity|]. destruct Hm; eauto.
Qed.

(** X18.  Live mode.  When the environment variable [USE_FIXTURES], in
    lower case, is not "true", both endpoints answer 500 for every
    request, with the text of the [NotImplementedError] behind the fixed
    prefix; nothing is read or parsed. *)
Theorem live_mode (w : world) :
  PyStr.lower (USE_FIXTURES w) <> "true" ->
  let refusal :=
    NotImplementedError
      "Live mode requires CAPTCHA solution and legal authorization." in
  get_mode w = "live"
  /\ (forall body page page_size,
        search_cases w body page page_size
        = Raised (HTTPException 500
                    ("An error occurred while processing your request: "
                     ++ str_error w refusal)%string))
  /\ (forall case_number,
        get_case_detail w case_number
        = Raised (HTTPException 500
                    ("An error occurred while retrieving case details: "
                     ++ str_error w refusal)%string)).
Proof.
  intros H refusal.
  assert (Hm : mode w = false).
  { unfold mode. now apply String.eqb_neq. }
  unfold get_mode, search_cases, search, get_case_detail,
    get_case_detail_service. rewrite Hm. repeat split.
Qed.


(** X19.  [GET /api/case/...] in fixture mode.  It returns a record
    exactly when the file of the case has a text, the tree of that text is
    built and the extractor returns a record for it; the record carries
    the requested case number when that is not empty.  When [exists()] of
    the file raises, which happens before the [try:] of the service, the
    endpoint answers 500 with that exception.  When [exists()] returns,
    the endpoint never answers 500: in every case without a record (no
    file, a file that cannot be read, a text the tree builder refuses, a
    parse without record) it answers 404. *)
Theorem case_detail_in_fixture_mode (w : world) (case_number : string) :
  mode w = true ->
  (forall d,
     get_case_detail w case_number = Returned d
     <-> exists html soup,
           fixture w (case_file_name case_number) = Text html
           /\ soup_of w html = inl soup
           /\ parse_case_detail soup (Some case_number) = Ret (Some d))
  /\ (forall d, get_case_detail w case_number = Returned d ->
        case_number <> EmptyString ->
        CaseDetail.case_number d = case_number)
  /\ (forall e,
        exists_ (fixture w (case_file_name case_number)) = Raised e ->
        get_case_detail w case_number
        = Raised (HTTPException 500
                    ("An error occurred while retrieving case details: "
                     ++ str_error w e)%string))
  /\ (forall present,
        exists_ (fixture w (case_file_name case_number))
        = Returned present ->
        (exists d, get_case_detail w case_number = Returned d)
        \/ get_case_detail w case_number
           = Raised (HTTPException 404
                       ("Case " ++ case_number ++ " not found")%string)).
Proof.
  intros Hm.
  assert (Hiff : forall d,
     get_case_detail w case_number = Returned d
     <-> exists html soup,
           fixture w (case_file_name case_number) = Text html
           /\ soup_of w html = inl soup
           /\ parse_case_detail soup (Some case_number) = Ret (Some d)).
  { intros d. unfold get_case_detail, get_case_detail_service,
      _get_case_detail_fixture. rewrite Hm, case_file_name_eq.
    destruct (fixture w _) as [|msg|msg|html];
      cbn [exists_ negb read_text and_then to_http].
    - split; [discriminate | intros (? & ? & ? & _); discriminate].
    - split; [discriminate | intros (? & ? & ? & _); discriminate].
    - split; [discriminate | intros (? & ? & ? & _); discriminate].
    - unfold parse_case_detail_html, BeautifulSoup.
      destruct (soup_of w html) as [soup|msg] eqn:Hsoup;
        cbn [and_then to_http].
      + destruct (parse_case_detail_cases soup (Some case_number))
          as [(d' & _ & Hp') | (e & _ & Hp')]; rewrite Hp';
          cbn [lift and_then to_http].
        * split.
          -- intros H; inversion H; subst. exists html, soup. auto.
          -- intros (h & s & Hh & Hs & Hp). inversion Hh; subst.
             rewrite Hsoup in Hs. inversion Hs; subst. congruence.
        * split; [discriminate|].
          intros (h & s & Hh & Hs & Hp). inversion Hh; subst.
          rewrite Hsoup in Hs. inversion Hs; subst. congruence.
      + split; [discriminate|].
        intros (h & s & Hh & Hs & _). inversion Hh; subst. congruence. }
  split; [exact Hiff|]. split; [|split].
  - intros d Hd Hn. apply Hiff in Hd. destruct Hd as (html & soup & _ & _ & Hp).
    apply parse_case_detail_Some, case_detail_body_number in Hp.
    unfold chosen_case_number in Hp.
    destruct case_number; [congruence|]. cbn in Hp. congruence.
  - intros e He. unfold get_case_detail, get_case_detail_service,
      _get_case_detail_fixture. rewrite Hm, case_file_name_eq, He.
    cbn [and_then].
    rewrite (to_http_Raised _ _ _ e eq_refl).
    apply exists_Raised in He. destruct He as [msg ->]. reflexivity.
  - intros present He. unfold get_case_detail.
    destruct (get_case_detail_service w case_number) as [[d|]|e] eqn:Hs;
      cbn [and_then to_http].
    + left. eauto.
    + right. reflexivity.
    + apply get_case_detail_service_Raised in Hs.
      destruct Hs as [_ [Hs | Hs]]; congruence.
Qed.

Lemma enrich_all_Forall (w : world) (P Q : Case.t -> Prop)
  (cases all : list Case.t) :
  (forall c present,
     P c ->
     exists_ (fixture w (case_file_name (Case.case_number c)))
     = Returned present ->
     Q (if present
        then with_metadata c
               {| CaseMetadata.fixture_available := true;
                  CaseMetadata.fixture_path := None |}
        else c)) ->
  Forall P cases -> enrich_all w cases = Returned all -> Forall Q all.
Proof.
  intros HPQ HP. revert all.
  induction HP as [|c cases Hc HP IH]; intros all; simpl.
  - intros H; inversion H; constructor.
  - unfold enrich. rewrite case_file_name_eq.
    destruct (exists_ (fixture w (case_file_name (Case.case_number c))))
      as [present|] eqn:Hex; [|discriminate].
    specialize (HPQ c present Hc Hex). cbn [and_then].
    destruct present; cbn [lift CaseMetadata.make and_then];
      destruct (enrich_all w cases) as [cs|]; try discriminate;
      cbn [and_then]; intros H; inversion H; subst;
      constructor; auto.
Qed.

(** X20.  Fixture metadata in a search response.  Every case of a response
    has a case number that is not empty; [exists()] of its detail file
    returned, and the case carries metadata whose flag is what it
    returned, and whose path is [None] in both cases: the path of the file
    is never recorded. *)
Theorem search_metadata (w : world) (first_name last_name : string)
  (page page_size : Z) (r : SearchResponse.t) :
  _search_fixtures w first_name last_name page page_size = Returned r ->
  Forall
    (fun c =>
       Case.case_number c <> EmptyString
       /\ exists present,
            exists_ (fixture w (case_file_name (Case.case_number c)))
            = Returned present
            /\ Case.metadata c
               = Some {| CaseMetadata.fixture_available := present;
                         CaseMetadata.fixture_path := None |})
    (SearchResponse.cases r).
Proof.
  unfold _search_fixtures.
  destruct (fixture w _) as [|msg|msg|html];
    cbn [exists_ negb read_text and_then];
    [|discriminate|discriminate|].
  - destruct (SearchRequest.make first_name last_name); [|discriminate].
    cbn. intros H; inversion H; constructor.
  - unfold parse_search_results_html, BeautifulSoup.
    destruct (soup_of w html) as [soup|]; [|discriminate].
    cbn [and_then].
    destruct (parse_search_results soup) as [cases|] eqn:Hp; [|discriminate].
    cbn [lift and_then].
    destruct (enrich_all w cases) as [all|] eqn:He; [|discriminate].
    cbn [and_then].
    destruct (SearchRequest.make first_name last_name); [|discriminate].
    cbn [lift and_then]. unfold floordiv.
    destruct (page_size =? 0)%Z; [discriminate|].
    cbn. intros H; inversion H; subst; clear H.
    apply slice_Forall.
    apply parse_search_results_Forall in Hp.
    eapply enrich_all_Forall; [|exact Hp|exact He]. cbn beta.
    intros c present (Hn & Hmeta & _) Hex.
    destruct present; cbn; (split; [exact Hn|]);
      [exists true | exists false]; auto.
Qed.

(** X21.  The names of an accepted request pass the service unchanged:
    every response the search endpoint returns for an accepted body echoes
    that body as its query.  In fixture mode, when [exists()] of the
    listing file of the names returns [False], the endpoint answers 404,
    whatever the page and the page size; when it raises (the names of an
    accepted body can make a file name that is too long), the endpoint
    answers 500 with that exception, whatever the page and the page
    size. *)
Theorem accepted_body (w : world) (first_name last_name : string)
  (body : SearchRequest.t) :
  SearchRequest.make first_name last_name = Ret body ->
  let listing :=
    fixture w (search_file_name (SearchRequest.first_name body)
                 (SearchRequest.last_name body)) in
  (forall page page_size r,
     search_cases w body page page_size = Returned r ->
     SearchResponse.query r = body)
  /\ (mode w = true -> exists_ listing = Returned false ->
      forall page page_size,
        search_cases w body page page_size
        = Raised (HTTPException 404
                    ("No cases found for " ++ SearchRequest.first_name body
                     ++ " " ++ SearchRequest.last_name body)%string))
  /\ (forall e,
        mode w = true -> exists_ listing = Raised e ->
        forall page page_size,
          search_cases w body page page_size
          = Raised (HTTPException 500
                      ("An error occurred while processing your request: "
                       ++ str_error w e)%string)).
Proof.
  intros Hb listing. apply search_request_again in Hb. split; [|split].
  - intros page page_size r H. apply search_cases_Returned in H.
    destruct H as [Hs _]. apply search_Returned in Hs.
    destruct Hs as [_ Hf].
    destruct (search_fixtures_all _ _ _ _ _ _ Hf)
      as (all & q & listed & Hq & _ & _ & Hsize & Hall).
    destruct (Hall page page_size Hsize) as (r' & Hr & _ & _ & _ & Hquery & _).
    congruence.
  - intros Hm Hmiss page page_size.
    rewrite (search_cases_of_search w body page page_size
               {| SearchResponse.query := body;
                  SearchResponse.total_results := 0;
                  SearchResponse.current_page := page;
                  SearchResponse.total_pages := 0;
                  SearchResponse.cases := [];
                  SearchResponse.metadata :=
                    {| SourceMetadata.search_url := SEARCH_URL;
                       SourceMetadata.case_url := None;
                       SourceMetadata.scrape_timestamp := utc_now w;
                       SourceMetadata.data_source := "fixture";
                       SourceMetadata.raw_html_path := None |} |});
      [reflexivity|].
    unfold search. rewrite Hm. unfold _search_fixtures.
    rewrite search_file_name_eq. fold listing. rewrite Hmiss.
    cbn [negb and_then]. rewrite Hb. reflexivity.
  - intros e Hm He page page_size. unfold search_cases, search.
    rewrite Hm. unfold _search_fixtures.
    rewrite search_file_name_eq. fold listing. rewrite He.
    cbn [and_then]. rewrite (to_http_Raised _ _ _ e eq_refl).
    apply exists_Raised in He. destruct He as [msg ->]. reflexivity.
Qed.

End Parser.

(** * The statements at sample inputs *)

Import Bs4.

Arguments Returned {A} a.
Arguments Raised {A} e.

Lemma extract_count_spec_witness :
  ~ Substring "XXXX" "Doe v Roe" /\ ~ Blank "Doe v Roe"
  /\ (forall sep', In sep' [" vs. "; " vs "; " v. "] ->
        ~ Substring sep' "Doe v Roe")
  /\ Substring " v " "Doe v Roe"
  /\ _extract_count "Doe v Roe" = Some 2%Z.
Proof.
  assert (HX : ~ Substring "XXXX" "Doe v Roe")
    by (apply contains_false_iff; reflexivity).
  assert (HB : ~ Blank "Doe v Roe")
    by (intros H; apply strip_empty_iff in H; discriminate H).
  assert (HE : forall sep', In sep' [" vs. "; " vs "; " v. "] ->
                 ~ Substring sep' "Doe v Roe")
    by (intros sep' [<- | [<- | [<- | []]]];
        apply contains_false_iff; reflexivity).
  assert (HS : Substring " v " "Doe v Roe")
    by (exists "Doe", "Roe"; reflexivity).
  refine (conj HX (conj HB (conj HE (conj HS _)))).
  exact (proj1 (proj2 (extract_count_spec "Doe v Roe")) HX HB
           [" vs. "; " vs "; " v. "] [] " v " eq_refl HE HS).
Defined.

Lemma normalize_date_spec_witness :
  "03-15-2024" <> EmptyString
  /\ (forall f, In f ["%m/%d/%Y"] -> Refused "03-15-2024" f)
  /\ Datetime.strptime "03-15-2024" "%m-%d-%Y"
     = Ret {| Datetime.year := 2024; Datetime.month := 3;
              Datetime.day := 15 |}
  /\ _normalize_date true (Some "03-15-2024") = Ret (Some "2024-03-15").
Proof.
  assert (HN : "03-15-2024" <> EmptyString) by discriminate.
  assert (HR : forall f, In f ["%m/%d/%Y"] -> Refused "03-15-2024" f)
    by (intros f [<- | []]; eexists; reflexivity).
  refine (conj HN (conj HR (conj eq_refl _))).
  exact (proj1 (proj2 (proj2 (normalize_date_spec true "03-15-2024")))
           HN ["%m/%d/%Y"] ["%Y-%m-%d"; "%Y/%m/%d"] "%m-%d-%Y"
           {| Datetime.year := 2024; Datetime.month := 3;
              Datetime.day := 15 |}
           eq_refl HR eq_refl).
Defined.


Lemma datatable_row_summary_witness :
  find_all "td" any listing_row
  = [td ""; td " 21CR012345 "; td "People vs. Smith"; td "Active";
     td "Criminal"; td "05/15/2021"]
  /\ get_text "" true (td " 21CR012345 ") <> EmptyString
  /\ exists case,
       _extract_case_from_datatable_row listing_row = Ret (Some case)
       /\ Case.case_number case = get_text "" true (td " 21CR012345 ")
       /\ Case.status case = Some (get_text "" true (td "Active"))
       /\ Case.case_type case = Some (get_text "" true (td "Criminal"))
       /\ Case.filing_date case = Some (get_text "" true (td "05/15/2021")).
Proof.
  assert (HN : get_text "" true (td " 21CR012345 ") <> EmptyString)
    by discriminate.
  refine (conj eq_refl (conj HN _)).
  exact (proj1 (datatable_row_summary true listing_row _ _ _ _ _ _ []
                  eq_refl HN)).
Defined.

Lemma parse_case_detail_escape_witness :
  soup_of (sample_world "True") "<![x]>"
  = inr "unknown status keyword 'x' in marked section"
  /\ parse_case_detail_html true sample_decode sample_re_search
       (sample_world "True") "<![x]>" None
     = Raised (ParserRejectedMarkup
                 "unknown status keyword 'x' in marked section").
Proof.
  refine (conj eq_refl _).
  exact (proj1 (parse_case_detail_escape true sample_decode sample_re_search
                  (sample_world "True") "<![x]>" None)
           _ eq_refl).
Defined.

Lemma unknown_role_rejects_document_witness :
  In witness_row (section_rows "parties" witness_document)
  /\ find_all "td" any witness_row
     = [td "Witness"; td "John"; td "M."; td "Smith"]
  /\ get_text "" true (td "Witness") <> EmptyString
  /\ ~ In (get_text "" true (td "Witness"))
         ["Plaintiff"; "Defendant"; "Petitioner"; "Respondent";
          "Appellant"; "Appellee"; "Other"]
  /\ parse_case_detail true sample_decode sample_re_search
       witness_document None = Ret None.
Proof.
  assert (H1 : In witness_row (section_rows "parties" witness_document))
    by (left; reflexivity).
  assert (H3 : get_text "" true (td "Witness") <> EmptyString)
    by discriminate.
  assert (H4 : ~ In (get_text "" true (td "Witness"))
                   ["Plaintiff"; "Defendant"; "Petitioner"; "Respondent";
                    "Appellant"; "Appellee"; "Other"])
    by (intros H; repeat (destruct H as [H | H]; [discriminate H|]);
        exact H).
  refine (conj H1 (conj eq_refl (conj H3 (conj H4 _)))).
  exact (proj2 (proj2 (unknown_role_rejects_document true sample_decode
                         sample_re_search witness_document None witness_row
                         _ _ _ _ [] H1 eq_refl H3 H4))).
Defined.

(** A comment inside the header paragraph is a piece of the text the
    searches read, while [get_text] leaves it out. *)
Example comment_in_paragraph :
  text_parts sample_decode
    (Tag "p" [] [Comment " draft "; NavigableString " Active "])
  = ["draft"; "Active"]
  /\ get_text "" true
       (Tag "p" [] [Comment " draft "; NavigableString " Active "])
     = "Active".
Proof. split; reflexivity. Qed.

(** The listing of three rows yields the summary of its one valid row. *)
Example parse_listing :
  parse_search_results listing
  = Ret [ {| Case.case_number := "21CR012345";
             Case.filing_date := Some "05/15/2021";
             Case.case_type := Some "Criminal";
             Case.status := Some "Active";
             Case.parties := Some 2%Z;
             Case.metadata :=
               Some {| CaseMetadata.fixture_available := false;
                       CaseMetadata.fixture_path := None |} |} ].
Proof. reflexivity. Qed.

(** The complete sample document yields a record. *)
Example parse_complete_document :
  parse_case_detail true sample_decode sample_re_search complete_document
    None
  = Ret (Some
           {| CaseDetail.case_number := "21CR012345";
              CaseDetail.case_caption := Some "People vs. Smith";
              CaseDetail.filing_date := Some "2021-05-15";
              CaseDetail.case_type := Some "Criminal";
              CaseDetail.status := Some "Active";
              CaseDetail.court_location := Some "Hall of Justice";
              CaseDetail.parties :=
                [ {| Party.first_name := "John"; Party.middle_name := "M.";
                     Party.last_name := "Smith";
                     Party.role := PartyRole.DEFENDANT |} ];
              CaseDetail.attorneys := [];
              CaseDetail.hearings := [];
              CaseDetail.events := [];
              CaseDetail.financials := None |}).
Proof. reflexivity. Qed.

(** ** The further properties at sample inputs *)

Lemma search_request_accepted_witness :
  SearchRequest.make " John " "Smith" = Ret john_smith
  /\ 1 <= String.length " John " <= 100 /\ ~ Blank " John "
  /\ 1 <= String.length "Smith" <= 100 /\ ~ Blank "Smith"
  /\ john_smith
     = {| SearchRequest.first_name := PyStr.strip " John ";
          SearchRequest.last_name := PyStr.strip "Smith" |}.
Proof.
  refine (conj eq_refl _).
  exact (proj1 (search_request_accepted " John " "Smith" john_smith)
           eq_refl).
Defined.

Lemma search_request_stable_witness :
  SearchRequest.make " John " "Smith" = Ret john_smith
  /\ SearchRequest.make "John" "Smith" = Ret john_smith.
Proof.
  refine (conj eq_refl _).
  exact (proj1 (search_request_stable " John " "Smith" john_smith eq_refl)).
Defined.

Lemma format_order_irrelevant_witness :
  Permutation (rev formats) formats
  /\ try_formats true "2024/03/15" (rev formats)
     = try_formats true "2024/03/15" formats.
Proof.
  assert (H : Permutation (rev formats) formats)
    by (apply Permutation_sym, Permutation_rev).
  refine (conj H _).
  exact (proj2 (format_order_irrelevant true "2024/03/15") (rev formats) H).
Defined.

Lemma normalize_date_converts_witness :
  Datetime.valid_date 2024 2 29 = true
  /\ _normalize_date true (Some "02/29/2024") = Ret (Some "2024-02-29")
  /\ _normalize_date true (Some "02-29-2024") = Ret (Some "2024-02-29")
  /\ _normalize_date true (Some "2024/02/29") = Ret (Some "2024-02-29").
Proof.
  refine (conj eq_refl _).
  exact (normalize_date_converts true
           {| Datetime.year := 2024; Datetime.month := 2;
              Datetime.day := 29 |} eq_refl).
Defined.

Lemma normalize_date_result_witness :
  "02/29/2024" <> EmptyString
  /\ exists t,
       _normalize_date true (Some "02/29/2024") = Ret (Some t)
       /\ t <> EmptyString
       /\ (t = "02/29/2024"
           \/ exists fmt dt,
                In fmt formats
                /\ Datetime.strptime "02/29/2024" fmt = Ret dt
                /\ Datetime.valid_date (Datetime.year dt) (Datetime.month dt)
                     (Datetime.day dt) = true
                /\ t = Datetime.strftime true dt "%Y-%m-%d").
Proof.
  assert (H : "02/29/2024" <> EmptyString) by discriminate.
  exact (conj H (normalize_date_result true "02/29/2024" H)).
Defined.

Lemma search_results_invariant_witness :
  exists cases,
    parse_search_results docket = Ret cases
    /\ Forall
         (fun case =>
            Case.case_number case <> EmptyString
            /\ Case.metadata case
               = Some {| CaseMetadata.fixture_available := false;
                         CaseMetadata.fixture_path := None |}
            /\ Case.filing_date case <> None /\ Case.case_type case <> None
            /\ Case.status case <> None
            /\ (forall n, Case.parties case = Some n -> (2 <= n)%Z))
         cases.
Proof.
  eexists. refine (conj eq_refl _).
  exact (search_results_invariant docket _ eq_refl).
Defined.

Lemma extract_parties_result_witness :
  exists parties,
    _extract_parties complete_document = Ret parties
    /\ List.length parties
       <= List.length (section_rows "parties" complete_document)
    /\ Forall
         (fun p =>
            exists row c0 c1 c2 c3 more,
              In row (section_rows "parties" complete_document)
              /\ find_all "td" any row = c0 :: c1 :: c2 :: c3 :: more
              /\ PartyRole.value (Party.role p) = get_text "" true c0
              /\ Party.first_name p = get_text "" true c1
              /\ Party.middle_name p = get_text "" true c2
              /\ Party.last_name p = get_text "" true c3)
         parties
    /\ (forall r, PartyRole.of_value (PartyRole.value r) = Some r).
Proof.
  eexists. refine (conj eq_refl _).
  exact (extract_parties_result complete_document _ eq_refl).
Defined.

Lemma extract_attorneys_result_witness :
  find "div" (attr_is "id" "parties") complete_document
  = Some (region "parties" [tr [td "Defendant"; td "John"; td "M.";
                                td "Smith"]])
  /\ List.length
       (find_all "table" any
          (region "parties" [tr [td "Defendant"; td "John"; td "M.";
                                 td "Smith"]])) < 2
  /\ _extract_attorneys complete_document = Ret [].
Proof.
  assert (H : List.length
                (find_all "table" any
                   (region "parties" [tr [td "Defendant"; td "John";
                                          td "M."; td "Smith"]])) < 2)
    by (vm_compute; lia).
  refine (conj eq_refl (conj H _)).
  exact (proj2 (extract_attorneys_result complete_document) _ eq_refl H).
Defined.

Lemma extract_events_result_witness :
  exists events,
    _extract_events true (document [region "events" [motion_row]])
    = Ret events
    /\ List.length events
       <= List.length
            (section_rows "events" (document [region "events" [motion_row]]))
    /\ Forall
         (fun e =>
            Event.file_date e <> EmptyString
            /\ Event.filed_by e <> Some EmptyString
            /\ Event.comment e <> Some EmptyString)
         events.
Proof.
  eexists. refine (conj eq_refl _).
  exact (proj1 (extract_events_result true
                  (document [region "events" [motion_row]])) _ eq_refl).
Defined.

Lemma detail_case_number_witness :
  exists d,
    parse_case_detail true sample_decode sample_re_search complete_document
      (Some "22CV000101") = Ret (Some d)
    /\ "22CV000101" <> EmptyString
    /\ CaseDetail.case_number d = "22CV000101".
Proof.
  assert (H : "22CV000101" <> EmptyString) by discriminate.
  eexists. refine (conj eq_refl (conj H _)).
  exact (proj1 (detail_case_number true sample_decode sample_re_search
                  complete_document (Some "22CV000101") _ eq_refl)
           "22CV000101" eq_refl H).
Defined.


Lemma search_pages_witness :
  (1 <= 2)%Z
  /\ exists r0,
       _search_fixtures (sample_world "True") "John" "Smith" 1 2
       = Returned r0
       /\ exists all : list Case.t,
            let size := Z.to_nat 2 in
            let pages := SearchResponse.total_pages r0 in
            SearchResponse.total_results r0 = Z.of_nat (List.length all)
            /\ (forall page, (1 <= page)%Z ->
                  exists r,
                    _search_fixtures (sample_world "True") "John" "Smith"
                      page 2 = Returned r
                    /\ SearchResponse.cases r
                       = firstn size (skipn (Z.to_nat (page - 1) * size) all)
                    /\ SearchResponse.current_page r = page
                    /\ SearchResponse.query r = SearchResponse.query r0
                    /\ SearchResponse.total_results r
                       = SearchResponse.total_results r0
                    /\ SearchResponse.total_pages r = pages)
            /\ (0 <= pages /\ Z.of_nat (List.length all) <= pages * 2
                /\ (pages - 1) * 2 < Z.of_nat (List.length all))%Z
            /\ concat (map (fun i => firstn size (skipn (i * size) all))
                         (seq 0 (Z.to_nat pages)))
               = all.
Proof.
  assert (H : (1 <= 2)%Z) by lia.
  refine (conj H _). eexists. refine (conj eq_refl _).
  exact (search_pages (sample_world "True") "John" "Smith" 1 2 _ H eq_refl).
Defined.

Lemma search_cases_pages_witness :
  (1 <= 2)%Z
  /\ exists r0,
       search_cases (sample_world "True") john_smith 1 2 = Returned r0
       /\ (1 <= 2 <= SearchResponse.total_pages r0)%Z
       /\ exists r,
            search_cases (sample_world "True") john_smith 2 2 = Returned r
            /\ 1 <= List.length (SearchResponse.cases r) <= Z.to_nat 2
            /\ SearchResponse.current_page r = 2%Z
            /\ SearchResponse.total_results r
               = SearchResponse.total_results r0.
Proof.
  assert (H : (1 <= 2)%Z) by lia.
  refine (conj H _). eexists. refine (conj eq_refl _).
  match goal with
  | |- ?P /\ _ => assert (H2 : P) by (vm_compute; split; discriminate)
  end.
  refine (conj H2 _).
  exact (proj1 (search_cases_pages (sample_world "True") john_smith 1 2 _
                  H eq_refl 2%Z) H2).
Defined.

Lemma page_size_zero_witness :
  mode (sample_world "True") = true
  /\ fixture (sample_world "True") (search_file_name "John" "Smith")
     = Text "docket"
  /\ soup_of (sample_world "True") "docket" = inl docket
  /\ SearchRequest.make "John" "Smith" = Ret john_smith
  /\ exists cases,
       parse_search_results docket = Ret cases
       /\ (forall c, In c cases ->
             exists present,
               exists_ (fixture (sample_world "True")
                          (case_file_name (Case.case_number c)))
               = Returned present)
       /\ search (sample_world "True") "John" "Smith" 1 0
          = Raised ZeroDivisionError
       /\ search_cases (sample_world "True") john_smith 1 0
          = Raised (HTTPException 500
                      ("An error occurred while processing your request: "
                       ++ "integer division or modulo by zero")%string).
Proof.
  refine (conj eq_refl (conj eq_refl (conj eq_refl (conj eq_refl _)))).
  eexists. refine (conj eq_refl _).
  match goal with
  | |- ?P /\ _ =>
      assert (H : P)
        by (intros c [<- | [<- | [<- | []]]]; eexists; reflexivity)
  end.
  refine (conj H _).
  exact (proj1 (proj1 (proj2 (page_size_zero (sample_world "True")
                                john_smith 1))
                  "docket" docket _ eq_refl eq_refl eq_refl eq_refl)
           john_smith H eq_refl).
Defined.

Lemma negative_page_witness :
  (-1 <= -1)%Z /\ (1 <= 1)%Z
  /\ exists r,
       _search_fixtures (sample_world "True") "John" "Smith" (-1) 1
       = Returned r
       /\ exists all : list Case.t,
            let size := Z.to_nat 1 in
            let len := Z.of_nat (List.length all) in
            let lo := Z.max (len - (1 - -1) * 1) 0 in
            let hi := Z.max (len - - -1 * 1) 0 in
            (forall p, (1 <= p)%Z ->
               exists r',
                 _search_fixtures (sample_world "True") "John" "Smith" p 1
                 = Returned r'
                 /\ SearchResponse.cases r'
                    = firstn size (skipn (Z.to_nat (p - 1) * size) all))
            /\ SearchResponse.total_results r = len
            /\ SearchResponse.current_page r = (-1)%Z
            /\ SearchResponse.cases r
               = firstn (Z.to_nat (hi - lo)) (skipn (Z.to_nat lo) all)
            /\ (((1 - -1) * 1 <= len)%Z ->
                SearchResponse.cases r
                = firstn size
                    (skipn (Z.to_nat (len - (1 - -1) * 1)) all)
                /\ List.length (SearchResponse.cases r) = size).
Proof.
  assert (H1 : (-1 <= -1)%Z) by lia.
  assert (H2 : (1 <= 1)%Z) by lia.
  refine (conj H1 (conj H2 _)). eexists. refine (conj eq_refl _).
  exact (negative_page (sample_world "True") "John" "Smith" (-1) 1 _
           H1 H2 eq_refl).
Defined.

Lemma live_mode_witness :
  PyStr.lower (USE_FIXTURES (sample_world "False")) <> "true"
  /\ get_mode (sample_world "False") = "live"
  /\ (forall body page page_size,
        search_cases (sample_world "False") body page page_size
        = Raised (HTTPException 500
                    ("An error occurred while processing your request: "
                     ++ "Live mode requires CAPTCHA solution and legal "
                     ++ "authorization.")%string))
  /\ (forall case_number,
        get_case_detail true sample_decode sample_re_search
          (sample_world "False") case_number
        = Raised (HTTPException 500
                    ("An error occurred while retrieving case details: "
                     ++ "Live mode requires CAPTCHA solution and legal "
                     ++ "authorization.")%string)).
Proof.
  assert (H : PyStr.lower (USE_FIXTURES (sample_world "False")) <> "true")
    by (intros H; vm_compute in H; discriminate H).
  exact (conj H (live_mode true sample_decode sample_re_search
                   (sample_world "False") H)).
Defined.

Lemma case_detail_in_fixture_mode_witness :
  mode (sample_world "True") = true
  /\ "21CR012345" <> EmptyString
  /\ (exists d,
        get_case_detail true sample_decode sample_re_search
          (sample_world "True") "21CR012345" = Returned d
        /\ CaseDetail.case_number d = "21CR012345")
  /\ (exists e,
        exists_ (fixture (sample_world "True")
                   (case_file_name long_case_number)) = Raised e
        /\ get_case_detail true sample_decode sample_re_search
             (sample_world "True") long_case_number
           = Raised (HTTPException 500
                       ("An error occurred while retrieving case details: "
                        ++ str_error (sample_world "True") e)%string)).
Proof.
  assert (H : "21CR012345" <> EmptyString) by discriminate.
  refine (conj eq_refl (conj H (conj _ _))).
  - eexists. refine (conj eq_refl _).
    exact (proj1 (proj2 (case_detail_in_fixture_mode true sample_decode
                           sample_re_search (sample_world "True")
                           "21CR012345" eq_refl))
             _ eq_refl H).
  - eexists. refine (conj eq_refl _).
    exact (proj1 (proj2 (proj2 (case_detail_in_fixture_mode true
                                  sample_decode sample_re_search
                                  (sample_world "True") long_case_number
                                  eq_refl)))
             _ eq_refl).
Defined.

Lemma search_metadata_witness :
  exists r,
    _search_fixtures (sample_world "True") "John" "Smith" 1 2 = Returned r
    /\ Forall
         (fun c =>
            Case.case_number c <> EmptyString
            /\ exists present,
                 exists_ (fixture (sample_world "True")
                            (case_file_name (Case.case_number c)))
                 = Returned present
                 /\ Case.metadata c
                    = Some {| CaseMetadata.fixture_available := present;
                              CaseMetadata.fixture_path := None |})
         (SearchResponse.cases r).
Proof.
  eexists. refine (conj eq_refl _).
  exact (search_metadata (sample_world "True") "John" "Smith" 1 2 _ eq_refl).
Defined.

Lemma accepted_body_witness :
  SearchRequest.make long_name long_name
  = Ret {| SearchRequest.first_name := long_name;
           SearchRequest.last_name := long_name |}
  /\ SearchRequest.make " Jane " "Doe"
     = Ret {| SearchRequest.first_name := "Jane";
              SearchRequest.last_name := "Doe" |}
  /\ mode (sample_world "True") = true
  /\ exists_ (fixture (sample_world "True") (search_file_name "Jane" "Doe"))
     = Returned false
  /\ (forall page page_size,
        search_cases (sample_world "True")
          {| SearchRequest.first_name := "Jane";
             SearchRequest.last_name := "Doe" |} page page_size
        = Raised (HTTPException 404 "No cases found for Jane Doe"))
  /\ exists e,
       exists_ (fixture (sample_world "True")
                  (search_file_name long_name long_name)) = Raised e
       /\ forall page page_size,
            search_cases (sample_world "True")
              {| SearchRequest.first_name := long_name;
                 SearchRequest.last_name := long_name |} page page_size
            = Raised (HTTPException 500
                        ("An error occurred while processing your request: "
                         ++ str_error (sample_world "True") e)%string).
Proof.
  refine (conj eq_refl (conj eq_refl (conj eq_refl (conj eq_refl
            (conj _ _))))).
  { exact (proj1 (proj2 (accepted_body (sample_world "True") " Jane " "Doe"
                           {| SearchRequest.first_name := "Jane";
                              SearchRequest.last_name := "Doe" |} eq_refl))
             eq_refl eq_refl). }
  eexists. refine (conj eq_refl _).
  exact (proj2 (proj2 (accepted_body (sample_world "True") long_name
                         long_name
                         {| SearchRequest.first_name := long_name;
                            SearchRequest.last_name := long_name |}
                         eq_refl))
           _ eq_refl eq_refl).
Defined.
